(** * infolegAI: the scraping and incremental-merge pipeline

    A shallow embedding of [dataset/infoleg_scraper.py] (the [InfolegClient]
    resource) and of [dataset/defs/assets.py] (the Dagster assets), with the
    properties of the date normalizer, the bulletin search client, the
    batched fetcher and the merge pipeline.

    Conventions of the embedding.
    - A Python [str] is a [string] whose characters are read as code points
      below 256 (Latin-1); [int] is [Z]; [None] is [None].  Texts with a
      code point of 256 or more are outside the embedding: for them the
      classes [\d] and [\s] of Python hold more characters than here, and
      every statement on texts below is a statement on texts of code
      points below 256.
    - A Python exception is a value of [exn]; code that can raise returns a
      [result].
    - The network, the object store and the warehouse are explicit worlds:
      records of the answers they give, passed to the functions that query
      them; the effects a function performs are returned as a chronological
      list of [Event]s. *)

From Stdlib Require Import Strings.String Strings.Ascii Lists.List.
From Stdlib Require Import ZArith.ZArith Bool.Bool micromega.Lia Arith.PeanoNat.
From Stdlib Require Import QArith.QArith_base Sorting.Permutation.
Import ListNotations.
Local Open Scope string_scope.
Local Open Scope Z_scope.

(** ** Python strings *)

Module PyStr.

Definition code (c : ascii) : nat := nat_of_ascii c.

Definition in_range (lo hi : nat) (c : ascii) : bool :=
  (Nat.leb lo (code c)) && (Nat.leb (code c) hi).

(** [\d] on code points below 256, and [str.isdigit]. *)
Definition is_digit (c : ascii) : bool := in_range 48 57 c.

(** [[1-9]]. *)
Definition is_digit19 (c : ascii) : bool := in_range 49 57 c.

Definition is_upper (c : ascii) : bool := in_range 65 90 c.
Definition is_lower (c : ascii) : bool := in_range 97 122 c.

(** [[A-Za-z]]. *)
Definition is_letter (c : ascii) : bool := is_upper c || is_lower c.

(** [str.isspace] on code points below 256: TAB..CR, FS..US, space, NEL
    and the no-break space. *)
Definition is_space (c : ascii) : bool :=
  in_range 9 13 c || in_range 28 32 c
  || Nat.eqb (code c) 133 || Nat.eqb (code c) 160.

(** Value of a decimal digit. *)
Definition dval (c : ascii) : Z := Z.of_nat (code c - 48).

Definition digit_char (v : Z) : ascii := ascii_of_nat (48 + Z.to_nat v).

(** [str.lstrip()], [str.rstrip()] and [str.strip()] with no argument. *)
Fixpoint lstrip (s : string) : string :=
  match s with
  | EmptyString => EmptyString
  | String c r => if is_space c then lstrip r else s
  end.

Fixpoint rstrip (s : string) : string :=
  match s with
  | EmptyString => EmptyString
  | String c r =>
      match rstrip r with
      | EmptyString => if is_space c then EmptyString else String c EmptyString
      | r' => String c r'
      end
  end.

Definition strip (s : string) : string := rstrip (lstrip s).

(** [str.upper()] on the ASCII letters; the program applies it only to
    text matched by [[A-Za-z]{3}]. *)
Definition upper_char (c : ascii) : ascii :=
  if is_lower c then ascii_of_nat (code c - 32) else c.

Fixpoint upper (s : string) : string :=
  match s with
  | EmptyString => EmptyString
  | String c r => String (upper_char c) (upper r)
  end.

(** [str.lower()] on code points below 256: A-Z and the accented capitals
    0xC0-0xDE other than the multiplication sign 0xD7. *)
Definition lower_char (c : ascii) : ascii :=
  if is_upper c || (in_range 192 222 c && negb (Nat.eqb (code c) 215))
  then ascii_of_nat (code c + 32) else c.

Fixpoint lower (s : string) : string :=
  match s with
  | EmptyString => EmptyString
  | String c r => String (lower_char c) (lower r)
  end.

(** [s.startswith(p)]. *)
Fixpoint startswith (p s : string) : bool :=
  match p, s with
  | EmptyString, _ => true
  | String a p', String b s' => Ascii.eqb a b && startswith p' s'
  | String _ _, EmptyString => false
  end.

(** [p in s]. *)
Fixpoint contains (p s : string) : bool :=
  startswith p s ||
  match s with
  | EmptyString => false
  | String _ r => contains p r
  end.

(** The longest prefix of decimal digits and what follows it: the match
    of a greedy [\d*]. *)
Fixpoint span_digits (s : string) : string * string :=
  match s with
  | String c r =>
      if is_digit c
      then let '(ds, rest) := span_digits r in (String c ds, rest)
      else (EmptyString, s)
  | EmptyString => (EmptyString, EmptyString)
  end.

(** [int(s)] for a string of decimal digits, surrounding whitespace
    allowed. *)
Fixpoint int_digits (acc : Z) (s : string) : Z :=
  match s with
  | EmptyString => acc
  | String c r => int_digits (10 * acc + dval c) r
  end.

Definition int (s : string) : Z := int_digits 0 (strip s).

(** Zero-padded decimal renderings, the [%02d] and [%04d] of [strftime]. *)
Definition pad2 (v : Z) : string :=
  String (digit_char (v / 10)) (String (digit_char (v mod 10)) EmptyString).

Definition pad4 (v : Z) : string :=
  String (digit_char (v / 1000))
    (String (digit_char ((v / 100) mod 10))
       (String (digit_char ((v / 10) mod 10))
          (String (digit_char (v mod 10)) EmptyString))).

End PyStr.
Import PyStr.

(** ** Exceptions *)

(** The exception classes the pipeline raises or catches.  All but
    [CancelledError] derive from [Exception]; [asyncio.CancelledError]
    derives from [BaseException] only. *)
Inductive exn : Type :=
  | ValueError
  | LookupError
  | FileNotFoundError
  | HTTPStatusError (status : Z)
  | RequestError
  | WarehouseError
  | ComputeError
  | CancelledError.

Definition isinstance_Exception (e : exn) : bool :=
  match e with
  | CancelledError => false
  | _ => true
  end.

Inductive result (A : Type) : Type :=
  | Ok (a : A)
  | Raise (e : exn).
Arguments Ok {A} a.
Arguments Raise {A} e.

Definition bind {A B : Type} (r : result A) (k : A -> result B) : result B :=
  match r with
  | Ok a => k a
  | Raise e => Raise e
  end.

(** ** [datetime.strptime] and [strftime] *)

Module DateTime.

Record date : Type := mkdate { year : Z; month : Z; day : Z }.

Definition is_leap (y : Z) : bool :=
  (y mod 4 =? 0) && (negb (y mod 100 =? 0) || (y mod 400 =? 0)).

Definition days_in_month (y m : Z) : Z :=
  if m =? 2 then (if is_leap y then 29 else 28)
  else if (m =? 4) || (m =? 6) || (m =? 9) || (m =? 11) then 30
  else 31.

(** The range check of the [date] constructor: [MINYEAR = 1],
    [MAXYEAR = 9999]. *)
Definition valid_date (y m d : Z) : bool :=
  (1 <=? y) && (y <=? 9999) && (1 <=? m) && (m <=? 12)
  && (1 <=? d) && (d <=? days_in_month y m).

(** A regular-expression alternation is tried in order, and a later
    alternative is taken when what follows the group does not match:
    [first_success alts k] is the first alternative on which the
    continuation [k] succeeds. *)
Fixpoint first_success {A B : Type} (alts : list A) (k : A -> option B)
  : option B :=
  match alts with
  | [] => None
  | a :: rest =>
      match k a with
      | Some b => Some b
      | None => first_success rest k
      end
  end.

(** The directive [%d]: [(?P<d>3[0-1]|[1-2]\d|0[1-9]|[1-9]| [1-9])].
    Each alternative that matches at the start of [s] gives the text of
    the group and the rest of the input. *)
Definition alts_d (s : string) : list (string * string) :=
  match s with
  | String c1 r1 =>
      let two (ok : ascii -> ascii -> bool) :=
        match r1 with
        | String c2 r2 =>
            if ok c1 c2 then [(String c1 (String c2 EmptyString), r2)] else []
        | EmptyString => []
        end in
      two (fun a b => Ascii.eqb a "3" && in_range 48 49 b)
      ++ two (fun a b => in_range 49 50 a && is_digit b)
      ++ two (fun a b => Ascii.eqb a "0" && is_digit19 b)
      ++ (if is_digit19 c1 then [(String c1 EmptyString, r1)] else [])
      ++ two (fun a b => Ascii.eqb a " " && is_digit19 b)
  | EmptyString => []
  end.

(** The directive [%m]: [(?P<m>1[0-2]|0[1-9]|[1-9])]. *)
Definition alts_m (s : string) : list (string * string) :=
  match s with
  | String c1 r1 =>
      let two (ok : ascii -> ascii -> bool) :=
        match r1 with
        | String c2 r2 =>
            if ok c1 c2 then [(String c1 (String c2 EmptyString), r2)] else []
        | EmptyString => []
        end in
      two (fun a b => Ascii.eqb a "1" && in_range 48 50 b)
      ++ two (fun a b => Ascii.eqb a "0" && is_digit19 b)
      ++ (if is_digit19 c1 then [(String c1 EmptyString, r1)] else [])
  | EmptyString => []
  end.

(** The directive [%Y]: [(?P<Y>\d\d\d\d)]. *)
Definition match_Y (s : string) : option (string * string) :=
  match s with
  | String a (String b (String c (String d r))) =>
      if is_digit a && is_digit b && is_digit c && is_digit d
      then Some (String a (String b (String c (String d EmptyString))), r)
      else None
  | _ => None
  end.

(** A literal character of the format. *)
Definition lit (c : ascii) (s : string) : option string :=
  match s with
  | String c' r => if Ascii.eqb c c' then Some r else None
  | EmptyString => None
  end.

(** The groups found by the regular expression of the format, with the
    unconverted rest of the input: (d, m, Y, rest). *)
Definition groups : Type := string * string * string * string.

(** [_strptime]: the format's regular expression must match at the start
    of the data and consume all of it; the groups are read with [int] and
    handed to the [date] constructor, which checks the ranges.  [None]
    stands for the [ValueError] raised otherwise. *)
Definition finish (g : option groups) : option date :=
  match g with
  | None => None
  | Some (d, m, y, rest) =>
      match rest with
      | EmptyString =>
          if valid_date (int y) (int m) (int d)
          then Some (mkdate (int y) (int m) (int d))
          else None
      | String _ _ => None
      end
  end.

(** The regular expression of ["%d/%m/%Y"]. *)
Definition regex_dmY (s : string) : option groups :=
  first_success (alts_d s) (fun '(d, s1) =>
    match lit "/" s1 with
    | None => None
    | Some s2 =>
        first_success (alts_m s2) (fun '(m, s3) =>
          match lit "/" s3 with
          | None => None
          | Some s4 =>
              match match_Y s4 with
              | Some (y, rest) => Some (d, m, y, rest)
              | None => None
              end
          end)
    end).

Definition strptime_dmY (s : string) : option date := finish (regex_dmY s).

(** The regular expression of ["%Y-%m-%d"]. *)
Definition regex_Ymd (s : string) : option groups :=
  match match_Y s with
  | None => None
  | Some (y, s1) =>
      match lit "-" s1 with
      | None => None
      | Some s2 =>
          first_success (alts_m s2) (fun '(m, s3) =>
            match lit "-" s3 with
            | None => None
            | Some s4 =>
                first_success (alts_d s4) (fun '(d, rest) =>
                  Some (d, m, y, rest))
            end)
      end
  end.

Definition strptime_Ymd (s : string) : option date := finish (regex_Ymd s).

(** [%Y] as CPython 3.11 writes it on Linux: the directive is handed to
    the [strftime] of the C library, and glibc writes the year as a
    decimal number with no padding, so the years below 1000 have fewer
    than four digits. *)
Definition year_text (y : Z) : string :=
  if y <? 10 then String (digit_char y) EmptyString
  else if y <? 100 then pad2 y
  else if y <? 1000 then String (digit_char (y / 100)) (pad2 (y mod 100))
  else pad4 y.

(** [dt.strftime("%Y-%m-%d")]. *)
Definition strftime_Ymd (dt : date) : string :=
  year_text (year dt) ++ "-" ++ pad2 (month dt) ++ "-" ++ pad2 (day dt).

End DateTime.
Import DateTime.

(** ** [InfolegClient.convert_date_format] *)

(** A [dict] with string keys, in insertion order; [get] is [dict.get]. *)
Fixpoint get {V : Type} (m : list (string * V)) (k : string) : option V :=
  match m with
  | [] => None
  | (k', v) :: rest => if String.eqb k' k then Some v else get rest k
  end.

Definition month_map : list (string * string) :=
  [ ("ENE", "01"); ("FEB", "02"); ("MAR", "03"); ("ABR", "04");
    ("MAY", "05"); ("JUN", "06"); ("JUL", "07"); ("AGO", "08");
    ("SEP", "09"); ("OCT", "10"); ("NOV", "11"); ("DIC", "12");
    ("ene", "01"); ("feb", "02"); ("mar", "03"); ("abr", "04");
    ("may", "05"); ("jun", "06"); ("jul", "07"); ("ago", "08");
    ("sep", "09"); ("oct", "10"); ("nov", "11"); ("dic", "12") ].

(** [re.match(r"(\d{2})-([A-Za-z]{3})-(\d{4})", s)]: anchored at the start
    only; the groups (day, month_abbr, year). *)
Definition match_dd_mmm_yyyy (s : string) : option (string * string * string) :=
  match s with
  | String d1 (String d2 (String h1 (String l1 (String l2 (String l3
      (String h2 (String y1 (String y2 (String y3 (String y4 _)))))))))) =>
      if is_digit d1 && is_digit d2 && Ascii.eqb h1 "-"
         && is_letter l1 && is_letter l2 && is_letter l3 && Ascii.eqb h2 "-"
         && is_digit y1 && is_digit y2 && is_digit y3 && is_digit y4
      then Some (String d1 (String d2 EmptyString),
                 String l1 (String l2 (String l3 EmptyString)),
                 String y1 (String y2 (String y3 (String y4 EmptyString))))
      else None
  | _ => None
  end.

Definition truthy (s : string) : bool :=
  match s with
  | EmptyString => false
  | String _ _ => true
  end.

Definition convert_date_format (date_str : string) : option string :=
  if negb (truthy date_str) then None
  else
    match strptime_dmY (strip date_str) with
    | Some dt => Some (strftime_Ymd dt)
    | None =>
        match match_dd_mmm_yyyy (strip date_str) with
        | Some (day, month_abbr, year) =>
            match get month_map (upper month_abbr) with
            | Some month =>
                if truthy month
                then Some (year ++ "-" ++ month ++ "-" ++ day)
                else None
            | None => None
            end
        | None => None
        end
    end.

Local Open Scope list_scope.

(** ** The network as the scraper sees it *)

(** The form of the date search. *)
Record FormData : Type := mkForm {
  buscarPorNro : string;
  diaPub : Z;
  mesPub : Z;
  anioPub : Z
}.

(** The answer to the search: the status, the body, and the [href] of every
    [<a>] element of [BeautifulSoup(response.text, "html.parser")] that has
    one, in document order. *)
Record SearchResponse : Type := mkSearchResponse {
  status_code : Z;
  text : string;
  anchors : list string
}.

(** [Response.is_success] and [Response.raise_for_status]. *)
Definition is_success (status : Z) : bool := (200 <=? status) && (status <=? 299).

Definition raise_for_status (status : Z) : result unit :=
  if is_success status then Ok tt else Raise (HTTPStatusError status).

(** ** The record of a norma *)

Record NormaRecord : Type := mkNorma {
  id_norma : Z;
  tipo_norma : string;
  numero_norma : string;
  clase_norma : string;
  organismo_origen : string;
  fecha_sancion : string;
  numero_boletin : string;
  fecha_boletin : string;
  pagina_boletin : string;
  titulo_resumido : string;
  titulo_sumario : string;
  texto_resumido : string;
  observaciones : string;
  texto_original : string;
  texto_actualizado : string;
  modificada_por : string;
  modifica_a : string
}.

(** The page of a norma as the extraction rules query it.  The rules for
    the two dates and the two titles are embedded below from these
    queries; each of the other rules either assigns its field or leaves the
    default, and is given by what it assigns ([None] when it does not
    fire). *)
Record PTag : Type := mkP {
  p_get_text : string;
  (** [p.find("a", href=re.compile(r"page_id=216"))], its
      [get_text(strip=True)] *)
  p_fecha_link : option string
}.

Record H1Tag : Type := mkH1 {
  h1_get_text : string;
  (** [h1_tag.find_next_sibling("p")] *)
  h1_next_p : option PTag
}.

Record Soup : Type := mkSoup {
  (** [soup.find("span", class_="vr_azul11")], its [get_text(strip=True)] *)
  span_vr_azul11 : option string;
  find_h1 : option H1Tag;
  (** [soup.find("span", class_="destacado")], its [get_text(strip=True)] *)
  span_destacado : option string;
  rule_tipo_norma : option string;
  rule_numero_norma : option string;
  rule_clase_norma : option string;
  rule_organismo_origen : option string;
  rule_numero_boletin : option string;
  rule_pagina_boletin : option string;
  rule_texto_resumido : option string;
  rule_observaciones : option string;
  rule_texto_original : option string;
  rule_texto_actualizado : option string;
  rule_modificada_por : option string;
  rule_modifica_a : option string
}.

(** The answer to the GET of a norma: the status, and the page, or the
    exception that parsing it or a rule raises. *)
Record NormaResponse : Type := mkNormaResponse {
  norma_status : Z;
  norma_soup : result Soup
}.

(** What one run sees of the site. *)
Record Site : Type := mkSite {
  post : FormData -> result SearchResponse;
  http_get : Z -> result NormaResponse
}.

(** ** Effects *)

Inductive Statement : Type := MERGE | TRUNCATE.

Inductive Event : Type :=
  | EvPost (form : FormData)
  | EvWriteHeader
  | EvGather (ids : list Z)
  | EvWriteRow (row : NormaRecord)
  | EvFlush
  | EvSleep (seconds : Q)
  | EvClose
  | EvUpload (local_path blob_name : string)
  | EvQuery (sql : Statement).

(** ** [InfolegClient.search_boletines] *)

Definition LF : ascii := ascii_of_nat 10.

(** [s] without the prefix [p], when it starts with it. *)
Fixpoint strip_prefix (p s : string) : option string :=
  match p, s with
  | EmptyString, _ => Some s
  | String a p', String b s' => if Ascii.eqb a b then strip_prefix p' s' else None
  | String _ _, EmptyString => None
  end.

(** [\?id=(\d+)] matched at the start of [s]: the group. *)
Definition match_id_at (s : string) : option string :=
  match strip_prefix "?id=" s with
  | Some r =>
      match span_digits r with
      | (EmptyString, _) => None
      | (ds, _) => Some ds
      end
  | None => None
  end.

(** [re.search(r"\?id=(\d+)", href)]: the group of the leftmost match. *)
Fixpoint search_id (s : string) : option string :=
  match match_id_at s with
  | Some ds => Some ds
  | None =>
      match s with
      | EmptyString => None
      | String _ r => search_id r
      end
  end.

(** [.*\?id=\d+] matched at the start of [s]; the dot matches no line
    feed. *)
Fixpoint match_any_then_id (s : string) : bool :=
  match match_id_at s with
  | Some _ => true
  | None =>
      match s with
      | EmptyString => false
      | String c r => negb (Ascii.eqb c LF) && match_any_then_id r
      end
  end.

(** [re.compile(r"verNorma\.do.*\?id=\d+").search(href)], the filter of
    [soup.find_all("a", href=...)]. *)
Fixpoint search_verNorma (s : string) : bool :=
  match strip_prefix "verNorma.do" s with
  | Some r => match_any_then_id r
  | None => false
  end
  || match s with
     | EmptyString => false
     | String _ r => search_verNorma r
     end.

(** [int(match.group(1))] raises [ValueError] for a text of more than
    [sys.get_int_max_str_digits()] digits, 4300 by default. *)
Definition int_max_str_digits : Z := 4300.

(** A link of the loop whose number [int] refuses. *)
Definition int_refuses (href : string) : bool :=
  search_verNorma href
  && match search_id href with
     | Some g => int_max_str_digits <? Z.of_nat (String.length g)
     | None => false
     end.

(** The loop over the links when [int] accepts every number: identifiers
    in order of first appearance. *)
Fixpoint collect_ids (hrefs : list string) (norma_ids : list Z) : list Z :=
  match hrefs with
  | [] => norma_ids
  | href :: rest =>
      if search_verNorma href then
        match search_id href with
        | Some g =>
            let norma_id := int_digits 0 g in
            if existsb (Z.eqb norma_id) norma_ids
            then collect_ids rest norma_ids
            else collect_ids rest (norma_ids ++ [norma_id])
        | None => collect_ids rest norma_ids
        end
      else collect_ids rest norma_ids
  end.

Definition no_results_marker (response_text : string) : bool :=
  contains "no se encontraron" (lower response_text)
  || contains "sin resultados" (lower response_text).

(** The body of the [try] block.  The loop raises at the first link whose
    number [int] refuses. *)
Definition search_try (site : Site) (form_data : FormData) : result (list Z) :=
  bind (post site form_data) (fun response =>
  bind (raise_for_status (status_code response)) (fun _ =>
    if existsb int_refuses (anchors response) then Raise ValueError
    else
      let norma_ids := collect_ids (anchors response) [] in
      if (Z.of_nat (List.length norma_ids) =? 0) then
        if no_results_marker (text response) then Ok norma_ids
        else Raise LookupError
      else Ok norma_ids)).

(** The three [except] clauses: [httpx.HTTPStatusError],
    [httpx.RequestError], [Exception]; each returns the empty list. *)
Definition search_except (r : result (list Z)) : result (list Z) :=
  match r with
  | Ok ids => Ok ids
  | Raise (HTTPStatusError _) => Ok []
  | Raise RequestError => Ok []
  | Raise e => if isinstance_Exception e then Ok [] else Raise e
  end.

Definition search_boletines (site : Site) (boletin_fecha : string)
  : result (list Z) * list Event :=
  match strptime_Ymd boletin_fecha with
  | None => (Raise ValueError, [])
  | Some fecha =>
      let form_data := mkForm "false" (day fecha) (month fecha) (year fecha) in
      (search_except (search_try site form_data), [EvPost form_data])
  end.

(** ** [InfolegClient.scrape_norma_by_id] *)

Definition or_default (rule : option string) (default : string) : string :=
  match rule with
  | Some v => v
  | None => default
  end.

(** [(\d{2}-[A-Z]{3}-\d{4})] matched at the start of [s]: the group. *)
Definition match_fecha_at (s : string) : option string :=
  match s with
  | String d1 (String d2 (String h1 (String l1 (String l2 (String l3
      (String h2 (String y1 (String y2 (String y3 (String y4 _)))))))))) =>
      if is_digit d1 && is_digit d2 && Ascii.eqb h1 "-"
         && is_upper l1 && is_upper l2 && is_upper l3 && Ascii.eqb h2 "-"
         && is_digit y1 && is_digit y2 && is_digit y3 && is_digit y4
      then Some (String d1 (String d2 (String h1 (String l1 (String l2
             (String l3 (String h2 (String y1 (String y2 (String y3
               (String y4 EmptyString)))))))))))
      else None
  | _ => None
  end.

(** [re.search(r"(\d{2}-[A-Z]{3}-\d{4})", boletin_text)]. *)
Fixpoint search_fecha (s : string) : option string :=
  match match_fecha_at s with
  | Some g => Some g
  | None =>
      match s with
      | EmptyString => None
      | String _ r => search_fecha r
      end
  end.

(** The rule of [fecha_sancion]. *)
Definition extract_fecha_sancion (soup : Soup) : string :=
  match span_vr_azul11 soup with
  | Some fecha_text =>
      match convert_date_format fecha_text with
      | Some fecha_converted => fecha_converted
      | None => fecha_text
      end
  | None => ""
  end.

(** The rule of [fecha_boletin]: the link first, then the regular
    expression over the text of the paragraph. *)
Definition extract_fecha_boletin (soup : Soup) : string :=
  match find_h1 soup with
  | Some h1_tag =>
      match h1_next_p h1_tag with
      | Some p_boletin =>
          let from_link :=
            match p_fecha_link p_boletin with
            | Some fecha_text =>
                match convert_date_format fecha_text with
                | Some fecha_converted => fecha_converted
                | None => ""
                end
            | None => ""
            end in
          if negb (truthy from_link) then
            match search_fecha (p_get_text p_boletin) with
            | Some g =>
                match convert_date_format g with
                | Some fecha_converted => fecha_converted
                | None => from_link
                end
            | None => from_link
            end
          else from_link
      | None => ""
      end
  | None => ""
  end.

(** The dictionary [data] when the rules have run. *)
Definition extract (norma_id : Z) (soup : Soup) : NormaRecord :=
  {| id_norma := norma_id;
     tipo_norma := or_default (rule_tipo_norma soup) "";
     numero_norma := or_default (rule_numero_norma soup) "S/N";
     clase_norma := or_default (rule_clase_norma soup) "";
     organismo_origen := or_default (rule_organismo_origen soup) "";
     fecha_sancion := extract_fecha_sancion soup;
     numero_boletin := or_default (rule_numero_boletin soup) "";
     fecha_boletin := extract_fecha_boletin soup;
     pagina_boletin := or_default (rule_pagina_boletin soup) "";
     titulo_resumido :=
       match find_h1 soup with
       | Some h1_tag => h1_get_text h1_tag
       | None => ""
       end;
     titulo_sumario :=
       match find_h1 soup with
       | Some _ => or_default (span_destacado soup) ""
       | None => ""
       end;
     texto_resumido := or_default (rule_texto_resumido soup) "";
     observaciones := or_default (rule_observaciones soup) "";
     texto_original := or_default (rule_texto_original soup) "";
     texto_actualizado := or_default (rule_texto_actualizado soup) "";
     modificada_por := or_default (rule_modificada_por soup) "0";
     modifica_a := or_default (rule_modifica_a soup) "0" |}.

(** The body of the [try] block: [None] for a 404. *)
Definition norma_try (site : Site) (norma_id : Z) : result (option NormaRecord) :=
  bind (http_get site norma_id) (fun response =>
    if norma_status response =? 404 then Ok None
    else
      bind (raise_for_status (norma_status response)) (fun _ =>
      bind (norma_soup response) (fun soup =>
        Ok (Some (extract norma_id soup))))).

(** The three [except] clauses, each returning [None]. *)
Definition norma_except (r : result (option NormaRecord))
  : result (option NormaRecord) :=
  match r with
  | Ok d => Ok d
  | Raise (HTTPStatusError _) => Ok None
  | Raise RequestError => Ok None
  | Raise e => if isinstance_Exception e then Ok None else Raise e
  end.

Definition scrape_norma_by_id (site : Site) (norma_id : Z)
  : result (option NormaRecord) :=
  norma_except (norma_try site norma_id).

(** ** [InfolegClient.scrape_by_date] *)

Record InfolegClient : Type := mkClient {
  daily_scrape_count : Z;
  batch_size : Z;
  delay_bw_batches : Q
}.

Definition default_client : InfolegClient := mkClient 200 10 (3 # 1).

(** [l[:n]], a negative [n] counting from the end. *)
Definition slice_to {A : Type} (l : list A) (n : Z) : list A :=
  if 0 <=? n then firstn (Z.to_nat n) l
  else firstn (List.length l - Z.to_nat (- n)) l.

(** [asyncio.gather] of the tasks with [return_exceptions=True]: one result per task,
    in the order of the tasks; a task that raises gives its exception as
    its result. *)
Definition gather (site : Site) (tasks : list Z)
  : list (result (option NormaRecord)) :=
  map (scrape_norma_by_id site) tasks.

(** [for result in results: if isinstance(result, dict): ...]: the rows
    written. *)
Fixpoint dict_results (results : list (result (option NormaRecord)))
  : list NormaRecord :=
  match results with
  | [] => []
  | Ok (Some row) :: rest => row :: dict_results rest
  | _ :: rest => dict_results rest
  end.

Record LoopState : Type := mkLoop {
  tasks : list Z;
  total_scraped : Z;
  trace : list Event
}.

(** Awaiting a group and writing its rows. *)
Definition run_group (site : Site) (group : list Z) (st : LoopState) : LoopState :=
  let rows := dict_results (gather site group) in
  {| tasks := [];
     total_scraped := total_scraped st + Z.of_nat (List.length rows);
     trace := trace st ++ EvGather group :: map EvWriteRow rows |}.

Definition emit (evs : list Event) (st : LoopState) : LoopState :=
  {| tasks := tasks st; total_scraped := total_scraped st;
     trace := trace st ++ evs |}.

(** [for i, norma_id in enumerate(all_norma_ids)], from index [i] on;
    [n] is [len(all_norma_ids)]. *)
Fixpoint batch_loop (site : Site) (W : Z) (D : Q) (n i : Z) (ids : list Z)
  (st : LoopState) : LoopState :=
  match ids with
  | [] => st
  | norma_id :: rest =>
      let pending := (tasks st ++ [norma_id])%list in
      let st' :=
        if Z.of_nat (List.length pending) >=? W then
          let st1 := emit [EvFlush] (run_group site pending st) in
          if i <? n - 1 then emit [EvSleep D] st1 else st1
        else {| tasks := pending; total_scraped := total_scraped st;
                trace := trace st |} in
      batch_loop site W D n (i + 1) rest st'
  end.

(** The remaining tasks, after the loop. *)
Definition remaining (site : Site) (st : LoopState) : LoopState :=
  match tasks st with
  | [] => st
  | _ :: _ => run_group site (tasks st) st
  end.

(** [scrape_by_date], from the moment [open(output_file, "w")] has
    returned: the events start with the header written to the open file.
    The call of [open], which raises when the path cannot be created, is
    not part of the embedding: [output_file] is a path that opens. *)
Definition scrape_by_date (self : InfolegClient) (site : Site) (date : string)
  (batch_size_arg : option Z) (delay_between_batches : option Q)
  : result Z * list Event :=
  let _batch_size :=
    match batch_size_arg with Some b => b | None => batch_size self end in
  let _delay :=
    match delay_between_batches with
    | Some d => d
    | None => delay_bw_batches self
    end in
  let '(found, searched) := search_boletines site date in
  match found with
  | Raise e => (Raise e, EvWriteHeader :: searched ++ [EvClose])
  | Ok norma_ids =>
      let all_norma_ids := slice_to norma_ids (daily_scrape_count self) in
      let st :=
        remaining site
          (batch_loop site _batch_size _delay
             (Z.of_nat (List.length all_norma_ids)) 0 all_norma_ids
             (mkLoop [] 0 (EvWriteHeader :: searched))) in
      (Ok (total_scraped st), trace st ++ [EvClose])
  end.

(** ** The assets *)

(** The object store: what [upload_file] answers. *)
Record Storage : Type := mkStorage {
  upload_file : string -> string -> result (string * Z)
}.

(** The asset, for a partition key whose file [/tmp/normas_<date>.csv]
    opens: the keys of [daily_partitions] are days written YYYY-MM-DD,
    which hold no path separator. *)
Definition scrape_boletin_and_archive (ileg_client : InfolegClient)
  (site : Site) (gcs : Storage) (date : string) : result Z * list Event :=
  let output_file := ("/tmp/normas_" ++ date ++ ".csv")%string in
  let '(scraped, tr) := scrape_by_date ileg_client site date None None in
  match scraped with
  | Raise e => (Raise e, tr)
  | Ok scraped_count =>
      if scraped_count =? 0 then (Raise LookupError, tr)
      else
        let blob_name := ("daily_scrapes/normas_" ++ date ++ ".csv")%string in
        match upload_file gcs output_file blob_name with
        | Raise e => (Raise e, tr ++ [EvUpload output_file blob_name])
        | Ok _ => (Ok scraped_count, tr ++ [EvUpload output_file blob_name])
        end
  end.

(** *** The local files of the merge *)

Definition CR : ascii := ascii_of_nat 13.

(** Reading in text mode with the default [newline=None]: a CR LF pair
    and a lone CR are read as one line feed. *)
Fixpoint universal_newlines (s : string) : string :=
  match s with
  | EmptyString => EmptyString
  | String c r =>
      if Ascii.eqb c CR then
        match r with
        | String c2 r2 =>
            if Ascii.eqb c2 LF then String LF (universal_newlines r2)
            else String LF (universal_newlines r)
        | EmptyString => String LF EmptyString
        end
      else String c (universal_newlines r)
  end.

(** [f.readlines()]: the lines with their terminators. *)
Fixpoint readlines (s : string) : list string :=
  match s with
  | EmptyString => []
  | String c r =>
      if Ascii.eqb c LF then String c EmptyString :: readlines r
      else
        match readlines r with
        | [] => [String c EmptyString]
        | l :: ls => String c l :: ls
        end
  end.

(** The join of strings with the empty separator. *)
Definition join (ls : list string) : string :=
  fold_right String.append EmptyString ls.

(** The local files, as texts: the batch of the partition,
    [/tmp/normas_<date>.csv], [None] when it does not exist; and the
    directory [./data], [None] when there is no such directory, else the
    master file at [MASTER_FILE_PATH], [None] when the directory does not
    hold it.  (A path [./data] that is no directory is not modelled.) *)
Record Disk : Type := mkDisk {
  output_file : option string;
  data_dir : option (option string)
}.

(** The master file, when [Path(MASTER_FILE_PATH).exists()]. *)
Definition master_file (disk : Disk) : option string :=
  match data_dir disk with
  | Some (Some master) => Some master
  | _ => None
  end.

(** What [storage_client.download_file(MASTER_FILE, MASTER_FILE_PATH)]
    does: it writes the text of the blob at the path and returns, or it
    raises ([FileNotFoundError] when the bucket has no such blob, the
    error of the client otherwise), leaving at the path what it had
    written by then, nothing or a part of the file. *)
Inductive Download : Type :=
  | Downloaded (content : string)
  | DownloadRaises (e : exn) (partial : option string).

(** The text that [master_daily_merge] appends for a batch: a line feed
    and the lines of the batch after the first. *)
Definition new_data (content : string) : string :=
  String LF (join (tl (readlines (universal_newlines content)))).

(** [master_daily_merge].  The result is [total_rows].  The warning
    logged when there is no master file lists [os.listdir('./data')],
    which raises [FileNotFoundError] when there is no such directory,
    before the download is tried. *)
Definition master_daily_merge (download : Download) (disk : Disk)
  : result Z * Disk :=
  match output_file disk with
  | None => (Raise FileNotFoundError, disk)
  | Some content =>
      let lines := readlines (universal_newlines content) in
      let total_rows := Z.of_nat (List.length lines) - 1 in
      match data_dir disk with
      | Some (Some master) =>
          (Ok total_rows,
           {| output_file := output_file disk;
              data_dir := Some (Some (master ++ new_data content)%string) |})
      | None => (Raise FileNotFoundError, disk)
      | Some None =>
          match download with
          | DownloadRaises e partial =>
              (Raise e,
               {| output_file := output_file disk; data_dir := Some partial |})
          | Downloaded master =>
              (Ok total_rows,
               {| output_file := output_file disk;
                  data_dir := Some (Some (master ++ new_data content)%string) |})
          end
      end
  end.

(** *** The data frame of the master file *)

(** The text between line feeds. *)
Fixpoint split_lines (s : string) : list string :=
  match s with
  | EmptyString => [EmptyString]
  | String c r =>
      if Ascii.eqb c LF then EmptyString :: split_lines r
      else
        match split_lines r with
        | [] => [String c EmptyString]
        | l :: ls => String c l :: ls
        end
  end.

(** The lines of a text: what is between its line feeds, but for the
    empty text after the last one. *)
Fixpoint drop_last_empty (lines : list string) : list string :=
  match lines with
  | [] => []
  | l :: rest =>
      match rest with
      | [] => if truthy l then [l] else []
      | _ :: _ => l :: drop_last_empty rest
      end
  end.

Definition key_eqb (a b : option Z) : bool :=
  match a, b with
  | Some x, Some y => x =? y
  | None, None => true
  | _, _ => false
  end.


Section Frame.

(** A row of the frame, its column [id_norma] (a nullable [Int64]), and
    the reading of one line of the file under [boletin_schema] with the
    null values ["S/N"] and ["s/n"]: [None] when the line does not parse,
    which fails the whole scan.  One record is one line of the file.  An
    empty line is read as [null_row], the row whose columns are all
    null. *)
Variable Row : Type.
Variable row_id : Row -> option Z.
Variable parse_line : string -> option Row.
Variable null_row : Row.

(** The order in which [collect] gives the rows that [unique] keeps:
    [unique] is called without [maintain_order], and the order of its
    result is not that of the file.  It is a rearrangement of the rows
    kept, which is all that the properties below assume of it. *)
Variable collect_order : list Row -> list Row.

Definition read_line (line : string) : option Row :=
  match line with
  | EmptyString => Some null_row
  | String _ _ => parse_line line
  end.

Fixpoint parse_rows (lines : list string) : result (list Row) :=
  match lines with
  | [] => Ok []
  | l :: rest =>
      match read_line l with
      | None => Raise ComputeError
      | Some r => bind (parse_rows rest) (fun rs => Ok (r :: rs))
      end
  end.

(** The lines of the file after the header. *)
Definition data_lines (file_text : string) : list string :=
  drop_last_empty (tl (split_lines file_text)).

(** [pl.scan_csv(path, schema=boletin_schema, ...)]: the first line is
    the header, and every other line is a row, an empty line too. *)
Definition scan_csv (file_text : string) : result (list Row) :=
  parse_rows (data_lines file_text).

(** [.unique(subset=["id_norma"], keep="last")]: a row stays when no
    later row has its [id_norma]; two nulls are the same [id_norma].
    The rows are listed here in the order of the file. *)
Fixpoint unique_keep_last (rows : list Row) : list Row :=
  match rows with
  | [] => []
  | r :: rest =>
      if existsb (fun r' => key_eqb (row_id r') (row_id r)) rest
      then unique_keep_last rest
      else r :: unique_keep_last rest
  end.

(** The frame [df] of [master_to_bigquery]. *)
Definition master_frame (disk : Disk) : result (list Row) :=
  match master_file disk with
  | None => Raise FileNotFoundError
  | Some file_text =>
      bind (scan_csv file_text) (fun rows =>
        Ok (collect_order (unique_keep_last rows)))
  end.



End Frame.

(** *** The merge of the embeddings *)

Section Embeddings.

Variable StagingRow EmbeddingRow : Type.

Record Warehouse : Type := mkWarehouse {
  staging : list StagingRow;
  master_embeddings : list EmbeddingRow
}.

(** The two query jobs as the warehouse runs them: the MERGE statement,
    whose target is [master_embeddings], gives the new target and
    [num_dml_affected_rows], or raises from [job.result]; the TRUNCATE
    statement succeeds or raises. *)
Variable merge_job : Warehouse -> result (list EmbeddingRow * Z).
Variable truncate_job : Warehouse -> result unit.

Definition master_daily_embeddings_merge (w : Warehouse)
  : result Z * Warehouse * list Event :=
  match merge_job w with
  | Raise e => (Raise e, w, [EvQuery MERGE])
  | Ok (target, rows_modified) =>
      let merged :=
        {| staging := staging w; master_embeddings := target |} in
      match truncate_job merged with
      | Raise e => (Raise e, merged, [EvQuery MERGE; EvQuery TRUNCATE])
      | Ok _ =>
          (Ok rows_modified,
           {| staging := []; master_embeddings := target |},
           [EvQuery MERGE; EvQuery TRUNCATE])
      end
  end.

End Embeddings.

Arguments staging {StagingRow EmbeddingRow} w.
Arguments master_embeddings {StagingRow EmbeddingRow} w.
Arguments mkWarehouse {StagingRow EmbeddingRow} staging master_embeddings.

(** ** The specification's readings *)

(** *** Dates *)

Definition spanish_months : list string :=
  [ "ENE"; "FEB"; "MAR"; "ABR"; "MAY"; "JUN";
    "JUL"; "AGO"; "SEP"; "OCT"; "NOV"; "DIC" ].

Fixpoint index_of (k : string) (l : list string) (i : Z) : option Z :=
  match l with
  | [] => None
  | x :: rest => if String.eqb x k then Some i else index_of k rest (i + 1)
  end.

(** The month a Spanish three-letter abbreviation names, in any letter
    case. *)
Definition month_of_abbr (abbr : string) : option Z :=
  index_of (upper abbr) spanish_months 1.


(** The YYYY-MM-DD text of a date. *)
Definition iso_text (y m d : Z) : string :=
  (pad4 y ++ "-" ++ pad2 m ++ "-" ++ pad2 d)%string.

(** Ten characters, digits around two hyphens. *)
Definition is_iso_shape (s : string) : bool :=
  match s with
  | String y1 (String y2 (String y3 (String y4 (String h1 (String m1
      (String m2 (String h2 (String d1 (String d2 EmptyString))))))))) =>
      is_digit y1 && is_digit y2 && is_digit y3 && is_digit y4
      && Ascii.eqb h1 "-" && is_digit m1 && is_digit m2
      && Ascii.eqb h2 "-" && is_digit d1 && is_digit d2
  | _ => false
  end.

(** The text the normalizer writes for a date it has read as a date:
    the year as [strftime] writes it, with four digits from the year
    1000 on and with fewer below. *)
Definition date_text (y m d : Z) : string :=
  (year_text y ++ "-" ++ pad2 m ++ "-" ++ pad2 d)%string.

(** A hyphen, two digits, a hyphen and two digits, and nothing else. *)
Definition is_month_day_shape (s : string) : bool :=
  match s with
  | String h1 (String m1 (String m2 (String h2 (String d1 (String d2
      EmptyString))))) =>
      Ascii.eqb h1 "-" && is_digit m1 && is_digit m2
      && Ascii.eqb h2 "-" && is_digit d1 && is_digit d2
  | _ => false
  end.

(** One digit and at most [n] more, then the month and the day. *)
Fixpoint year_then (n : nat) (s : string) : bool :=
  match s with
  | String c r =>
      is_digit c
      && (is_month_day_shape r
          || match n with
             | S n' => year_then n' r
             | O => false
             end)
  | EmptyString => false
  end.

(** A year of one to four digits, two digits and two digits around two
    hyphens. *)
Definition is_date_shape (s : string) : bool := year_then 3 s.

(** A number written with two digits, or with one when it is below ten. *)
Definition num_text (v : Z) (t : string) : Prop :=
  t = pad2 v \/ (1 <= v <= 9 /\ t = String (digit_char v) EmptyString).

(** What the normalizer accepts, and what it answers: a calendar date
    D/M/YYYY (day and month of one or two digits) with nothing after it,
    answered with the text of the date; or two digits, a Spanish
    abbreviation and four digits between hyphens, with anything after
    them and no check of the day, answered with the same digits; in both
    cases white space around the whole is dropped first. *)
Inductive normalizes : string -> string -> Prop :=
  | norm_slash (s td tm : string) (y m d : Z) :
      valid_date y m d = true ->
      num_text d td -> num_text m tm ->
      strip s = (td ++ "/" ++ tm ++ "/" ++ pad4 y)%string ->
      normalizes s (date_text y m d)
  | norm_abbr (s abbr rest : string) (d1 d2 y1 y2 y3 y4 : ascii) (m : Z) :
      is_digit d1 = true -> is_digit d2 = true ->
      is_digit y1 = true -> is_digit y2 = true ->
      is_digit y3 = true -> is_digit y4 = true ->
      month_of_abbr abbr = Some m ->
      strip s = (String d1 (String d2 EmptyString) ++ "-" ++ abbr ++ "-"
                 ++ String y1 (String y2 (String y3 (String y4 EmptyString)))
                 ++ rest)%string ->
      normalizes s
        (String y1 (String y2 (String y3 (String y4 EmptyString)))
         ++ "-" ++ pad2 m ++ "-" ++ String d1 (String d2 EmptyString))%string.

(** *** Groups of the fetcher *)





Definition is_upload (e : Event) : bool :=
  match e with EvUpload _ _ => true | _ => false end.

Definition is_write_row (e : Event) : bool :=
  match e with EvWriteRow _ => true | _ => false end.

Definition is_network (e : Event) : bool :=
  match e with EvPost _ | EvGather _ => true | _ => false end.

(** The records of the identifiers whose fetch gave one, in order. *)
Definition records_of (site : Site) (ids : list Z) : list NormaRecord :=
  dict_results (gather site ids).

(** ** Pages and files of the examples *)

Definition empty_soup : Soup :=
  mkSoup None None None None None None None None None None None None None
    None None.

Definition found (soup : Soup) : result NormaResponse :=
  Ok (mkNormaResponse 200 (Ok soup)).

Definition not_found : result NormaResponse :=
  Ok (mkNormaResponse 404 (Ok empty_soup)).

(** A page of the search that lists nothing and says nothing of it. *)
Definition maintenance_page : SearchResponse :=
  mkSearchResponse 200
    "<html><body><p>Servicio en mantenimiento</p></body></html>" [].

Definition maintenance_site : Site :=
  mkSite (fun _ => Ok maintenance_page) (fun _ => Raise RequestError).

(** The results page of 2025-10-06 with the normas 111, 222 and 333; the
    page of 222 is not found. *)
Definition results_page : SearchResponse :=
  mkSearchResponse 200 "<html><body>3 normas</body></html>"
    [ "verNorma.do?id=111"; "verNorma.do;jsessionid=A1?id=222";
      "verNorma.do?id=333"; "verNorma.do?id=111" ].

Definition three_normas : Site :=
  mkSite (fun _ => Ok results_page)
    (fun norma_id => if norma_id =? 222 then not_found else found empty_soup).



(** A page whose sanction date has a one-digit day. *)
Definition soup_short_day : Soup :=
  mkSoup (Some "3-mar-2024") None None None None None None None None None
    None None None None None.

Definition uploads : Storage :=
  mkStorage (fun _ blob_name => Ok (("gs://ragboletin-data-dev/" ++ blob_name)%string, 1)).

(** A reading of lines with two columns, [id_norma] and
    [titulo_resumido], for the examples of the frame. *)
Definition two_columns (line : string) : option (option Z * string) :=
  match span_digits line with
  | (String c ds, String sep title) =>
      if Ascii.eqb sep "," then Some (Some (int_digits 0 (String c ds)), title)
      else None
  | _ => None
  end.

Definition nl : string := String LF EmptyString.

Definition master_text : string :=
  ("id_norma,titulo_resumido" ++ nl ++ "7,Decreto 1" ++ nl
   ++ "8,Ley 2" ++ nl ++ "7,Decreto 1 (corregido)" ++ nl)%string.

Definition batch_text : string :=
  ("id_norma,titulo_resumido" ++ String CR nl ++ "9,Resolucion 3"
   ++ String CR nl ++ "8,Ley 2 bis" ++ String CR nl)%string.

Definition disk_of_day : Disk :=
  mkDisk (Some batch_text) (Some (Some master_text)).

(** A master file that does not end in a line feed. *)
Definition open_master_text : string :=
  ("id_norma,titulo_resumido" ++ nl ++ "7,Decreto 1")%string.

Definition open_disk : Disk :=
  mkDisk (Some batch_text) (Some (Some open_master_text)).

(** The row of nulls of the two columns. *)
Definition null_columns : option Z * string := (None, "").

(** The order of the file, for the examples. *)
Definition file_order (rows : list (option Z * string))
  : list (option Z * string) := rows.

(** A warehouse whose MERGE fails. *)
Definition failing_merge (w : Warehouse Z Z) : result (list Z * Z) :=
  Raise WarehouseError.

Definition truncate_ok (w : Warehouse Z Z) : result unit := Ok tt.

(** ** Further readings of the source *)

(** The identifier that the loop of [search_boletines] reads in a link:
    the link passes the filter of [find_all], and the number is the group
    of the search for [\?id=(\d+)]. *)
Definition id_of_link (href : string) (norma_id : Z) : Prop :=
  search_verNorma href = true
  /\ exists g, search_id href = Some g /\ int_digits 0 g = norma_id.

(** The identifiers handed to [asyncio.gather], in the order of the
    events. *)
Definition gathered (trace : list Event) : list Z :=
  flat_map (fun e => match e with EvGather ids => ids | _ => [] end) trace.

(** ** The extraction rules of [scrape_norma_by_id]

    The rules that [extract] takes from the page as given are embedded
    here from the source: each reads a text that a query of the parsed
    page gives, with a regular expression.  The matchers below are the
    regular expressions read as the backtracking matcher runs them; where
    a quantifier could give back characters, the classes on its two sides
    are disjoint, so the one way of matching is the one written. *)

(** The longest prefix of characters in a class, and what follows. *)
Fixpoint span (p : ascii -> bool) (s : string) : string * string :=
  match s with
  | String c r =>
      if p c then let '(a, rest) := span p r in (String c a, rest)
      else (EmptyString, s)
  | EmptyString => (EmptyString, EmptyString)
  end.

(** [re.sub(r"\s+", " ", s)]: every run of white space becomes one
    space. *)
Fixpoint collapse_from (in_space : bool) (s : string) : string :=
  match s with
  | EmptyString => EmptyString
  | String c r =>
      if is_space c then
        if in_space then collapse_from true r
        else String " " (collapse_from true r)
      else String c (collapse_from false r)
  end.

Definition collapse_ws (s : string) : string := collapse_from false s.

(** The class of the letters of [tipo_norma]: A to Z, a to z, and the
    capital and small A grave, A, E, I, O, U acute and N tilde, by their
    code points. *)
Definition is_tipo_letter (c : ascii) : bool :=
  is_letter c
  || existsb (Nat.eqb (code c))
       [192; 193; 201; 205; 211; 218; 209; 224; 225; 233; 237; 243; 250; 241]%nat.

(** [\w] on code points below 256: the alphanumeric characters of
    [str.isalnum] and the underscore. *)
Definition is_word (c : ascii) : bool :=
  is_digit c || is_letter c || Nat.eqb (code c) 95
  || existsb (Nat.eqb (code c)) [170; 178; 179; 181; 185; 186; 188; 189; 190]%nat
  || in_range 192 214 c || in_range 216 246 c || in_range 248 255 c.

(** [re.match(r"^(L+(?:\s+L+)*?)\s+\d+", s)] with [L] the class of
    [is_tipo_letter]: the group.  [tipo_rest] reads on after a letter of
    the group ([after_space] says that white space was just read) and
    gives the part of the group still to come; the lazy repetition stops
    at the first white space that a digit follows. *)
Fixpoint tipo_rest (after_space : bool) (s : string) : option string :=
  match s with
  | EmptyString => None
  | String c r =>
      if is_tipo_letter c then
        match tipo_rest false r with
        | Some g => Some (String c g)
        | None => None
        end
      else if is_space c then
        match tipo_rest true r with
        | Some EmptyString => Some EmptyString
        | Some g => Some (String c g)
        | None => None
        end
      else if is_digit c then
        if after_space then Some EmptyString else None
      else None
  end.

Definition tipo_match (s : string) : option string :=
  match s with
  | String c r =>
      if is_tipo_letter c then
        match tipo_rest false r with
        | Some g => Some (String c g)
        | None => None
        end
      else None
  | EmptyString => None
  end.

(** [re.search(r"\b(\d+)(?:/\d{4})?\b", s)]: the group, the first run of
    digits with no word character before it and none after it
    ([prev_word] says that the character before is one).  A run that a
    slash follows ends at a boundary with or without the year. *)
Fixpoint numero_search (prev_word : bool) (s : string) : option string :=
  match s with
  | EmptyString => None
  | String c r =>
      if is_digit c && negb prev_word then
        match span_digits s with
        | (ds, EmptyString) => Some ds
        | (ds, String c' _) =>
            if is_word c' then numero_search true r else Some ds
        end
      else numero_search (is_word c) r
  end.

(** [(.+)]: the characters to the end of the line. *)
Fixpoint dot_run (s : string) : string :=
  match s with
  | EmptyString => EmptyString
  | String c r => if Ascii.eqb c LF then EmptyString else String c (dot_run r)
  end.

(** The last character of [s] that is no line feed. *)
Fixpoint last_non_lf (s : string) : option ascii :=
  match s with
  | EmptyString => None
  | String c r =>
      match last_non_lf r with
      | Some c' => Some c'
      | None => if Ascii.eqb c LF then None else Some c
      end
  end.

(** [\s+(.+)] matched at the start of [s]: the group.  The white space is
    taken whole when a character follows it; when it runs to the end of
    the text it gives back characters until the dot has one to match. *)
Definition ws_then_dot (s : string) : option string :=
  match span is_space s with
  | (EmptyString, _) => None
  | (String _ w, EmptyString) =>
      match last_non_lf w with
      | Some c => Some (String c EmptyString)
      | None => None
      end
  | (String _ _, String c r) => Some (dot_run (String c r))
  end.

(** [/\d{4}] matched at the start of [s]: what follows it. *)
Definition slash_year (s : string) : option string :=
  match s with
  | String h (String a (String b (String c (String d r)))) =>
      if Ascii.eqb h "/" && is_digit a && is_digit b && is_digit c && is_digit d
      then Some r else None
  | _ => None
  end.

(** [re.search(r"\d+(?:/\d{4})?\s+(.+)", s)]: the group of the leftmost
    match; at a digit the run of digits is taken whole, the year is tried
    before its absence. *)
Fixpoint organismo_search (s : string) : option string :=
  match s with
  | EmptyString => None
  | String c r =>
      let here :=
        if is_digit c then
          let rest := snd (span_digits s) in
          match slash_year rest with
          | Some rest2 =>
              match ws_then_dot rest2 with
              | Some g => Some g
              | None => ws_then_dot rest
              end
          | None => ws_then_dot rest
          end
        else None in
      match here with
      | Some g => Some g
      | None => organismo_search r
      end
  end.

(** [\s+\d+] matches at the start of [s]. *)
Definition ws_then_digit (s : string) : bool :=
  match span is_space s with
  | (String _ _, String c _) => is_digit c
  | _ => false
  end.

(** [re.match(r"^([A-Za-z\s]+?)\s+\d+", s)]: the group; [clase_rest]
    gives the part of the group after its first character, the lazy
    repetition stopping as soon as white space and a digit follow. *)
Fixpoint clase_rest (s : string) : option string :=
  if ws_then_digit s then Some EmptyString
  else
    match s with
    | String c r =>
        if is_letter c || is_space c then
          match clase_rest r with
          | Some g => Some (String c g)
          | None => None
          end
        else None
    | EmptyString => None
    end.

Definition clase_match (s : string) : option string :=
  match s with
  | String c r =>
      if is_letter c || is_space c then
        match clase_rest r with
        | Some g => Some (String c g)
        | None => None
        end
      else None
  | EmptyString => None
  end.

(** [s.replace(old, "", 1)]. *)
Fixpoint replace_first (old s : string) : string :=
  match strip_prefix old s with
  | Some r => r
  | None =>
      match s with
      | EmptyString => EmptyString
      | String c r => String c (replace_first old r)
      end
  end.

(** Every character of [s] is in the class. *)
Fixpoint all_chars (p : ascii -> bool) (s : string) : bool :=
  match s with
  | EmptyString => true
  | String c r => p c && all_chars p r
  end.

(** [str.isdigit] on code points below 256: the decimal digits and the
    superscripts one, two and three. *)
Definition py_isdigit (s : string) : bool :=
  truthy s
  && all_chars
       (fun c => is_digit c || existsb (Nat.eqb (code c)) [178; 179; 185]%nat) s.

(** The labels of the number and of the page of the bulletin, each
    written with a plain or an acute second letter, then [:\s*(\d+)],
    matched at the start of [s]: a first letter, one of two second letters, the rest of the
    label, white space, and the group of digits. *)
Definition label_number_at (first : ascii) (second : ascii -> bool)
  (label_rest : string) (s : string) : option string :=
  match s with
  | String a (String b r) =>
      if Ascii.eqb a first && second b then
        match strip_prefix label_rest r with
        | Some r1 =>
            match span_digits (snd (span is_space r1)) with
            | (EmptyString, _) => None
            | (ds, _) => Some ds
            end
        | None => None
        end
      else None
  | _ => None
  end.

(** [re.search] of such a label: the group of the leftmost match. *)
Fixpoint search_label_number (first : ascii) (second : ascii -> bool)
  (label_rest : string) (s : string) : option string :=
  match label_number_at first second label_rest s with
  | Some ds => Some ds
  | None =>
      match s with
      | EmptyString => None
      | String _ r => search_label_number first second label_rest r
      end
  end.

Definition u_acute : ascii := ascii_of_nat 250.
Definition a_acute : ascii := ascii_of_nat 225.

(** [re.search] of [N], [u] or [u] acute, [mero:\s*(\d+)] in
    [boletin_text]. *)
Definition search_numero_boletin (boletin_text : string) : option string :=
  search_label_number "N"
    (fun c => Ascii.eqb c "u" || Ascii.eqb c u_acute) "mero:" boletin_text.

(** [re.search] of [P], [a] or [a] acute, [gina:\s*(\d+)] in
    [boletin_text]. *)
Definition search_pagina_boletin (boletin_text : string) : option string :=
  search_label_number "P"
    (fun c => Ascii.eqb c "a" || Ascii.eqb c a_acute) "gina:" boletin_text.

(** [re.search(r"(\d+)", link_text)]: the first run of digits. *)
Fixpoint search_digits (s : string) : option string :=
  match s with
  | EmptyString => None
  | String c r =>
      if is_digit c then Some (fst (span_digits s)) else search_digits r
  end.

(** The address of a document link: a relative address is put under the
    address of the site. *)
Definition absolute_url (href : string) : string :=
  if negb (startswith "http" href)
  then ("http://servicios.infoleg.gob.ar/infolegInternet/" ++ href)%string
  else href.

(** The rule of [texto_original] and of [texto_actualizado]: the link
    found, [Some None] when it has no [href]. *)
Definition extract_link (link : option (option string)) : option string :=
  match link with
  | Some (Some href) => if truthy href then Some (absolute_url href) else None
  | _ => None
  end.

(** [s] without the prefix [p], letters compared without their case. *)
Fixpoint strip_prefix_ci (p s : string) : option string :=
  match p, s with
  | EmptyString, _ => Some s
  | String a p', String b s' =>
      if Ascii.eqb (lower_char a) (lower_char b) then strip_prefix_ci p' s'
      else None
  | String _ _, EmptyString => None
  end.

(** [re.sub(r"^Resumen:\s*", "", text, flags=re.IGNORECASE)]. *)
Definition remove_label (text : string) : string :=
  match strip_prefix_ci "Resumen:" text with
  | Some r => lstrip r
  | None => text
  end.

(** [len(s)]. *)
Definition len (s : string) : Z := Z.of_nat (String.length s).

(** The loop over the paragraphs: the first one that starts with the
    label and is long enough without it. *)
Fixpoint resumen_of_paragraphs (paragraphs : list string) : option string :=
  match paragraphs with
  | [] => None
  | text :: rest =>
      if startswith "Resumen:" text || startswith "resumen:" text then
        let text' := remove_label text in
        if 10 <? len text' then Some text'
        else resumen_of_paragraphs rest
      else resumen_of_paragraphs rest
  end.

(** What the queries of [scrape_norma_by_id] find in a page. *)
Record Page : Type := mkPage {
  (** [soup.find("strong")], its [get_text(separator=" ", strip=True)] *)
  page_strong : option string;
  page_vr_azul11 : option string;
  page_h1 : option H1Tag;
  page_destacado : option string;
  (** the [<strong>] whose string holds ["Resumen"]: the
      [get_text(strip=True)] of its parent *)
  page_resumen_parent : option string;
  (** [p.get_text(strip=True)] for every [p] of [soup.find_all("p")] *)
  page_paragraphs : list string;
  (** the link whose string matches [Texto completo], and its [href] *)
  page_texto_link : option (option string);
  (** the link whose string matches [Texto actualizado], and its [href] *)
  page_actualizado_link : option (option string);
  (** the [get_text()] of the link to [verVinculos.do] with [modo=1] *)
  page_modifica_link : option string;
  (** the [get_text()] of the link to [verVinculos.do] with [modo=2] *)
  page_modificada_link : option string;
  (** the [next_sibling] of the [<strong>] of [Observaciones:], when it
      is a string *)
  page_obs_next : option string
}.

(** The rules over the first [<strong>]: the values assigned to
    [tipo_norma], [numero_norma], [organismo_origen] and [clase_norma]. *)
Definition strong_rules (strong_text : string)
  : option string * option string * option string * option string :=
  let strong_full_text := collapse_ws strong_text in
  let tipo :=
    match tipo_match strong_full_text with
    | Some g => Some (strip g)
    | None => None
    end in
  let numero := numero_search false strong_full_text in
  let organismo :=
    match organismo_search strong_full_text with
    | Some g => Some (strip g)
    | None => None
    end in
  let clase :=
    if truthy (or_default tipo "") then
      let remaining := strip (replace_first (or_default tipo "") strong_full_text) in
      if negb (String.eqb (or_default numero "S/N") "S/N") then
        match clase_match remaining with
        | Some g =>
            let clase := strip g in
            if truthy clase && negb (py_isdigit clase) then Some clase else None
        | None => None
        end
      else None
    else None in
  (tipo, numero, organismo, clase).

(** The rule of [texto_resumido]: the parent of the label first, then
    the paragraphs. *)
Definition extract_texto_resumido (page : Page) : option string :=
  let from_parent :=
    match page_resumen_parent page with
    | Some parent_text =>
        let text := remove_label parent_text in
        if truthy text && (10 <? len text) then Some text else None
    | None => None
    end in
  match from_parent with
  | Some text => Some text
  | None => resumen_of_paragraphs (page_paragraphs page)
  end.

(** The text of the paragraph of the bulletin. *)
Definition boletin_text_of (page : Page) : option string :=
  match page_h1 page with
  | Some h1_tag =>
      match h1_next_p h1_tag with
      | Some p_boletin => Some (p_get_text p_boletin)
      | None => None
      end
  | None => None
  end.

Definition and_then {A B : Type} (o : option A) (f : A -> option B) : option B :=
  match o with
  | Some a => f a
  | None => None
  end.

(** The page as [extract] reads it, every rule run on what the queries
    found. *)
Definition soup_of_page (page : Page) : Soup :=
  let rules :=
    match page_strong page with
    | Some strong_text => strong_rules strong_text
    | None => (None, None, None, None)
    end in
  let '(tipo, numero, organismo, clase) := rules in
  {| span_vr_azul11 := page_vr_azul11 page;
     find_h1 := page_h1 page;
     span_destacado := page_destacado page;
     rule_tipo_norma := tipo;
     rule_numero_norma := numero;
     rule_clase_norma := clase;
     rule_organismo_origen := organismo;
     rule_numero_boletin := and_then (boletin_text_of page) search_numero_boletin;
     rule_pagina_boletin := and_then (boletin_text_of page) search_pagina_boletin;
     rule_texto_resumido := extract_texto_resumido page;
     rule_observaciones :=
       match page_obs_next page with
       | Some next_node => if truthy next_node then Some (strip next_node) else None
       | None => None
       end;
     rule_texto_original := extract_link (page_texto_link page);
     rule_texto_actualizado := extract_link (page_actualizado_link page);
     rule_modificada_por := and_then (page_modificada_link page) search_digits;
     rule_modifica_a := and_then (page_modifica_link page) search_digits |}.

(** A text of decimal digits, one at least. *)
Definition is_number (s : string) : bool := truthy s && all_chars is_digit s.

(** A heading, and the page that holds it alone. *)
Definition heading_page (strong_text : string) : Page :=
  mkPage (Some strong_text) None None None None [] None None None None None.

(** ** [InfolegClient.cli_main] *)

(** The arguments as [argparse] gives them: [--date] has no default,
    [--batch] defaults to 10, [--delay] to 3.0. *)
Record Args : Type := mkArgs {
  args_date : option string;
  args_batch_size : Z;
  args_delay_between_batches : Q;
  args_output : string
}.

Definition default_args : Args :=
  mkArgs None 10 (3 # 1) "infoleg_normativa_nacional_new.csv".

(** [str(date)] for a date that is a string or [None]. *)
Definition str_of_date (date : option string) : string :=
  match date with
  | Some s => s
  | None => "None"
  end.

Definition cli_main (self : InfolegClient) (site : Site) (args : Args)
  : result Z * list Event :=
  scrape_by_date self site (str_of_date (args_date args))
    (Some (args_batch_size args)) (Some (args_delay_between_batches args)).

(** Digits and hyphens only. *)
Fixpoint digits_hyphens (s : string) : bool :=
  match s with
  | EmptyString => true
  | String c r => (is_digit c || Ascii.eqb c "-") && digits_hyphens r
  end.

(** Words before a number: [g] starts with a letter, holds letters and
    white space only and does not end in white space, and in [s] it is
    followed by white space and then a digit. *)
Definition leading_words (s g : string) : Prop :=
  (exists c g', g = String c g' /\ is_tipo_letter c = true)
  /\ strip g = g
  /\ all_chars (fun c => is_tipo_letter c || is_space c) g = true
  /\ exists w t d r,
       s = (g ++ String w t)%string /\ is_space w = true
       /\ lstrip t = String d r /\ is_digit d = true.

(** A results page one of whose links has a number of 4301 digits. *)
Definition long_number_page : SearchResponse :=
  mkSearchResponse 200 "<html><body>2 normas</body></html>"
    [ "verNorma.do?id=111";
      ("verNorma.do?id=" ++ String.concat "" (repeat "7" 4301))%string ].

(** * Properties *)

(** ** Characters and strings *)

Lemma in_range_iff (lo hi : nat) (c : ascii) :
  in_range lo hi c = true <-> (lo <= code c <= hi)%nat.
Proof.
  unfold in_range. rewrite andb_true_iff, !Nat.leb_le. tauto.
Qed.

Lemma code_inj (c c' : ascii) : code c = code c' -> c = c'.
Proof.
  unfold code. intros H.
  rewrite <- (ascii_nat_embedding c), <- (ascii_nat_embedding c'), H.
  reflexivity.
Qed.

Lemma dval_range (c : ascii) : is_digit c = true -> 0 <= dval c <= 9.
Proof.
  unfold is_digit, dval. rewrite in_range_iff. lia.
Qed.

Lemma digit_char_dval (c : ascii) : is_digit c = true -> digit_char (dval c) = c.
Proof.
  unfold is_digit, dval, digit_char. rewrite in_range_iff. intros H.
  rewrite Nat2Z.id.
  replace (48 + (code c - 48))%nat with (code c) by lia.
  apply ascii_nat_embedding.
Qed.

Lemma digit_cases (v : Z) :
  0 <= v <= 9 ->
  v = 0 \/ v = 1 \/ v = 2 \/ v = 3 \/ v = 4 \/ v = 5 \/ v = 6 \/ v = 7
  \/ v = 8 \/ v = 9.
Proof. lia. Qed.

Lemma is_digit_digit_char (v : Z) : 0 <= v <= 9 -> is_digit (digit_char v) = true.
Proof.
  intros H. destruct (digit_cases v H) as [E|[E|[E|[E|[E|[E|[E|[E|[E|E]]]]]]]]];
    subst v; reflexivity.
Qed.

Lemma dval_digit_char (v : Z) : 0 <= v <= 9 -> dval (digit_char v) = v.
Proof.
  intros H. destruct (digit_cases v H) as [E|[E|[E|[E|[E|[E|[E|[E|[E|E]]]]]]]]];
    subst v; reflexivity.
Qed.

Lemma is_digit19_digit (c : ascii) : is_digit19 c = true -> is_digit c = true.
Proof.
  unfold is_digit19, is_digit. rewrite !in_range_iff. lia.
Qed.

Lemma digit_not_space (c : ascii) : is_digit c = true -> is_space c = false.
Proof.
  unfold is_digit, is_space. rewrite in_range_iff. intros H.
  rewrite !orb_false_iff. repeat split.
  - apply not_true_is_false. rewrite in_range_iff. lia.
  - apply not_true_is_false. rewrite in_range_iff. lia.
  - apply Nat.eqb_neq. lia.
  - apply Nat.eqb_neq. lia.
Qed.


Lemma space_is_space (c : ascii) : Ascii.eqb c " " = true -> is_space c = true.
Proof. intros E. apply Ascii.eqb_eq in E. subst c. reflexivity. Qed.

(** The upper case of a character is no lower-case letter, and it is a
    capital letter only for a letter. *)
Lemma upper_char_not_lower (c : ascii) : is_lower (upper_char c) = false.
Proof.
  destruct c as [[] [] [] [] [] [] [] []]; reflexivity.
Qed.

Lemma append_assoc (a b c : string) : ((a ++ b) ++ c = a ++ (b ++ c))%string.
Proof. induction a; simpl; congruence. Qed.

Lemma append_empty_r (a : string) : (a ++ "" = a)%string.
Proof. induction a; simpl; congruence. Qed.

(** *** [strip] *)

Lemma rstrip_cons_nonspace (c : ascii) (r : string) :
  is_space c = false -> rstrip (String c r) = String c (rstrip r).
Proof.
  intros H. simpl. rewrite H. destruct (rstrip r); reflexivity.
Qed.

Lemma lstrip_head (s : string) :
  match lstrip s with
  | EmptyString => True
  | String c _ => is_space c = false
  end.
Proof.
  induction s as [|c r IH]; simpl; [exact I|].
  destruct (is_space c) eqn:E; [exact IH | exact E].
Qed.

(** The stripped text begins with no white space. *)
Lemma strip_head (s : string) (c : ascii) (r : string) :
  strip s = String c r -> is_space c = false.
Proof.
  unfold strip. pose proof (lstrip_head s) as H.
  destruct (lstrip s) as [|c' r']; [simpl; discriminate|].
  rewrite rstrip_cons_nonspace by exact H. intros E. congruence.
Qed.

Lemma rstrip_last_nonspace (s : string) (c : ascii) :
  is_space c = false ->
  rstrip (s ++ String c EmptyString) = (s ++ String c EmptyString)%string.
Proof.
  intros H. induction s as [|a r IH]; simpl.
  - rewrite H. reflexivity.
  - rewrite IH. destruct r; reflexivity.
Qed.

(** Text that begins and ends with no white space is its own [strip]. *)
Lemma strip_id (c : ascii) (s : string) (c' : ascii) :
  is_space c = false -> is_space c' = false ->
  strip (String c (s ++ String c' EmptyString))
  = String c (s ++ String c' EmptyString).
Proof.
  intros H H'. unfold strip. simpl lstrip. rewrite H.
  change (String c (s ++ String c' EmptyString))
    with ((String c s) ++ String c' EmptyString)%string.
  apply rstrip_last_nonspace. exact H'.
Qed.

Lemma strip_single (c : ascii) :
  is_space c = false -> strip (String c EmptyString) = String c EmptyString.
Proof. intros H. unfold strip. simpl. rewrite H. simpl. rewrite H. reflexivity. Qed.

(** *** [int] and the padded renderings *)

Lemma int_1 (c : ascii) :
  is_digit c = true -> int (String c EmptyString) = dval c.
Proof.
  intros H. unfold int. rewrite strip_single by (apply digit_not_space; exact H).
  reflexivity.
Qed.

Lemma int_2 (c1 c2 : ascii) :
  is_digit c1 = true -> is_digit c2 = true ->
  int (String c1 (String c2 EmptyString)) = 10 * dval c1 + dval c2.
Proof.
  intros H1 H2. unfold int.
  pose proof (strip_id c1 EmptyString c2 (digit_not_space _ H1)
                (digit_not_space _ H2)) as E.
  cbn [String.append] in E. rewrite E. cbn [int_digits]. lia.
Qed.

Lemma int_4 (a b c d : ascii) :
  is_digit a = true -> is_digit d = true ->
  int (String a (String b (String c (String d EmptyString))))
  = 1000 * dval a + 100 * dval b + 10 * dval c + dval d.
Proof.
  intros Ha Hd. unfold int.
  pose proof (strip_id a (String b (String c EmptyString)) d
                (digit_not_space _ Ha) (digit_not_space _ Hd)) as E.
  cbn [String.append] in E. rewrite E. cbn [int_digits]. lia.
Qed.

Lemma int_space_digit (c : ascii) :
  is_digit c = true ->
  int (String " " (String c EmptyString)) = dval c.
Proof.
  intros H. unfold int, strip. simpl lstrip.
  rewrite (digit_not_space c H). simpl. rewrite (digit_not_space c H).
  reflexivity.
Qed.

Lemma pad2_digits (c1 c2 : ascii) :
  is_digit c1 = true -> is_digit c2 = true ->
  pad2 (10 * dval c1 + dval c2) = String c1 (String c2 EmptyString).
Proof.
  intros H1 H2. unfold pad2.
  pose proof (dval_range c1 H1). pose proof (dval_range c2 H2).
  replace ((10 * dval c1 + dval c2) / 10) with (dval c1)
    by (apply Z.div_unique with (dval c2); lia).
  replace ((10 * dval c1 + dval c2) mod 10) with (dval c2)
    by (apply Z.mod_unique with (dval c1); lia).
  rewrite !digit_char_dval by assumption. reflexivity.
Qed.

Lemma pad4_digits (a b c d : ascii) :
  is_digit a = true -> is_digit b = true ->
  is_digit c = true -> is_digit d = true ->
  pad4 (1000 * dval a + 100 * dval b + 10 * dval c + dval d)
  = String a (String b (String c (String d EmptyString))).
Proof.
  intros Ha Hb Hc Hd. unfold pad4.
  pose proof (dval_range a Ha). pose proof (dval_range b Hb).
  pose proof (dval_range c Hc). pose proof (dval_range d Hd).
  set (v := 1000 * dval a + 100 * dval b + 10 * dval c + dval d).
  replace (v / 1000) with (dval a)
    by (apply Z.div_unique with (100 * dval b + 10 * dval c + dval d);
        unfold v; lia).
  replace (v / 100) with (10 * dval a + dval b)
    by (apply Z.div_unique with (10 * dval c + dval d); unfold v; lia).
  replace (v / 10) with (100 * dval a + 10 * dval b + dval c)
    by (apply Z.div_unique with (dval d); unfold v; lia).
  replace ((10 * dval a + dval b) mod 10) with (dval b)
    by (apply Z.mod_unique with (dval a); lia).
  replace ((100 * dval a + 10 * dval b + dval c) mod 10) with (dval c)
    by (apply Z.mod_unique with (10 * dval a + dval b); lia).
  replace (v mod 10) with (dval d)
    by (apply Z.mod_unique with (100 * dval a + 10 * dval b + dval c);
        unfold v; lia).
  rewrite !digit_char_dval by assumption. reflexivity.
Qed.

Lemma pad2_shape (v : Z) :
  0 <= v <= 99 ->
  exists c1 c2, pad2 v = String c1 (String c2 EmptyString)
    /\ is_digit c1 = true /\ is_digit c2 = true
    /\ 10 * dval c1 + dval c2 = v.
Proof.
  intros H. exists (digit_char (v / 10)), (digit_char (v mod 10)).
  assert (0 <= v / 10 <= 9) by (clear - H; Z.to_euclidean_division_equations; lia).
  assert (0 <= v mod 10 <= 9) by (pose proof (Z.mod_pos_bound v 10); lia).
  repeat split.
  - apply is_digit_digit_char; assumption.
  - apply is_digit_digit_char; assumption.
  - rewrite !dval_digit_char by assumption.
    pose proof (Z.div_mod v 10). lia.
Qed.

Lemma pad4_shape (v : Z) :
  0 <= v <= 9999 ->
  exists a b c d, pad4 v = String a (String b (String c (String d EmptyString)))
    /\ is_digit a = true /\ is_digit b = true
    /\ is_digit c = true /\ is_digit d = true
    /\ 1000 * dval a + 100 * dval b + 10 * dval c + dval d = v.
Proof.
  intros H.
  exists (digit_char (v / 1000)), (digit_char ((v / 100) mod 10)),
    (digit_char ((v / 10) mod 10)), (digit_char (v mod 10)).
  assert (0 <= v / 1000 <= 9) by (clear - H; Z.to_euclidean_division_equations; lia).
  assert (0 <= (v / 100) mod 10 <= 9)
    by (pose proof (Z.mod_pos_bound (v / 100) 10); lia).
  assert (0 <= (v / 10) mod 10 <= 9)
    by (pose proof (Z.mod_pos_bound (v / 10) 10); lia).
  assert (0 <= v mod 10 <= 9) by (pose proof (Z.mod_pos_bound v 10); lia).
  repeat split; try (apply is_digit_digit_char; assumption).
  rewrite !dval_digit_char by assumption.
  pose proof (Z.div_mod v 10 ltac:(lia)).
  pose proof (Z.div_mod (v / 10) 10 ltac:(lia)).
  pose proof (Z.div_mod (v / 100) 10 ltac:(lia)).
  assert (v / 10 / 10 = v / 100) by (rewrite Z.div_div by lia; reflexivity).
  assert (v / 100 / 10 = v / 1000) by (rewrite Z.div_div by lia; reflexivity).
  lia.
Qed.

(** ** [strptime] *)

Lemma first_success_some {A B : Type} (alts : list A) (k : A -> option B) (b : B) :
  first_success alts k = Some b -> exists a, In a alts /\ k a = Some b.
Proof.
  induction alts as [|a rest IH]; simpl; [discriminate|].
  destruct (k a) eqn:E.
  - intros H. exists a. split; [left; reflexivity | congruence].
  - intros H. destruct (IH H) as [a' [Hin Hk]]. exists a'. split; [right|]; assumption.
Qed.


Ltac alt_cases H :=
  repeat match type of H with
  | In _ (_ ++ _) => apply in_app_or in H; destruct H as [H|H]
  | In _ (if ?c then _ else _) => let E := fresh "E" in destruct c eqn:E
  | In _ [_] => destruct H as [H|[]]
  | In _ [] => destruct H
  end.

Ltac char_facts :=
  repeat match goal with
  | H : _ && _ = true |- _ => apply andb_true_iff in H; destruct H
  | H : Ascii.eqb _ _ = true |- _ => apply Ascii.eqb_eq in H; subst
  end.

Ltac solve_digit :=
  char_facts;
  first
    [ reflexivity
    | assumption
    | apply is_digit19_digit; assumption
    | unfold is_digit, is_digit19 in *;
      repeat match goal with
      | H : in_range _ _ _ = true |- _ => apply in_range_iff in H
      end;
      apply in_range_iff; lia ].

(** Every alternative of [%d] splits the text into the group and the
    rest; the group is two digits, one digit from 1 to 9, or a space and
    such a digit. *)
Lemma alts_d_inv (t g r : string) :
  In (g, r) (alts_d t) ->
  t = (g ++ r)%string /\
  ((exists c1 c2, g = String c1 (String c2 EmptyString)
      /\ is_digit c1 = true /\ is_digit c2 = true)
   \/ (exists c, g = String c EmptyString /\ is_digit19 c = true)
   \/ (exists c, g = String " " (String c EmptyString) /\ is_digit19 c = true)).
Proof.
  destruct t as [|c1 [|c2 r2]]; simpl; intros H; alt_cases H;
    inversion H; subst; (split; [reflexivity|]).
  - right; left. eexists; split; [reflexivity | assumption].
  - left. exists c1, c2. repeat split; solve_digit.
  - left. exists c1, c2. repeat split; solve_digit.
  - left. exists c1, c2. repeat split; solve_digit.
  - right; left. eexists; split; [reflexivity | assumption].
  - right; right. char_facts. eexists; split; [reflexivity | assumption].
Qed.

Lemma alts_m_inv (t g r : string) :
  In (g, r) (alts_m t) ->
  t = (g ++ r)%string /\
  ((exists c1 c2, g = String c1 (String c2 EmptyString)
      /\ is_digit c1 = true /\ is_digit c2 = true)
   \/ (exists c, g = String c EmptyString /\ is_digit19 c = true)).
Proof.
  destruct t as [|c1 [|c2 r2]]; simpl; intros H; alt_cases H;
    inversion H; subst; (split; [reflexivity|]).
  - right. eexists; split; [reflexivity | assumption].
  - left. exists c1, c2. repeat split; solve_digit.
  - left. exists c1, c2. repeat split; solve_digit.
  - right. eexists; split; [reflexivity | assumption].
Qed.

Lemma match_Y_inv (t g r : string) :
  match_Y t = Some (g, r) ->
  exists a b c d,
    g = String a (String b (String c (String d EmptyString)))
    /\ t = (g ++ r)%string
    /\ is_digit a = true /\ is_digit b = true
    /\ is_digit c = true /\ is_digit d = true.
Proof.
  destruct t as [|a [|b [|c [|d r']]]]; simpl; try discriminate.
  destruct (is_digit a && is_digit b && is_digit c && is_digit d) eqn:E;
    [|discriminate].
  intros H. inversion H; subst. exists a, b, c, d. char_facts.
  repeat split; assumption.
Qed.

Lemma lit_inv (c : ascii) (t r : string) :
  lit c t = Some r -> t = String c r.
Proof.
  destruct t as [|c' r']; simpl; [discriminate|].
  destruct (Ascii.eqb c c') eqn:E; [|discriminate].
  apply Ascii.eqb_eq in E. subst. congruence.
Qed.

Lemma match_Y_pad4 (y : Z) (r : string) :
  0 <= y <= 9999 -> match_Y (pad4 y ++ r) = Some (pad4 y, r).
Proof.
  intros H. destruct (pad4_shape y H) as (a & b & c & d & E & Ha & Hb & Hc & Hd & _).
  rewrite E. simpl. rewrite Ha, Hb, Hc, Hd. reflexivity.
Qed.

Lemma int_pad4 (y : Z) : 0 <= y <= 9999 -> int (pad4 y) = y.
Proof.
  intros H. destruct (pad4_shape y H) as (a & b & c & d & E & Ha & Hb & Hc & Hd & V).
  rewrite E, int_4 by assumption. exact V.
Qed.

Lemma int_pad2 (v : Z) : 0 <= v <= 99 -> int (pad2 v) = v.
Proof.
  intros H. destruct (pad2_shape v H) as (a & b & E & Ha & Hb & V).
  rewrite E, int_2 by assumption. exact V.
Qed.




Lemma valid_date_bounds (y m d : Z) :
  valid_date y m d = true ->
  1 <= y <= 9999 /\ 1 <= m <= 12 /\ 1 <= d <= 31.
Proof.
  unfold valid_date. rewrite !andb_true_iff, !Z.leb_le.
  intros (((((H1 & H2) & H3) & H4) & H5) & H6).
  assert (days_in_month y m <= 31).
  { unfold days_in_month.
    destruct (m =? 2); [destruct (is_leap y); lia|].
    destruct ((m =? 4) || (m =? 6) || (m =? 9) || (m =? 11)); lia. }
  lia.
Qed.


Lemma two_digit_num_text (c1 c2 : ascii) :
  is_digit c1 = true -> is_digit c2 = true ->
  num_text (int (String c1 (String c2 EmptyString)))
    (String c1 (String c2 EmptyString)).
Proof.
  intros H1 H2. left. rewrite int_2 by assumption.
  symmetry. apply pad2_digits; assumption.
Qed.

Lemma one_digit_num_text (c : ascii) :
  is_digit19 c = true ->
  num_text (int (String c EmptyString)) (String c EmptyString).
Proof.
  intros H. pose proof (is_digit19_digit c H) as Hd. right.
  rewrite int_1 by assumption. split.
  - unfold is_digit19 in H. apply in_range_iff in H. unfold dval. lia.
  - rewrite digit_char_dval by assumption. reflexivity.
Qed.

(** What [strptime] with ["%d/%m/%Y"] accepts, for a text that begins
    with no white space. *)
Lemma strptime_dmY_inv (t : string) (dt : date) :
  (forall c r, t = String c r -> is_space c = false) ->
  strptime_dmY t = Some dt ->
  exists td tm,
    t = (td ++ "/" ++ tm ++ "/" ++ pad4 (year dt))%string
    /\ num_text (day dt) td /\ num_text (month dt) tm
    /\ valid_date (year dt) (month dt) (day dt) = true.
Proof.
  intros Hsp. unfold strptime_dmY.
  destruct (regex_dmY t) as [[[[gd gm] gy] rest]|] eqn:R; [|discriminate].
  cbn [finish]. destruct rest; [|discriminate].
  destruct (valid_date (int gy) (int gm) (int gd)) eqn:V; [|discriminate].
  intros E. inversion E; subst dt; clear E. cbn [year month day].
  unfold regex_dmY in R.
  apply first_success_some in R. destruct R as [[g1 s1] [In1 K1]].
  destruct (lit "/" s1) as [s2|] eqn:L1; [|discriminate].
  apply first_success_some in K1. destruct K1 as [[g2 s3] [In2 K2]].
  destruct (lit "/" s3) as [s4|] eqn:L2; [|discriminate].
  destruct (match_Y s4) as [[g3 s5]|] eqn:M; [|discriminate].
  inversion K2; subst g1 g2 g3 s5; clear K2.
  apply lit_inv in L1, L2. subst s1 s3.
  apply alts_d_inv in In1. destruct In1 as [T1 F1].
  apply alts_m_inv in In2. destruct In2 as [T2 F2].
  apply match_Y_inv in M. destruct M as (a & b & c & d & G & T3 & Ha & Hb & Hc & Hd).
  rewrite append_empty_r in T3. subst s4.
  exists gd, gm. split; [|split; [|split]].
  - rewrite T1, T2, G, int_4, pad4_digits by assumption. reflexivity.
  - destruct F1 as [(c1 & c2 & Eg & H1 & H2) | [(c1 & Eg & H1) | (c1 & Eg & H1)]];
      subst gd.
    + apply two_digit_num_text; assumption.
    + apply one_digit_num_text; assumption.
    + exfalso. specialize (Hsp " "%char _ T1). discriminate Hsp.
  - destruct F2 as [(c1 & c2 & Eg & H1 & H2) | (c1 & Eg & H1)]; subst gm.
    + apply two_digit_num_text; assumption.
    + apply one_digit_num_text; assumption.
  - exact V.
Qed.


(** ** The month table *)

Lemma month_map_of_abbr (abbr : string) (m : Z) :
  month_of_abbr abbr = Some m ->
  1 <= m <= 12 /\ get month_map (upper abbr) = Some (pad2 m).
Proof.
  unfold month_of_abbr. generalize (upper abbr) as k. intros k.
  unfold spanish_months, index_of.
  repeat match goal with
  | |- context [String.eqb ?a k] =>
      destruct (String.eqb a k) eqn:?E;
      [ apply String.eqb_eq in E; subst k; intros H; inversion H; subst m;
        split; [lia | reflexivity] | clear E ]
  end.
  discriminate.
Qed.

Lemma upper_head_not_lower (s : string) (c : ascii) (r : string) :
  upper s = String c r -> is_lower c = false.
Proof.
  destruct s as [|a s']; simpl; [discriminate|].
  intros H. inversion H. apply upper_char_not_lower.
Qed.

Lemma month_of_abbr_map (abbr month : string) :
  get month_map (upper abbr) = Some month ->
  exists m, month_of_abbr abbr = Some m /\ month = pad2 m.
Proof.
  unfold month_of_abbr. pose proof (upper_head_not_lower abbr) as NL.
  revert NL. generalize (upper abbr) as k. intros k NL.
  unfold month_map, get.
  repeat match goal with
  | |- context [String.eqb ?a k] =>
      destruct (String.eqb a k) eqn:?E;
      [ apply String.eqb_eq in E; subst k; intros H; inversion H; subst month;
        first [ eexists; split; [reflexivity | reflexivity]
              | exfalso; specialize (NL _ _ eq_refl); discriminate NL ]
      | clear E ]
  end.
  discriminate.
Qed.


(** ** The date normalizer *)

Lemma match_dd_mmm_yyyy_inv (t day abbr year : string) :
  match_dd_mmm_yyyy t = Some (day, abbr, year) ->
  exists d1 d2 l1 l2 l3 y1 y2 y3 y4 rest,
    day = String d1 (String d2 EmptyString)
    /\ abbr = String l1 (String l2 (String l3 EmptyString))
    /\ year = String y1 (String y2 (String y3 (String y4 EmptyString)))
    /\ t = (day ++ "-" ++ abbr ++ "-" ++ year ++ rest)%string
    /\ is_digit d1 = true /\ is_digit d2 = true
    /\ is_digit y1 = true /\ is_digit y2 = true
    /\ is_digit y3 = true /\ is_digit y4 = true.
Proof.
  destruct t as [|d1 [|d2 [|h1 [|l1 [|l2 [|l3 [|h2 [|y1 [|y2 [|y3 [|y4 rest]]]]]]]]]]];
    simpl; try discriminate.
  match goal with |- context [if ?c then _ else _] => destruct c eqn:E end;
    [|discriminate].
  intros H. inversion H; subst. char_facts.
  exists d1, d2, l1, l2, l3, y1, y2, y3, y4, rest.
  repeat split; assumption.
Qed.

Lemma truthy_strip (s : string) : truthy (strip s) = true -> truthy s = true.
Proof. destruct s; [discriminate | reflexivity]. Qed.

Lemma normalizes_sound (s out : string) :
  convert_date_format s = Some out -> normalizes s out.
Proof.
  unfold convert_date_format. destruct (truthy s); [|discriminate]. cbn [negb].
  destruct (strptime_dmY (strip s)) as [dt|] eqn:P.
  - intros E. inversion E; subst out; clear E.
    destruct (strptime_dmY_inv (strip s) dt (strip_head s) P)
      as (td & tm & T & Hd & Hm & V).
    exact (norm_slash s td tm (year dt) (month dt) (day dt) V Hd Hm T).
  - destruct (match_dd_mmm_yyyy (strip s)) as [[[dd abbr] yyyy]|] eqn:M;
      [|discriminate].
    destruct (get month_map (upper abbr)) as [mm|] eqn:G; [|discriminate].
    destruct (truthy mm); [|discriminate].
    intros E. inversion E; subst out; clear E.
    apply match_dd_mmm_yyyy_inv in M.
    destruct M as (d1 & d2 & l1 & l2 & l3 & y1 & y2 & y3 & y4 & rest
                   & Ed & Ea & Ey & T & H1 & H2 & H3 & H4 & H5 & H6).
    apply month_of_abbr_map in G. destruct G as (m & Hm & Em).
    subst dd yyyy mm.
    exact (norm_abbr s abbr rest d1 d2 y1 y2 y3 y4 m H1 H2 H3 H4 H5 H6 Hm T).
Qed.


(** From the year 1000 on the year is written with its four digits. *)
Lemma year_text_pad4 (y : Z) : 1000 <= y -> year_text y = pad4 y.
Proof.
  intros H. unfold year_text.
  destruct (Z.ltb_spec y 10); [lia|]. destruct (Z.ltb_spec y 100); [lia|].
  destruct (Z.ltb_spec y 1000); [lia|]. reflexivity.
Qed.

Lemma date_text_iso (y m d : Z) : 1000 <= y -> date_text y m d = iso_text y m d.
Proof. intros H. unfold date_text, iso_text. rewrite year_text_pad4 by exact H. reflexivity. Qed.

Lemma month_day_shape_pad2 (m d : Z) :
  0 <= m <= 99 -> 0 <= d <= 99 ->
  is_month_day_shape ("-" ++ pad2 m ++ "-" ++ pad2 d) = true.
Proof.
  intros Hm Hd.
  destruct (pad2_shape m Hm) as (m1 & m2 & Em & Hm1 & Hm2 & _).
  destruct (pad2_shape d Hd) as (e1 & e2 & Ed & He1 & He2 & _).
  rewrite Em, Ed. cbn [String.append is_month_day_shape].
  rewrite Hm1, Hm2, He1, He2. reflexivity.
Qed.

(** The text of a date has a year of one to four digits. *)
Lemma date_text_shape (y m d : Z) :
  1 <= y <= 9999 -> 0 <= m <= 99 -> 0 <= d <= 99 ->
  is_date_shape (date_text y m d) = true.
Proof.
  intros Hy Hm Hd. pose proof (month_day_shape_pad2 m d Hm Hd) as T.
  unfold is_date_shape, date_text, year_text.
  remember ("-" ++ pad2 m ++ "-" ++ pad2 d)%string as t eqn:Et. clear Et.
  destruct (Z.ltb_spec y 10); [|destruct (Z.ltb_spec y 100);
    [|destruct (Z.ltb_spec y 1000)]].
  - cbn [String.append year_then]. rewrite T, is_digit_digit_char by lia.
    reflexivity.
  - destruct (pad2_shape y ltac:(lia)) as (a & b & E & Ha & Hb & _).
    rewrite E. cbn [String.append year_then]. rewrite T, Ha, Hb.
    rewrite orb_true_r. reflexivity.
  - assert (0 <= y / 100 <= 9)
      by (clear - Hy H1; Z.to_euclidean_division_equations; lia).
    assert (0 <= y mod 100 <= 99) by (pose proof (Z.mod_pos_bound y 100); lia).
    destruct (pad2_shape (y mod 100) ltac:(lia)) as (a & b & E & Ha & Hb & _).
    rewrite E. cbn [String.append year_then].
    rewrite T, Ha, Hb, is_digit_digit_char by lia.
    rewrite !orb_true_r. reflexivity.
  - destruct (pad4_shape y ltac:(lia)) as (a & b & c & e & E & Ha & Hb & Hc & He & _).
    rewrite E. cbn [String.append year_then]. rewrite T, Ha, Hb, Hc, He.
    rewrite !orb_true_r. reflexivity.
Qed.

(** Below the year 1000 the text of a date is shorter than YYYY-MM-DD. *)
Lemma date_text_short (y m d : Z) :
  1 <= y < 1000 -> 0 <= m <= 99 -> 0 <= d <= 99 ->
  is_iso_shape (date_text y m d) = false.
Proof.
  intros Hy Hm Hd.
  destruct (pad2_shape m Hm) as (m1 & m2 & Em & _).
  destruct (pad2_shape d Hd) as (e1 & e2 & Ed & _).
  unfold date_text, year_text. rewrite Em, Ed.
  destruct (Z.ltb_spec y 10); [|destruct (Z.ltb_spec y 100);
    [|destruct (Z.ltb_spec y 1000); [|lia]]].
  - reflexivity.
  - destruct (pad2_shape y ltac:(lia)) as (a & b & E & _). rewrite E.
    reflexivity.
  - assert (0 <= y mod 100 <= 99) by (pose proof (Z.mod_pos_bound y 100); lia).
    destruct (pad2_shape (y mod 100) ltac:(lia)) as (a & b & E & _).
    rewrite E. reflexivity.
Qed.

Lemma iso_shape_date_shape (t : string) :
  is_iso_shape t = true -> is_date_shape t = true.
Proof.
  destruct t as [|y1 [|y2 [|y3 [|y4 [|h1 [|m1 [|m2 [|h2 [|d1 [|d2 [|x r]]]]]]]]]]];
    try discriminate.
  cbn [is_iso_shape]. intros H.
  do 9 (apply andb_prop in H; destruct H as [H ?]).
  unfold is_date_shape. cbn [year_then is_month_day_shape].
  repeat match goal with E : _ = true |- _ => rewrite E; clear E end.
  rewrite !orb_true_r. reflexivity.
Qed.

(** An answer is of the shape YYYY-MM-DD, or it is the text of a date
    before the year 1000, which is shorter. *)
Lemma normalizes_iso (s out : string) :
  normalizes s out ->
  is_iso_shape out = true
  \/ exists y m d,
       valid_date y m d = true /\ y < 1000
       /\ out = date_text y m d /\ is_iso_shape out = false.
Proof.
  intros N. destruct N as
    [s td tm y m d V Hd Hm T
    | s abbr rest d1 d2 y1 y2 y3 y4 m H1 H2 H3 H4 H5 H6 Hm T].
  - destruct (valid_date_bounds _ _ _ V) as (By & Bm & Bd).
    destruct (Z.lt_ge_cases y 1000) as [L | G].
    + right. exists y, m, d. repeat split; try assumption.
      apply date_text_short; lia.
    + left. rewrite date_text_iso by exact G. unfold iso_text.
      destruct (pad4_shape y ltac:(lia)) as (a & b & c & e & Ey & Ha & Hb & Hc & He & _).
      destruct (pad2_shape m ltac:(lia)) as (m1 & m2 & Em & Hm1 & Hm2 & _).
      destruct (pad2_shape d ltac:(lia)) as (e1 & e2 & Ed & He1 & He2 & _).
      rewrite Ey, Em, Ed. cbn [String.append is_iso_shape].
      rewrite Ha, Hb, Hc, He, Hm1, Hm2, He1, He2. reflexivity.
  - left. destruct (month_map_of_abbr abbr m Hm) as [Bm _].
    destruct (pad2_shape m ltac:(lia)) as (m1 & m2 & Em & Hm1 & Hm2 & _).
    rewrite Em. cbn [String.append is_iso_shape].
    rewrite H1, H2, H3, H4, H5, H6, Hm1, Hm2. reflexivity.
Qed.

Lemma normalizes_shape (s out : string) :
  normalizes s out -> is_date_shape out = true.
Proof.
  intros N. destruct (normalizes_iso s out N) as [I | (y & m & d & V & _ & E & _)].
  - apply iso_shape_date_shape, I.
  - destruct (valid_date_bounds _ _ _ V) as (By & Bm & Bd).
    rewrite E. apply date_text_shape; lia.
Qed.



Lemma convert_date_format_shape (s out : string) :
  convert_date_format s = Some out -> is_date_shape out = true.
Proof. intros H. apply (normalizes_shape s), normalizes_sound, H. Qed.




(** ** The search client *)

Lemma search_except_of_Exception (e : exn) :
  isinstance_Exception e = true -> search_except (Raise e) = Ok [].
Proof. destruct e; simpl; intros H; (reflexivity || discriminate). Qed.

(** An empty results page without the marker makes the body of the
    [try] raise [LookupError], and the last [except] clause turns it into
    the empty list. *)
Lemma search_unexpected_empty (site : Site) (s : string) (response : SearchResponse) :
  strptime_Ymd s <> None ->
  (forall form, post site form = Ok response) ->
  is_success (status_code response) = true ->
  existsb int_refuses (anchors response) = false ->
  collect_ids (anchors response) [] = [] ->
  no_results_marker (text response) = false ->
  (forall form, search_try site form = Raise LookupError)
  /\ fst (search_boletines site s) = Ok [].
Proof.
  intros Hs Hp Hok Hint Hids Hm.
  assert (T : forall form, search_try site form = Raise LookupError).
  { intros form. unfold search_try. rewrite Hp. cbn [bind].
    unfold raise_for_status. rewrite Hok. cbn [bind].
    rewrite Hint, Hids, Hm. reflexivity. }
  split; [exact T|].
  unfold search_boletines. destruct (strptime_Ymd s); [|congruence].
  cbn [fst]. rewrite T. reflexivity.
Qed.

(** C1: on the page [maintenance_page] (status 200, no link to a norma,
    no marker) the body of the [try] raises [LookupError], and
    [search_boletines] returns the empty list all the same: the error
    does not reach the caller, and the answer is the one of a network or
    HTTP failure. *)
Theorem search_boletines_swallows_LookupError :
  collect_ids (anchors maintenance_page) [] = []
  /\ no_results_marker (text maintenance_page) = false
  /\ search_try maintenance_site (mkForm "false" 6 10 2025) = Raise LookupError
  /\ search_boletines maintenance_site "2025-10-06"
     = (Ok [], [EvPost (mkForm "false" 6 10 2025)])
  /\ search_except (Raise RequestError) = Ok []
  /\ search_except (Raise (HTTPStatusError 503)) = Ok [].
Proof. repeat split; reflexivity. Qed.

(** C10: a date that [strptime] does not read with ["%Y-%m-%d"] makes
    [search_boletines] raise [ValueError] with no request issued; the
    [except] clauses, which answer the empty list, are not reached. *)
Theorem search_boletines_malformed_date (site : Site) (boletin_fecha : string) :
  strptime_Ymd boletin_fecha = None ->
  search_boletines site boletin_fecha = (Raise ValueError, []).
Proof.
  intros H. unfold search_boletines. rewrite H. reflexivity.
Qed.

Lemma search_boletines_malformed_date_witness :
  strptime_Ymd "06/10/2025" = None
  /\ search_boletines three_normas "06/10/2025" = (Raise ValueError, []).
Proof.
  split; [reflexivity|].
  apply (search_boletines_malformed_date three_normas "06/10/2025").
  reflexivity.
Defined.

(** When the date is read, one request is issued and the answer is a
    list, whatever [Exception] the request or the page raises. *)
Lemma search_boletines_fails_closed (site : Site) (s : string) (dt : date) :
  strptime_Ymd s = Some dt ->
  snd (search_boletines site s)
  = [EvPost (mkForm "false" (day dt) (month dt) (year dt))]
  /\ forall e, fst (search_boletines site s) = Raise e ->
               isinstance_Exception e = false.
Proof.
  intros H. unfold search_boletines. rewrite H. cbn [fst snd].
  split; [reflexivity|].
  intros e. destruct (search_try site _) as [ids|e']; cbn [search_except].
  - discriminate.
  - destruct e'; cbn [isinstance_Exception]; intros E; inversion E; reflexivity.
Qed.

(** ** The extractor *)

(** C9: the page [soup_short_day] gives a record whose [fecha_sancion]
    is the text of the page, ["3-mar-2024"], which is neither the empty
    default nor of the shape YYYY-MM-DD. *)
Theorem fecha_sancion_keeps_raw_text :
  convert_date_format "3-mar-2024" = None
  /\ fecha_sancion (extract 1 soup_short_day) = "3-mar-2024"
  /\ is_iso_shape (fecha_sancion (extract 1 soup_short_day)) = false
  /\ scrape_norma_by_id
       (mkSite (fun _ => Ok results_page) (fun _ => found soup_short_day)) 1
     = Ok (Some (extract 1 soup_short_day)).
Proof. repeat split; reflexivity. Qed.

(** The other date, [fecha_boletin], is the empty default or a
    normalized date. *)
Lemma fecha_boletin_normalized (norma_id : Z) (soup : Soup) :
  fecha_boletin (extract norma_id soup) = ""
  \/ is_date_shape (fecha_boletin (extract norma_id soup)) = true.
Proof.
  cbn [extract fecha_boletin]. unfold extract_fecha_boletin.
  destruct (find_h1 soup) as [h|]; [|left; reflexivity].
  destruct (h1_next_p h) as [p|]; [|left; reflexivity].
  destruct (p_fecha_link p) as [t|].
  - destruct (convert_date_format t) as [c|] eqn:C.
    + pose proof (convert_date_format_shape _ _ C) as S.
      assert (T : truthy c = true) by (destruct c; [discriminate S | reflexivity]).
      rewrite T. right. exact S.
    + cbn [truthy negb].
      destruct (search_fecha (p_get_text p)) as [g|]; [|left; reflexivity].
      destruct (convert_date_format g) as [c|] eqn:C'; [|left; reflexivity].
      right. exact (convert_date_format_shape _ _ C').
  - cbn [truthy negb].
    destruct (search_fecha (p_get_text p)) as [g|]; [|left; reflexivity].
    destruct (convert_date_format g) as [c|] eqn:C'; [|left; reflexivity].
    right. exact (convert_date_format_shape _ _ C').
Qed.

(** And [fecha_sancion] is the empty default, a normalized date, or the
    text of the page when the normalizer does not read it. *)
Lemma fecha_sancion_cases (norma_id : Z) (soup : Soup) :
  fecha_sancion (extract norma_id soup) = ""
  \/ is_date_shape (fecha_sancion (extract norma_id soup)) = true
  \/ (exists fecha_text,
        span_vr_azul11 soup = Some fecha_text
        /\ convert_date_format fecha_text = None
        /\ fecha_sancion (extract norma_id soup) = fecha_text).
Proof.
  cbn [extract fecha_sancion]. unfold extract_fecha_sancion.
  destruct (span_vr_azul11 soup) as [t|]; [|left; reflexivity].
  destruct (convert_date_format t) as [c|] eqn:C.
  - right; left. exact (convert_date_format_shape _ _ C).
  - right; right. exists t. repeat split. exact C.
Qed.

(** ** The fetcher *)

Lemma dict_results_app (a b : list (result (option NormaRecord))) :
  dict_results (a ++ b) = dict_results a ++ dict_results b.
Proof.
  induction a as [|[[row|]|e] a IH]; simpl; rewrite ?IH; reflexivity.
Qed.

Lemma records_of_app (site : Site) (a b : list Z) :
  records_of site (a ++ b) = records_of site a ++ records_of site b.
Proof. unfold records_of, gather. rewrite map_app. apply dict_results_app. Qed.

Lemma filter_write_rows (rows : list NormaRecord) :
  filter is_write_row (map EvWriteRow rows) = map EvWriteRow rows.
Proof. induction rows; simpl; congruence. Qed.

Lemma filter_upload_rows (rows : list NormaRecord) :
  filter is_upload (map EvWriteRow rows) = [].
Proof. induction rows; simpl; congruence. Qed.


Lemma trace_emit (evs : list Event) (st : LoopState) :
  trace (emit evs st) = trace st ++ evs.
Proof. reflexivity. Qed.

(** One step of the loop: what it leaves pending and what it adds to
    the trace. *)
Lemma batch_step_cases (site : Site) (W : Z) (D : Q) (n i : Z) (norma_id : Z)
  (rest : list Z) (st : LoopState) :
  let pending := tasks st ++ [norma_id] in
  ((Z.of_nat (List.length pending) >=? W) = true
   /\ exists st',
       batch_loop site W D n i (norma_id :: rest) st
       = batch_loop site W D n (i + 1) rest st'
       /\ tasks st' = []
       /\ total_scraped st'
          = total_scraped st + Z.of_nat (List.length (records_of site pending))
       /\ trace st'
          = trace st
            ++ (EvGather pending
                :: (map EvWriteRow (records_of site pending)
                    ++ [EvFlush] ++ (if i <? n - 1 then [EvSleep D] else []))))
  \/ ((Z.of_nat (List.length pending) >=? W) = false
      /\ batch_loop site W D n i (norma_id :: rest) st
         = batch_loop site W D n (i + 1) rest
             (mkLoop pending (total_scraped st) (trace st))).
Proof.
  intros pending. cbn [batch_loop]. fold pending.
  destruct (Z.of_nat (List.length pending) >=? W) eqn:E; [left | right].
  - split; [reflexivity|].
    destruct (i <? n - 1); eexists; (split; [reflexivity|]);
      cbn [emit run_group tasks total_scraped trace]; fold (records_of site pending);
      repeat split; rewrite <- ?app_assoc; cbn [app]; rewrite ?app_nil_r;
      reflexivity.
  - split; reflexivity.
Qed.

(** The rows written and the count, for every width. *)
Lemma batch_loop_rows (site : Site) (W : Z) (D : Q) (n : Z) (ids : list Z) :
  forall (i : Z) (st : LoopState),
    let st' := batch_loop site W D n i ids st in
    filter is_write_row (trace st') ++ map EvWriteRow (records_of site (tasks st'))
    = filter is_write_row (trace st)
      ++ map EvWriteRow (records_of site (tasks st ++ ids))
    /\ total_scraped st' + Z.of_nat (List.length (records_of site (tasks st')))
       = total_scraped st
         + Z.of_nat (List.length (records_of site (tasks st ++ ids)))
    /\ filter is_upload (trace st') = filter is_upload (trace st).
Proof.
  induction ids as [|norma_id rest IH]; intros i st.
  - cbn [batch_loop]. rewrite app_nil_r. repeat split.
  - destruct (batch_step_cases site W D n i norma_id rest st)
      as [(_ & st1 & E & T & C & Tr) | (_ & E)]; cbv zeta; rewrite E.
    + destruct (IH (i + 1) st1) as (R1 & R2 & R3). cbv zeta in R1, R2, R3.
      rewrite R1, R2, R3, T, C, Tr. cbn [app].
      replace (tasks st ++ norma_id :: rest)
        with ((tasks st ++ [norma_id]) ++ rest)
        by (rewrite <- app_assoc; reflexivity).
      rewrite (records_of_app site (tasks st ++ [norma_id]) rest).
      rewrite !filter_app. cbn [filter is_write_row is_upload].
      rewrite !filter_app, filter_write_rows, filter_upload_rows.
      rewrite map_app, length_app, Nat2Z.inj_add.
      repeat split.
      * destruct (i <? n - 1); cbn [filter is_write_row app];
          rewrite ?app_nil_r, <- !app_assoc; reflexivity.
      * lia.
      * destruct (i <? n - 1); cbn [filter is_upload app];
          rewrite ?app_nil_r; reflexivity.
    + destruct (IH (i + 1) (mkLoop (tasks st ++ [norma_id]) (total_scraped st)
                              (trace st))) as (R1 & R2 & R3).
      cbv zeta in R1, R2, R3. cbn [tasks total_scraped trace] in R1, R2, R3.
      rewrite R1, R2, R3, <- app_assoc. repeat split.
Qed.

Lemma remaining_rows (site : Site) (st : LoopState) :
  filter is_write_row (trace (remaining site st))
  = filter is_write_row (trace st) ++ map EvWriteRow (records_of site (tasks st))
  /\ total_scraped (remaining site st)
     = total_scraped st + Z.of_nat (List.length (records_of site (tasks st)))
  /\ filter is_upload (trace (remaining site st)) = filter is_upload (trace st).
Proof.
  unfold remaining. destruct (tasks st) as [|x l] eqn:T.
  - cbn. rewrite app_nil_r. repeat split. lia.
  - cbn [run_group trace total_scraped]. fold (records_of site (x :: l)).
    rewrite !filter_app. cbn [filter is_write_row is_upload].
    rewrite filter_write_rows, filter_upload_rows, app_nil_r. repeat split.
Qed.

Lemma search_events (site : Site) (date : string) :
  filter is_write_row (snd (search_boletines site date)) = []
  /\ filter is_upload (snd (search_boletines site date)) = [].
Proof.
  unfold search_boletines. destruct (strptime_Ymd date); split; reflexivity.
Qed.

(** What a run of [scrape_by_date] gives: the error of the search, or
    the count of the records of the identifiers kept, each written once,
    in order, and nothing uploaded. *)
Lemma scrape_by_date_cases (self : InfolegClient) (site : Site) (date : string)
  (bs : option Z) (dl : option Q) :
  (exists e,
      fst (search_boletines site date) = Raise e
      /\ scrape_by_date self site date bs dl
         = (Raise e, EvWriteHeader :: snd (search_boletines site date) ++ [EvClose]))
  \/ (exists norma_ids,
        fst (search_boletines site date) = Ok norma_ids
        /\ let all := slice_to norma_ids (daily_scrape_count self) in
           fst (scrape_by_date self site date bs dl)
           = Ok (Z.of_nat (List.length (records_of site all)))
           /\ filter is_write_row (snd (scrape_by_date self site date bs dl))
              = map EvWriteRow (records_of site all)
           /\ filter is_upload (snd (scrape_by_date self site date bs dl)) = []).
Proof.
  pose proof (search_events site date) as [S1 S2].
  unfold scrape_by_date.
  destruct (search_boletines site date) as [[norma_ids|e] searched];
    cbn [fst snd] in *.
  - right. exists norma_ids. split; [reflexivity|]. cbv zeta.
    set (all := slice_to norma_ids (daily_scrape_count self)).
    match goal with |- context [batch_loop site ?W ?D ?n 0 all ?st0] =>
      destruct (batch_loop_rows site W D n all 0 st0) as (R1 & R2 & R3);
      destruct (remaining_rows site (batch_loop site W D n 0 all st0))
        as (Q1 & Q2 & Q3);
      cbv zeta in R1, R2, R3; cbn [tasks total_scraped trace] in R1, R2, R3
    end.
    cbn [fst snd]. rewrite !filter_app. cbn [filter is_write_row is_upload].
    rewrite !app_nil_r, Q1, Q2, Q3, R1, R3.
    cbn [app filter is_write_row is_upload]. rewrite S1, S2.
    repeat split. f_equal. cbn [app] in R2. lia.
  - left. exists e. split; reflexivity.
Qed.

(** *** Groups *)












(** *** Isolation of the fetches *)

Lemma scrape_norma_by_id_catches (site : Site) (norma_id : Z) (e : exn) :
  scrape_norma_by_id site norma_id = Raise e -> isinstance_Exception e = false.
Proof.
  unfold scrape_norma_by_id.
  destruct (norma_try site norma_id) as [d|e']; cbn [norma_except].
  - discriminate.
  - destruct e'; cbn [isinstance_Exception]; intros E; inversion E; reflexivity.
Qed.

(** C6: whatever the other fetches of a group do, a fetch that gives a
    record has it written.  A fetch never raises an [Exception] (it
    answers [None]); the rows of a group [g1 ++ norma_id :: g2] are the
    rows of [g1], the record of [norma_id], the rows of [g2]; the await
    of the group adds exactly these rows to what was written; and a run
    whose search answered ends with the count and the rows of all the
    identifiers whose fetch gave a record, for every width. *)
Theorem fetch_failures_are_isolated (site : Site) :
  (forall norma_id e,
      scrape_norma_by_id site norma_id = Raise e ->
      isinstance_Exception e = false)
  /\ (forall g1 norma_id g2 row,
        scrape_norma_by_id site norma_id = Ok (Some row) ->
        records_of site (g1 ++ norma_id :: g2)
        = records_of site g1 ++ row :: records_of site g2)
  /\ (forall group st,
        filter is_write_row (trace (run_group site group st))
        = filter is_write_row (trace st)
          ++ map EvWriteRow (records_of site group))
  /\ (forall self date bs dl norma_ids,
        fst (search_boletines site date) = Ok norma_ids ->
        let all_norma_ids := slice_to norma_ids (daily_scrape_count self) in
        fst (scrape_by_date self site date bs dl)
        = Ok (Z.of_nat (List.length (records_of site all_norma_ids)))
        /\ filter is_write_row (snd (scrape_by_date self site date bs dl))
           = map EvWriteRow (records_of site all_norma_ids)).
Proof.
  split; [|split; [|split]].
  - apply scrape_norma_by_id_catches.
  - intros g1 norma_id g2 row H. rewrite records_of_app. f_equal.
    unfold records_of, gather. cbn [map dict_results]. rewrite H. reflexivity.
  - intros group st. cbn [run_group trace]. fold (records_of site group).
    rewrite filter_app. cbn [filter is_write_row].
    rewrite filter_write_rows. reflexivity.
  - intros self date bs dl norma_ids S.
    destruct (scrape_by_date_cases self site date bs dl)
      as [(e & S' & _) | (ids & S' & R1 & R2 & _)]; [congruence|].
    assert (ids = norma_ids) by congruence. subst ids.
    split; assumption.
Qed.

Lemma fetch_failures_are_isolated_witness :
  scrape_norma_by_id three_normas 222 = Ok None
  /\ map id_norma (records_of three_normas [111; 222; 333]) = [111; 333]
  /\ fst (scrape_by_date default_client three_normas "2025-10-06" None None)
     = Ok 2.
Proof.
  split; [reflexivity|]. split.
  - pose proof (proj1 (proj2 (fetch_failures_are_isolated three_normas))
                  [] 111 [222; 333] (extract 111 empty_soup) eq_refl) as H.
    cbn [app] in H. rewrite H. reflexivity.
  - exact (proj1 (proj2 (proj2 (proj2 (fetch_failures_are_isolated three_normas)))
                    default_client "2025-10-06" None None [111; 222; 333] eq_refl)).
Defined.

(** ** The asset of the scrape *)

(** C7: the count that [scrape_by_date] returns is the number of rows it
    wrote; the asset raises [LookupError] on a count of zero, with
    nothing uploaded; on a positive count it goes on to the upload of
    the batch, and returns when the upload does.  An error of the scrape
    is raised as it is. *)
Theorem zero_records_fail_the_partition (ileg_client : InfolegClient)
  (site : Site) (gcs : Storage) (date : string) :
  let out := scrape_boletin_and_archive ileg_client site gcs date in
  let local_path := ("/tmp/normas_" ++ date ++ ".csv")%string in
  let blob_name := ("daily_scrapes/normas_" ++ date ++ ".csv")%string in
  match scrape_by_date ileg_client site date None None with
  | (Raise e, tr) => out = (Raise e, tr)
  | (Ok scraped_count, tr) =>
      scraped_count = Z.of_nat (List.length (filter is_write_row tr))
      /\ filter is_upload tr = []
      /\ ((scraped_count = 0 /\ out = (Raise LookupError, tr))
          \/ (0 < scraped_count
              /\ snd out = tr ++ [EvUpload local_path blob_name]
              /\ fst out
                 = bind (upload_file gcs local_path blob_name)
                     (fun _ => Ok scraped_count)))
  end.
Proof.
  intros out local_path blob_name. subst out.
  unfold scrape_boletin_and_archive. fold local_path blob_name.
  destruct (scrape_by_date_cases ileg_client site date None None)
    as [(e & _ & E) | (ids & _ & R1 & R2 & R3)].
  - rewrite E. reflexivity.
  - cbv zeta in R1, R2, R3.
    destruct (scrape_by_date ileg_client site date None None) as [[count|e] tr];
      cbn [fst snd] in *; [|discriminate].
    injection R1 as R1. split; [|split].
    + rewrite R2, length_map. exact R1.
    + exact R3.
    + destruct (count =? 0) eqn:Z0.
      * left. apply Z.eqb_eq in Z0. split; [exact Z0 | reflexivity].
      * right. apply Z.eqb_neq in Z0. split; [lia|].
        destruct (upload_file gcs local_path blob_name); split; reflexivity.
Qed.

Lemma zero_records_fail_the_partition_witness :
  scrape_boletin_and_archive default_client maintenance_site uploads "2025-10-06"
  = (Raise LookupError,
     [EvWriteHeader; EvPost (mkForm "false" 6 10 2025); EvClose])
  /\ fst (scrape_boletin_and_archive default_client three_normas uploads
            "2025-10-06") = Ok 2.
Proof.
  split.
  - pose proof (zero_records_fail_the_partition default_client maintenance_site
                  uploads "2025-10-06") as H.
    cbv zeta in H.
    change (scrape_by_date default_client maintenance_site "2025-10-06" None None)
      with (@Ok Z 0, [EvWriteHeader; EvPost (mkForm "false" 6 10 2025); EvClose])
      in H.
    cbv iota beta in H.
    destruct H as (_ & _ & [[_ H] | [H _]]); [exact H | lia].
  - reflexivity.
Defined.

(** ** The merge pipeline *)

Lemma key_eqb_eq (a b : option Z) : key_eqb a b = true <-> a = b.
Proof.
  destruct a as [x|], b as [y|]; simpl; split; intros H;
    try discriminate; try reflexivity.
  - apply Z.eqb_eq in H. congruence.
  - inversion H. apply Z.eqb_refl.
Qed.

Lemma filter_idem {A : Type} (f : A -> bool) (l : list A) :
  filter f (filter f l) = filter f l.
Proof.
  induction l as [|a l IH]; [reflexivity|]. simpl.
  destruct (f a) eqn:E; simpl; rewrite ?E, IH; reflexivity.
Qed.

(** *** The append *)

Lemma master_daily_merge_ok (download : Download) (disk disk1 : Disk) (n : Z) :
  master_daily_merge download disk = (Ok n, disk1) ->
  exists content m,
    output_file disk = Some content
    /\ (master_file disk = Some m
        \/ (data_dir disk = Some None /\ download = Downloaded m))
    /\ n = Z.of_nat (List.length (readlines (universal_newlines content))) - 1
    /\ disk1
       = {| output_file := Some content;
            data_dir := Some (Some (m ++ new_data content)%string) |}.
Proof.
  unfold master_daily_merge, master_file.
  destruct (output_file disk) as [content|] eqn:O; [|discriminate].
  destruct (data_dir disk) as [[m|]|]; [| |discriminate].
  - intros E. injection E as En Ed. exists content, m.
    split; [reflexivity|]. split; [left; reflexivity|].
    split; [symmetry; exact En | symmetry; exact Ed].
  - destruct download as [m|e partial]; [|discriminate].
    intros E. injection E as En Ed. exists content, m.
    split; [reflexivity|]. split; [right; split; reflexivity|].
    split; [symmetry; exact En | symmetry; exact Ed].
Qed.

Lemma master_daily_merge_again (download : Download) (content master : string) :
  master_daily_merge download
    {| output_file := Some content; data_dir := Some (Some master) |}
  = (Ok (Z.of_nat (List.length (readlines (universal_newlines content))) - 1),
     {| output_file := Some content;
        data_dir := Some (Some (master ++ new_data content)%string) |}).
Proof. reflexivity. Qed.

Section FrameProperties.

Variable Row : Type.
Variable row_id : Row -> option Z.
Variable parse_line : string -> option Row.
Variable null_row : Row.

(** The row of an empty line has no [id_norma]. *)
Hypothesis null_row_id : row_id null_row = None.

Let has_id (r : Row) (rows : list Row) : bool :=
  existsb (fun r' => key_eqb (row_id r') (row_id r)) rows.

Lemma has_id_true (r : Row) (rows : list Row) :
  has_id r rows = true <-> exists r', In r' rows /\ row_id r' = row_id r.
Proof.
  unfold has_id. rewrite existsb_exists. split; intros (r' & Hin & H);
    exists r'; (split; [exact Hin|]); apply key_eqb_eq; exact H.
Qed.

Lemma has_id_false (r : Row) (rows : list Row) :
  has_id r rows = false <-> forall r', In r' rows -> row_id r' <> row_id r.
Proof.
  split.
  - intros H r' Hin E.
    assert (T : has_id r rows = true) by (apply has_id_true; eauto).
    congruence.
  - intros H. destruct (has_id r rows) eqn:E; [|reflexivity].
    apply has_id_true in E. destruct E as (r' & Hin & E').
    exfalso. exact (H r' Hin E').
Qed.

Lemma unique_keep_last_cons (r : Row) (rest : list Row) :
  unique_keep_last Row row_id (r :: rest)
  = if has_id r rest then unique_keep_last Row row_id rest
    else r :: unique_keep_last Row row_id rest.
Proof. reflexivity. Qed.

Lemma unique_keep_last_incl (rows : list Row) (r : Row) :
  In r (unique_keep_last Row row_id rows) -> In r rows.
Proof.
  induction rows as [|r0 rest IH]; [intros []|].
  rewrite unique_keep_last_cons. destruct (has_id r0 rest).
  - intros H. right. exact (IH H).
  - intros [H | H]; [left; exact H | right; exact (IH H)].
Qed.


Lemma unique_keep_last_NoDup (rows : list Row) :
  NoDup (map row_id (unique_keep_last Row row_id rows)).
Proof.
  induction rows as [|r0 rest IH]; [constructor|].
  rewrite unique_keep_last_cons. destruct (has_id r0 rest) eqn:E; [exact IH|].
  cbn [map]. constructor; [|exact IH].
  intros Hin. apply in_map_iff in Hin. destruct Hin as (r' & Hid & Hin).
  apply unique_keep_last_incl in Hin.
  exact (proj1 (has_id_false r0 rest) E r' Hin Hid).
Qed.


Lemma unique_keep_last_app (A B : list Row) :
  unique_keep_last Row row_id (A ++ B)
  = filter (fun r => negb (has_id r B)) (unique_keep_last Row row_id A)
    ++ unique_keep_last Row row_id B.
Proof.
  induction A as [|r A IH]; [reflexivity|].
  cbn [app]. rewrite !unique_keep_last_cons.
  assert (E : has_id r (A ++ B) = has_id r A || has_id r B)
    by (unfold has_id; apply existsb_app).
  rewrite E. destruct (has_id r A); cbn [orb]; [exact IH|].
  destruct (has_id r B) eqn:EB; cbn [filter]; rewrite EB; cbn [negb].
  - exact IH.
  - cbn [app]. rewrite IH. reflexivity.
Qed.

Lemma unique_keep_last_filtered (B : list Row) :
  filter (fun r => negb (has_id r B)) (unique_keep_last Row row_id B) = [].
Proof.
  assert (G : forall l, (forall r, In r l -> In r B) ->
            filter (fun r => negb (has_id r B)) l = []).
  { induction l as [|a l IH]; intros H; [reflexivity|]. cbn [filter].
    replace (has_id a B) with true
      by (symmetry; apply has_id_true; exists a; split;
          [apply H; left; reflexivity | reflexivity]).
    cbn [negb]. apply IH. intros r Hr. apply H. right. exact Hr. }
  apply G. intros r. apply unique_keep_last_incl.
Qed.

(** Rows appended a second time change nothing of the frame. *)
Lemma unique_keep_last_twice (M B : list Row) :
  unique_keep_last Row row_id ((M ++ B) ++ B)
  = unique_keep_last Row row_id (M ++ B).
Proof.
  rewrite (unique_keep_last_app (M ++ B) B), (unique_keep_last_app M B).
  rewrite filter_app, filter_idem, unique_keep_last_filtered.
  rewrite app_nil_r. reflexivity.
Qed.


Lemma has_id_app (r : Row) (A B : list Row) :
  has_id r (A ++ B) = has_id r A || has_id r B.
Proof. unfold has_id. apply existsb_app. Qed.

Lemma has_id_through (C D : list Row) (r : Row) :
  (forall c, In c C -> has_id c D = true) ->
  has_id r C = true -> has_id r D = true.
Proof.
  intros H HC. apply has_id_true in HC. destruct HC as (c & Hin & E).
  pose proof (H c Hin) as HD. apply has_id_true in HD.
  destruct HD as (d & Hd & E'). apply has_id_true. exists d.
  split; [exact Hd | congruence].
Qed.

(** Rows whose [id_norma]s all come again later change nothing of the
    frame. *)
Lemma unique_keep_last_drop (P C D : list Row) :
  (forall c, In c C -> has_id c D = true) ->
  unique_keep_last Row row_id (P ++ C ++ D)
  = unique_keep_last Row row_id (P ++ D).
Proof.
  intros H. induction P as [|p P IH].
  - cbn [app]. induction C as [|c C IHC]; [reflexivity|].
    cbn [app]. rewrite unique_keep_last_cons, has_id_app.
    rewrite (H c (or_introl eq_refl)), orb_true_r.
    apply IHC. intros x Hx. apply H. right. exact Hx.
  - cbn [app]. rewrite !unique_keep_last_cons, IH.
    replace (has_id p (P ++ C ++ D)) with (has_id p (P ++ D)); [reflexivity|].
    rewrite !has_id_app. destruct (has_id p P); [reflexivity|]. cbn [orb].
    destruct (has_id p C) eqn:EC; [|reflexivity].
    rewrite (has_id_through C D p H EC). reflexivity.
Qed.

Lemma In_unique_keep_last_app (A B : list Row) (r : Row) :
  In r (unique_keep_last Row row_id (A ++ B))
  <-> (In r (unique_keep_last Row row_id A) /\ has_id r B = false)
      \/ In r (unique_keep_last Row row_id B).
Proof.
  rewrite unique_keep_last_app, in_app_iff, filter_In, negb_true_iff.
  reflexivity.
Qed.

Lemma NoDup_map_filter (f : Row -> bool) (l : list Row) :
  NoDup (map row_id l) -> NoDup (map row_id (filter f l)).
Proof.
  induction l as [|a l IH]; [intros H; exact H|].
  cbn [map filter]. intros H. inversion H as [|x xs Hn Hl]; subst.
  destruct (f a); [|exact (IH Hl)].
  cbn [map]. constructor; [|exact (IH Hl)].
  intros Hin. apply Hn. apply in_map_iff in Hin.
  destruct Hin as (r & E & Hr). apply filter_In in Hr.
  apply in_map_iff. exists r. split; [exact E | exact (proj1 Hr)].
Qed.

(** The rows with an [id_norma]. *)
Let has_key (r : Row) : bool :=
  match row_id r with
  | Some _ => true
  | None => false
  end.

Lemma has_key_true (r : Row) : has_key r = true <-> row_id r <> None.
Proof. unfold has_key. destruct (row_id r); split; congruence. Qed.

(** Among rows of distinct [id_norma]s at most one has none. *)
Lemma filter_has_key_length (W : list Row) :
  NoDup (map row_id W) ->
  (In None (map row_id W) ->
   S (List.length (filter has_key W)) = List.length W)
  /\ (~ In None (map row_id W) ->
      List.length (filter has_key W) = List.length W).
Proof.
  induction W as [|a W IH]; intros H.
  - split; [intros [] | reflexivity].
  - cbn [map] in H. inversion H as [|x xs Hn Hl]; subst.
    destruct (IH Hl) as [IH1 IH2]. cbn [map filter In].
    destruct (has_key a) eqn:K.
    + apply has_key_true in K. cbn [List.length]. split.
      * intros [E | Hin]; [congruence|]. rewrite (IH1 Hin). reflexivity.
      * intros N. rewrite IH2; [reflexivity|]. intros Hin. apply N. right. exact Hin.
    + assert (Ea : row_id a = None).
      { destruct (row_id a) eqn:Ea; [|reflexivity].
        assert (T : has_key a = true) by (apply has_key_true; congruence).
        congruence. }
      rewrite Ea in Hn. cbn [List.length]. split.
      * intros _. rewrite (IH2 Hn). reflexivity.
      * intros N. exfalso. apply N. left. exact Ea.
Qed.

(** *** Lines *)

Lemma split_lines_cons (s : string) :
  exists l ls, split_lines s = l :: ls.
Proof.
  destruct s as [|c r]; [eexists; eexists; reflexivity|].
  cbn [split_lines]. destruct (Ascii.eqb c LF); [eexists; eexists; reflexivity|].
  destruct (split_lines r); eexists; eexists; reflexivity.
Qed.

Lemma split_lines_app (a b : string) :
  split_lines (a ++ String LF b) = split_lines a ++ split_lines b.
Proof.
  induction a as [|c a IH].
  - cbn [String.append split_lines]. rewrite Ascii.eqb_refl. reflexivity.
  - cbn [String.append split_lines]. rewrite IH.
    destruct (Ascii.eqb c LF); [reflexivity|].
    destruct (split_lines_cons a) as (l & ls & E). rewrite E. reflexivity.
Qed.

Lemma tl_split_lines_app (a b : string) :
  tl (split_lines (a ++ String LF b)) = tl (split_lines a) ++ split_lines b.
Proof.
  rewrite split_lines_app.
  destruct (split_lines_cons a) as (l & ls & E). rewrite E. reflexivity.
Qed.

Lemma drop_last_empty_app (a b : list string) :
  b <> [] -> drop_last_empty (a ++ b) = a ++ drop_last_empty b.
Proof.
  intros N. induction a as [|x a IH]; [reflexivity|].
  cbn [app drop_last_empty]. rewrite IH.
  destruct (a ++ b) as [|y l] eqn:E; [|reflexivity].
  apply app_eq_nil in E. destruct E as [_ E]. contradiction.
Qed.

(** What [drop_last_empty] drops: nothing, or one empty line. *)
Lemma drop_last_empty_gap (l : list string) :
  exists g, (g = [] \/ g = [EmptyString]) /\ l = drop_last_empty l ++ g.
Proof.
  induction l as [|x l IH]; [exists []; split; [left|]; reflexivity|].
  destruct l as [|y l].
  - cbn [drop_last_empty]. destruct x as [|c r].
    + exists [EmptyString]. split; [right|]; reflexivity.
    + exists []. split; [left|]; reflexivity.
  - destruct IH as (g & Hg & E). exists g. split; [exact Hg|].
    change (drop_last_empty (x :: y :: l)) with (x :: drop_last_empty (y :: l)).
    cbn [app]. rewrite <- E. reflexivity.
Qed.

(** The lines of a file to which a line feed and a text were appended. *)
Lemma data_lines_app (a b : string) :
  data_lines (a ++ String LF b)
  = tl (split_lines a) ++ drop_last_empty (split_lines b).
Proof.
  unfold data_lines. rewrite tl_split_lines_app. apply drop_last_empty_app.
  destruct (split_lines_cons b) as (l & ls & E). rewrite E. discriminate.
Qed.

Lemma parse_rows_app (l1 l2 : list string) :
  parse_rows Row parse_line null_row (l1 ++ l2)
  = bind (parse_rows Row parse_line null_row l1) (fun r1 =>
    bind (parse_rows Row parse_line null_row l2) (fun r2 => Ok (r1 ++ r2))).
Proof.
  induction l1 as [|l l1 IH].
  - cbn [app parse_rows bind].
    destruct (parse_rows Row parse_line null_row l2); reflexivity.
  - cbn [app parse_rows]. destruct (read_line Row parse_line null_row l);
      [|reflexivity].
    rewrite IH. destruct (parse_rows Row parse_line null_row l1); [|reflexivity].
    cbn [bind]. destruct (parse_rows Row parse_line null_row l2); reflexivity.
Qed.

Lemma parse_rows_app_ok (l1 l2 : list string) (rows : list Row) :
  parse_rows Row parse_line null_row (l1 ++ l2) = Ok rows
  <-> exists r1 r2,
        parse_rows Row parse_line null_row l1 = Ok r1
        /\ parse_rows Row parse_line null_row l2 = Ok r2
        /\ rows = r1 ++ r2.
Proof.
  rewrite parse_rows_app. split.
  - destruct (parse_rows Row parse_line null_row l1) as [r1|e]; [|discriminate].
    cbn [bind].
    destruct (parse_rows Row parse_line null_row l2) as [r2|e]; [|discriminate].
    cbn [bind]. intros H. injection H as H. exists r1, r2. auto.
  - intros (r1 & r2 & E1 & E2 & ->). rewrite E1, E2. reflexivity.
Qed.

Lemma parse_rows_raises (l : list string) (e : exn) :
  parse_rows Row parse_line null_row l = Raise e -> e = ComputeError.
Proof.
  induction l as [|x l IH]; [discriminate|]. cbn [parse_rows].
  destruct (read_line Row parse_line null_row x); [|congruence].
  destruct (parse_rows Row parse_line null_row l); cbn [bind]; [discriminate|].
  intros H. apply IH. congruence.
Qed.

(** An empty line, when there is one, is read as the row of nulls. *)
Lemma parse_rows_gap (g : list string) :
  g = [] \/ g = [EmptyString] ->
  exists G,
    parse_rows Row parse_line null_row g = Ok G
    /\ (G = [] \/ G = [null_row])
    /\ (G = [null_row] <-> g = [EmptyString]).
Proof.
  intros [-> | ->].
  - exists []. split; [reflexivity|]. split; [left; reflexivity|].
    split; discriminate.
  - exists [null_row]. split; [reflexivity|]. split; [right; reflexivity|].
    split; reflexivity.
Qed.

(** The rows of the master file after one, two and three appends of the
    same text: the rows [F] of the old file, an empty line included when
    the old file ends in a line feed, and the rows [B] of the text, once
    again for every further append, then with the row of nulls [G] of the
    empty line that the leading line feed leaves when the text ends in a
    line feed. *)
Lemma rows_of_appends (m x : string) (rows1 : list Row) :
  scan_csv Row parse_line null_row (m ++ String LF x) = Ok rows1 ->
  exists F B G,
    rows1 = F ++ B
    /\ (G = [] \/ G = [null_row])
    /\ scan_csv Row parse_line null_row ((m ++ String LF x) ++ String LF x)
       = Ok (F ++ (B ++ G) ++ B)
    /\ scan_csv Row parse_line null_row
         (((m ++ String LF x) ++ String LF x) ++ String LF x)
       = Ok (F ++ (B ++ G) ++ (B ++ G) ++ B).
Proof.
  unfold scan_csv. rewrite !data_lines_app, !tl_split_lines_app.
  destruct (drop_last_empty_gap (split_lines x)) as (g & Hg & Eg).
  destruct (parse_rows_gap g Hg) as (G & PG & HG & _).
  intros H. apply parse_rows_app_ok in H.
  destruct H as (F & B & PF & PB & ->).
  exists F, B, G. split; [reflexivity|]. split; [exact HG|].
  assert (PX : parse_rows Row parse_line null_row (split_lines x) = Ok (B ++ G)).
  { rewrite Eg. apply parse_rows_app_ok. exists B, G. auto. }
  assert (P1 : parse_rows Row parse_line null_row
                 (tl (split_lines m) ++ split_lines x)
               = Ok (F ++ (B ++ G)))
    by (apply parse_rows_app_ok; exists F, (B ++ G); auto).
  split.
  - replace (F ++ (B ++ G) ++ B) with ((F ++ (B ++ G)) ++ B)
      by (rewrite <- !app_assoc; reflexivity).
    apply parse_rows_app_ok. exists (F ++ (B ++ G)), B. auto.
  - replace (F ++ (B ++ G) ++ (B ++ G) ++ B)
      with (((F ++ (B ++ G)) ++ (B ++ G)) ++ B)
      by (rewrite <- !app_assoc; reflexivity).
    apply parse_rows_app_ok. exists ((F ++ (B ++ G)) ++ (B ++ G)), B.
    split; [|auto]. apply parse_rows_app_ok. exists (F ++ (B ++ G)), (B ++ G).
    auto.
Qed.

(** *** The frame after repeated appends *)

Lemma filter_andb {A : Type} (f g : A -> bool) (l : list A) :
  filter (fun a => f a && g a) l = filter f (filter g l).
Proof.
  induction l as [|a l IH]; [reflexivity|]. cbn [filter].
  destruct (g a); cbn [filter]; rewrite ?andb_false_r, ?andb_true_r.
  - destruct (f a); rewrite IH; reflexivity.
  - exact IH.
Qed.

Lemma has_id_null (r : Row) (rows : list Row) :
  has_id r (null_row :: rows) = negb (has_key r) || has_id r rows.
Proof.
  unfold has_id, has_key. cbn [existsb]. rewrite null_row_id.
  destruct (row_id r); reflexivity.
Qed.

Lemma null_id_in (rows : list Row) :
  has_id null_row rows = true <-> In None (map row_id rows).
Proof.
  rewrite has_id_true, in_map_iff, null_row_id.
  split; intros (r & H1 & H2); exists r; auto.
Qed.

(** The frames of the rows after one, two and three appends: the third
    changes nothing; the second keeps every row that has an [id_norma]
    and adds at most the row of nulls. *)
Lemma frames_of_appends (F B G : list Row) :
  G = [] \/ G = [null_row] ->
  unique_keep_last Row row_id (F ++ (B ++ G) ++ (B ++ G) ++ B)
  = unique_keep_last Row row_id (F ++ (B ++ G) ++ B)
  /\ (forall r, row_id r <> None ->
        In r (unique_keep_last Row row_id (F ++ (B ++ G) ++ B))
        <-> In r (unique_keep_last Row row_id (F ++ B)))
  /\ (In None (map row_id (unique_keep_last Row row_id (F ++ B))) ->
      In None (map row_id (unique_keep_last Row row_id (F ++ (B ++ G) ++ B)))
      /\ List.length (unique_keep_last Row row_id (F ++ (B ++ G) ++ B))
         = List.length (unique_keep_last Row row_id (F ++ B)))
  /\ (List.length (unique_keep_last Row row_id (F ++ (B ++ G) ++ B))
      = List.length (unique_keep_last Row row_id (F ++ B))
      \/ (List.length (unique_keep_last Row row_id (F ++ (B ++ G) ++ B))
          = S (List.length (unique_keep_last Row row_id (F ++ B)))
          /\ ~ In None (map row_id (unique_keep_last Row row_id (F ++ B)))
          /\ In None
               (map row_id (unique_keep_last Row row_id (F ++ (B ++ G) ++ B))))).
Proof.
  intros HG. split.
  { apply (unique_keep_last_drop F (B ++ G) ((B ++ G) ++ B)).
    intros c Hc. rewrite has_id_app. apply orb_true_iff. left.
    apply has_id_true. exists c. split; [exact Hc | reflexivity]. }
  assert (Same : unique_keep_last Row row_id (F ++ (B ++ G) ++ B)
                 = unique_keep_last Row row_id (F ++ B) ->
          (forall r, row_id r <> None ->
             In r (unique_keep_last Row row_id (F ++ (B ++ G) ++ B))
             <-> In r (unique_keep_last Row row_id (F ++ B)))
          /\ (In None (map row_id (unique_keep_last Row row_id (F ++ B))) ->
              In None (map row_id (unique_keep_last Row row_id (F ++ (B ++ G) ++ B)))
              /\ List.length (unique_keep_last Row row_id (F ++ (B ++ G) ++ B))
                 = List.length (unique_keep_last Row row_id (F ++ B)))
          /\ (List.length (unique_keep_last Row row_id (F ++ (B ++ G) ++ B))
              = List.length (unique_keep_last Row row_id (F ++ B))
              \/ (List.length (unique_keep_last Row row_id (F ++ (B ++ G) ++ B))
                  = S (List.length (unique_keep_last Row row_id (F ++ B)))
                  /\ ~ In None (map row_id (unique_keep_last Row row_id (F ++ B)))
                  /\ In None
                       (map row_id
                          (unique_keep_last Row row_id (F ++ (B ++ G) ++ B)))))).
  { intros E. rewrite E. split; [intros r _; reflexivity|].
    split; [intros H; split; [exact H | reflexivity] | left; reflexivity]. }
  assert (Own : forall c, In c B -> has_id c B = true)
    by (intros c Hc; apply has_id_true; exists c; split; [exact Hc | reflexivity]).
  destruct HG as [-> | ->].
  { apply Same. rewrite app_nil_r. apply unique_keep_last_drop. exact Own. }
  destruct (has_id null_row B) eqn:EB.
  { apply Same. apply unique_keep_last_drop. intros c Hc.
    apply in_app_iff in Hc. destruct Hc as [Hc | [<- | []]];
      [apply Own; exact Hc | exact EB]. }
  clear Same.
  assert (E2 : unique_keep_last Row row_id (F ++ (B ++ [null_row]) ++ B)
               = filter has_key
                   (filter (fun r => negb (has_id r B))
                      (unique_keep_last Row row_id F))
                 ++ null_row :: unique_keep_last Row row_id B).
  { rewrite <- app_assoc.
    rewrite (unique_keep_last_drop F B ([null_row] ++ B))
      by (intros c Hc; rewrite has_id_app; rewrite (Own c Hc);
          apply orb_true_r).
    cbn [app]. rewrite unique_keep_last_app, unique_keep_last_cons.
    fold (has_id null_row B). rewrite EB. f_equal.
    rewrite <- filter_andb. apply filter_ext. intros r.
    rewrite has_id_null, negb_orb, negb_involutive. reflexivity. }
  rewrite E2, unique_keep_last_app.
  set (W := filter (fun r => negb (has_id r B)) (unique_keep_last Row row_id F)).
  set (uB := unique_keep_last Row row_id B).
  assert (ND : NoDup (map row_id W))
    by (apply NoDup_map_filter, unique_keep_last_NoDup).
  assert (NB : ~ In None (map row_id uB)).
  { intros H. apply in_map_iff in H. destruct H as (r & Er & Hr).
    apply unique_keep_last_incl in Hr.
    assert (T : has_id null_row B = true)
      by (apply has_id_true; exists r; split; [exact Hr | congruence]).
    congruence. }
  assert (N2 : In None (map row_id (filter has_key W ++ null_row :: uB))).
  { rewrite map_app, in_app_iff. right. left. exact null_row_id. }
  destruct (filter_has_key_length W ND) as [L1 L2].
  split; [|split].
  - intros r Hr. rewrite !in_app_iff, filter_In. cbn [In]. split.
    + intros [[H _] | [H | H]]; [left; exact H | | right; exact H].
      subst r. exfalso. exact (Hr null_row_id).
    + intros [H | H]; [left; split; [exact H | apply has_key_true, Hr]|].
      right. right. exact H.
  - intros H. split; [exact N2|].
    rewrite map_app, in_app_iff in H. destruct H as [H | H]; [|contradiction].
    rewrite !length_app. cbn [List.length]. rewrite <- (L1 H). lia.
  - destruct (has_id null_row W) eqn:EW.
    + left. apply null_id_in in EW.
      rewrite !length_app. cbn [List.length]. rewrite <- (L1 EW). lia.
    + right. assert (NW : ~ In None (map row_id W)).
      { intros H. apply null_id_in in H. congruence. }
      split; [|split; [|exact N2]].
      * rewrite !length_app. cbn [List.length]. rewrite (L2 NW). lia.
      * rewrite map_app, in_app_iff. intros [H | H]; contradiction.
Qed.

(** *** The frame and the table *)


(** The orders in which three runs of [collect] give their rows. *)
Variables order order2 order3 : list Row -> list Row.
Hypothesis order_perm : forall rows, Permutation (order rows) rows.
Hypothesis order2_perm : forall rows, Permutation (order2 rows) rows.
Hypothesis order3_perm : forall rows, Permutation (order3 rows) rows.


(** C4 (amended): after a run of the append, a second and a third run
    with the same batch succeed with the same count of rows.  The frame
    of the master file after the third run has the rows of the frame
    after the second.  The frame after the second run has the rows with
    an [id_norma] of the frame after the first, and no other row with an
    [id_norma]; it has as many rows when the frame after the first run
    has a row without [id_norma], and as many or one more, a row without
    [id_norma], when it has none. *)
Theorem append_twice_same_frame (download : Download) (disk disk1 : Disk)
  (n : Z) (df1 : list Row) :
  master_daily_merge download disk = (Ok n, disk1) ->
  master_frame Row row_id parse_line null_row order disk1 = Ok df1 ->
  exists disk2 disk3 df2 df3,
    master_daily_merge download disk1 = (Ok n, disk2)
    /\ master_daily_merge download disk2 = (Ok n, disk3)
    /\ master_frame Row row_id parse_line null_row order2 disk2 = Ok df2
    /\ master_frame Row row_id parse_line null_row order3 disk3 = Ok df3
    /\ Permutation df3 df2
    /\ (forall r, row_id r <> None -> In r df2 <-> In r df1)
    /\ (In None (map row_id df1) ->
        In None (map row_id df2) /\ List.length df2 = List.length df1)
    /\ (List.length df2 = List.length df1
        \/ (List.length df2 = S (List.length df1)
            /\ ~ In None (map row_id df1)
            /\ In None (map row_id df2))).
Proof.
  intros H H1.
  destruct (master_daily_merge_ok _ _ _ _ H) as (content & m & _ & _ & En & Ed).
  subst n disk1. unfold new_data in *.
  set (x := join (tl (readlines (universal_newlines content)))) in *.
  revert H1. unfold master_frame. cbn [master_file data_dir].
  destruct (scan_csv Row parse_line null_row (m ++ String LF x))
    as [rows1|e] eqn:S1; cbn [bind]; [|discriminate].
  intros H1. injection H1 as H1.
  destruct (rows_of_appends m x rows1 S1) as (F & B & G & -> & HG & S2 & S3).
  destruct (frames_of_appends F B G HG) as (U3 & K & Nl & Ln).
  pose proof (order_perm (unique_keep_last Row row_id (F ++ B))) as P1.
  rewrite H1 in P1.
  pose proof (order2_perm (unique_keep_last Row row_id (F ++ (B ++ G) ++ B)))
    as P2.
  pose proof (order3_perm
                (unique_keep_last Row row_id (F ++ (B ++ G) ++ (B ++ G) ++ B)))
    as P3.
  rewrite U3 in P3.
  eexists. eexists. eexists. eexists.
  split; [apply master_daily_merge_again|].
  split; [apply master_daily_merge_again|].
  unfold new_data. fold x. cbn [master_file data_dir].
  rewrite S2, S3. cbn [bind]. rewrite U3.
  split; [reflexivity|]. split; [reflexivity|].
  split; [rewrite P3; symmetry; exact P2|].
  assert (I1 : forall r, In r df1
                 <-> In r (unique_keep_last Row row_id (F ++ B))).
  { intros r. split; apply Permutation_in; [exact P1 | symmetry; exact P1]. }
  assert (I2 : forall r,
            In r (order2 (unique_keep_last Row row_id (F ++ (B ++ G) ++ B)))
            <-> In r (unique_keep_last Row row_id (F ++ (B ++ G) ++ B))).
  { intros r. split; apply Permutation_in; [exact P2 | symmetry; exact P2]. }
  assert (M1 : forall k, In k (map row_id df1)
                 <-> In k (map row_id (unique_keep_last Row row_id (F ++ B)))).
  { intros k. split; apply Permutation_in; apply Permutation_map;
      [exact P1 | symmetry; exact P1]. }
  assert (M2 : forall k,
            In k (map row_id
                    (order2 (unique_keep_last Row row_id (F ++ (B ++ G) ++ B))))
            <-> In k (map row_id
                        (unique_keep_last Row row_id (F ++ (B ++ G) ++ B)))).
  { intros k. split; apply Permutation_in; apply Permutation_map;
      [exact P2 | symmetry; exact P2]. }
  rewrite (Permutation_length P2), (Permutation_length P1).
  split; [|split].
  - intros r Hr. rewrite I1, I2. apply K. exact Hr.
  - rewrite M1, M2. exact Nl.
  - rewrite M1, M2. exact Ln.
Qed.

End FrameProperties.


(** Three appends of the batch of the day to the master file of the
    day, which ends in a line feed. *)
Lemma append_twice_same_frame_witness :
  exists disk2 disk3 df2 df3,
    master_daily_merge (Downloaded "")
      (snd (master_daily_merge (Downloaded "") disk_of_day))
    = (Ok 2, disk2)
    /\ master_daily_merge (Downloaded "") disk2 = (Ok 2, disk3)
    /\ master_frame (option Z * string) fst two_columns null_columns (@rev _)
         disk2
       = Ok df2
    /\ master_frame (option Z * string) fst two_columns null_columns
         file_order disk3
       = Ok df3
    /\ Permutation df3 df2
    /\ (forall r,
          fst r <> None ->
          In r df2
          <-> In r [(Some 7, "Decreto 1 (corregido)"); null_columns;
                    (Some 9, "Resolucion 3"); (Some 8, "Ley 2 bis")])
    /\ (In None
          (map fst
             [(Some 7, "Decreto 1 (corregido)"); null_columns;
              (Some 9, "Resolucion 3"); (Some 8, "Ley 2 bis")]) ->
        In None (map fst df2) /\ List.length df2 = 4%nat)
    /\ (List.length df2 = 4%nat
        \/ (List.length df2 = 5%nat
            /\ ~ In None
                   (map fst
                      [(Some 7, "Decreto 1 (corregido)"); null_columns;
                       (Some 9, "Resolucion 3"); (Some 8, "Ley 2 bis")])
            /\ In None (map fst df2))).
Proof.
  apply (append_twice_same_frame (option Z * string) fst two_columns
           null_columns eq_refl file_order (@rev _) file_order
           (fun rows => Permutation_refl rows)
           (fun rows => Permutation_sym (Permutation_rev rows))
           (fun rows => Permutation_refl rows)
           (Downloaded "") disk_of_day
           (snd (master_daily_merge (Downloaded "") disk_of_day)) 2
           [(Some 7, "Decreto 1 (corregido)"); null_columns;
            (Some 9, "Resolucion 3"); (Some 8, "Ley 2 bis")]).
  - vm_compute. reflexivity.
  - vm_compute. reflexivity.
Defined.

(** C4, as the specification states it, fails: a master file that does
    not end in a line feed has three rows after one append of the batch
    of the day and four after two, the fourth the row of nulls of the
    empty line between the two copies of the batch. *)
Lemma append_twice_adds_a_row :
  master_frame (option Z * string) fst two_columns null_columns file_order
    (snd (master_daily_merge (Downloaded "") open_disk))
  = Ok [(Some 7, "Decreto 1"); (Some 9, "Resolucion 3"); (Some 8, "Ley 2 bis")]
  /\ master_frame (option Z * string) fst two_columns null_columns file_order
       (snd (master_daily_merge (Downloaded "")
               (snd (master_daily_merge (Downloaded "") open_disk))))
     = Ok [(Some 7, "Decreto 1"); null_columns; (Some 9, "Resolucion 3");
           (Some 8, "Ley 2 bis")].
Proof. split; vm_compute; reflexivity. Qed.

(** ** The embeddings merge *)

Section EmbeddingsProperties.

Variables StagingRow EmbeddingRow : Type.
Variable merge_job :
  Warehouse StagingRow EmbeddingRow -> result (list EmbeddingRow * Z).
Variable truncate_job : Warehouse StagingRow EmbeddingRow -> result unit.

Let run := master_daily_embeddings_merge StagingRow EmbeddingRow merge_job
             truncate_job.

(** C8: the TRUNCATE of the staging table is sent only after the MERGE
    has returned its result; when the MERGE raises, the step raises the
    same exception, the MERGE is the only statement sent and the
    warehouse, the staging table with it, is as it was.  The staging
    table is emptied only when the step returns. *)
Theorem truncate_only_after_merge (w : Warehouse StagingRow EmbeddingRow) :
  (In (EvQuery TRUNCATE) (snd (run w)) ->
     exists target rows_modified, merge_job w = Ok (target, rows_modified))
  /\ (forall e, merge_job w = Raise e ->
        run w = (Raise e, w, [EvQuery MERGE])
        /\ staging (snd (fst (run w))) = staging w
        /\ ~ In (EvQuery TRUNCATE) (snd (run w)))
  /\ (forall e, fst (fst (run w)) = Raise e ->
        staging (snd (fst (run w))) = staging w)
  /\ (forall n, fst (fst (run w)) = Ok n ->
        staging (snd (fst (run w))) = []
        /\ snd (run w) = [EvQuery MERGE; EvQuery TRUNCATE]).
Proof.
  unfold run, master_daily_embeddings_merge.
  destruct (merge_job w) as [[target rows_modified]|e0] eqn:M.
  - split; [intros _; exists target, rows_modified; reflexivity|].
    split; [intros e E; discriminate|].
    destruct (truncate_job _) as [u|e1]; cbn [fst snd].
    + split; [intros e E; discriminate|].
      intros n _. split; reflexivity.
    + split; [intros e _; reflexivity|]. intros n E. discriminate.
  - cbn [fst snd]. split.
    + intros [H | []]. discriminate.
    + split.
      * intros e E. injection E as E. subst e0.
        split; [reflexivity|]. split; [reflexivity|].
        intros [H | []]. discriminate.
      * split; [intros e _; reflexivity|]. intros n E. discriminate.
Qed.

End EmbeddingsProperties.

(** A MERGE that fails on a staging table of three rows. *)
Example failed_merge_keeps_staging :
  master_daily_embeddings_merge Z Z failing_merge truncate_ok
    (mkWarehouse [101; 102; 103] [7])
  = (Raise WarehouseError, mkWarehouse [101; 102; 103] [7], [EvQuery MERGE]).
Proof. reflexivity. Qed.

Lemma truncate_only_after_merge_witness :
  master_daily_embeddings_merge Z Z failing_merge truncate_ok
    (mkWarehouse [101; 102; 103] [7])
  = (Raise WarehouseError, mkWarehouse [101; 102; 103] [7], [EvQuery MERGE])
  /\ staging
       (snd (fst (master_daily_embeddings_merge Z Z failing_merge truncate_ok
                    (mkWarehouse [101; 102; 103] [7]))))
     = [101; 102; 103]
  /\ ~ In (EvQuery TRUNCATE)
         (snd (master_daily_embeddings_merge Z Z failing_merge truncate_ok
                 (mkWarehouse [101; 102; 103] [7]))).
Proof.
  exact (proj1 (proj2 (truncate_only_after_merge Z Z failing_merge truncate_ok
                         (mkWarehouse [101; 102; 103] [7])))
           WarehouseError eq_refl).
Defined.

(** * Further properties of the scraper *)

(** ** The date normalizer *)

Lemma rstrip_idem (s : string) : rstrip (rstrip s) = rstrip s.
Proof.
  induction s as [|c r IH]; [reflexivity|].
  cbn [rstrip]. destruct (rstrip r) as [|c' r'] eqn:E.
  - destruct (is_space c) eqn:Sp; [reflexivity|].
    cbn [rstrip]. rewrite Sp. reflexivity.
  - cbn [rstrip]. cbn [rstrip] in IH. rewrite IH. reflexivity.
Qed.

Lemma lstrip_nonspace (c : ascii) (r : string) :
  is_space c = false -> lstrip (String c r) = String c r.
Proof. intros H. cbn [lstrip]. rewrite H. reflexivity. Qed.

Lemma strip_idem (s : string) : strip (strip s) = strip s.
Proof.
  unfold strip. pose proof (lstrip_head s) as H.
  destruct (lstrip s) as [|c r]; [reflexivity|].
  rewrite (rstrip_cons_nonspace c r H), (lstrip_nonspace c _ H).
  rewrite <- (rstrip_cons_nonspace c r H). apply rstrip_idem.
Qed.

Lemma strptime_dmY_valid (t : string) (dt : date) :
  strptime_dmY t = Some dt ->
  valid_date (year dt) (month dt) (day dt) = true.
Proof.
  unfold strptime_dmY, finish.
  destruct (regex_dmY t) as [[[[d m] y] rest]|]; [|discriminate].
  destruct rest; [|discriminate].
  destruct (valid_date (int y) (int m) (int d)) eqn:V; [|discriminate].
  intros H. injection H as H. subst dt. exact V.
Qed.

(** *** The answers are not read again *)

Lemma digits_hyphens_app (a b : string) :
  digits_hyphens (a ++ b) = digits_hyphens a && digits_hyphens b.
Proof.
  induction a as [|c a IH]; [reflexivity|].
  cbn [String.append digits_hyphens]. rewrite IH, andb_assoc. reflexivity.
Qed.

Lemma date_char_not_slash (c : ascii) :
  is_digit c || Ascii.eqb c "-" = true -> Ascii.eqb "/" c = false.
Proof.
  destruct c as [[] [] [] [] [] [] [] []]; vm_compute; congruence.
Qed.

Lemma date_char_not_letter (c : ascii) :
  is_digit c || Ascii.eqb c "-" = true -> is_letter c = false.
Proof.
  destruct c as [[] [] [] [] [] [] [] []]; vm_compute; congruence.
Qed.

Lemma digits_hyphens_no_slash (t : string) :
  digits_hyphens t = true -> contains "/" t = false.
Proof.
  induction t as [|c r IH]; [reflexivity|].
  cbn [digits_hyphens contains startswith]. intros H.
  apply andb_prop in H. destruct H as [Hc Hr].
  rewrite (date_char_not_slash c Hc), (IH Hr). reflexivity.
Qed.

Lemma contains_slash_app (a b : string) :
  contains "/" (a ++ String "/" b) = true.
Proof.
  induction a as [|c a IH]; [reflexivity|].
  cbn [String.append]. cbn [contains]. cbn [contains] in IH. rewrite IH.
  apply orb_true_r.
Qed.

(** The form with slashes reads only texts that hold a slash. *)
Lemma strptime_dmY_slash (t : string) (c : ascii) (r : string) (dt : date) :
  t = String c r -> is_space c = false ->
  strptime_dmY t = Some dt -> contains "/" t = true.
Proof.
  intros E Hc P. subst t.
  assert (Hh : forall c' r', String c r = String c' r' -> is_space c' = false)
    by (intros c' r' E; injection E as E _; subst c'; exact Hc).
  destruct (strptime_dmY_inv (String c r) dt Hh P) as (td & tm & T & _).
  rewrite T. apply contains_slash_app.
Qed.

(** The abbreviated form reads no text of digits and hyphens only. *)
Lemma digits_hyphens_no_abbr (t : string) :
  digits_hyphens t = true -> match_dd_mmm_yyyy t = None.
Proof.
  destruct t as [|d1 [|d2 [|h1 [|l1 [|l2 [|l3 [|h2 [|y1 [|y2 [|y3 [|y4 rest]]]]]]]]]]];
    try reflexivity.
  cbn [digits_hyphens]. intros H.
  do 4 (apply andb_prop in H; destruct H as [? H]).
  cbn [match_dd_mmm_yyyy].
  rewrite (date_char_not_letter l1) by assumption.
  rewrite !andb_false_r. reflexivity.
Qed.

(** A text of one digit and at most [n] more, a month and a day starts
    and ends with a digit and holds digits and hyphens only. *)
Lemma year_then_chars (n : nat) (t : string) :
  year_then n t = true ->
  exists c mid d,
    t = String c (mid ++ String d EmptyString)
    /\ is_digit c = true /\ is_digit d = true /\ digits_hyphens t = true.
Proof.
  revert t. induction n as [|n IH]; intros t H;
    (destruct t as [|c r]; [discriminate|]); cbn [year_then] in H;
    apply andb_prop in H; destruct H as [Hc H].
  all: assert (M : is_month_day_shape r = true ->
         exists mid d,
           r = (mid ++ String d EmptyString)%string
           /\ is_digit d = true /\ digits_hyphens r = true).
  1,3: (intros S;
        destruct r as [|h1 [|m1 [|m2 [|h2 [|d1 [|d2 [|x r]]]]]]]; try discriminate;
        cbn [is_month_day_shape] in S;
        do 5 (apply andb_prop in S; destruct S as [S ?]);
        exists (String h1 (String m1 (String m2 (String h2 (String d1 EmptyString))))), d2;
        split; [reflexivity|]; split; [assumption|];
        cbn [digits_hyphens];
        repeat match goal with E : _ = true |- _ => rewrite E; clear E end;
        rewrite ?orb_true_r; reflexivity).
  - rewrite orb_false_r in H. destruct (M H) as (mid & d & E & Hd & Hr).
    exists c, mid, d. rewrite <- E. cbn [digits_hyphens]. rewrite Hc, Hr.
    repeat split; assumption.
  - apply orb_prop in H. destruct H as [H | H].
    + destruct (M H) as (mid & d & E & Hd & Hr).
      exists c, mid, d. rewrite <- E. cbn [digits_hyphens]. rewrite Hc, Hr.
      repeat split; assumption.
    + destruct (IH r H) as (c' & mid & d & E & Hc' & Hd & Hr).
      exists c, (String c' mid), d. cbn [String.append]. rewrite <- E.
      cbn [digits_hyphens]. rewrite Hc, Hr. repeat split; assumption.
Qed.

(** A text of the shape of an answer is read by neither of the two
    forms. *)
Lemma date_shape_not_converted (t : string) :
  is_date_shape t = true -> convert_date_format t = None.
Proof.
  intros H. destruct (year_then_chars 3 t H) as (c & mid & d & E & Hc & Hd & Hdh).
  assert (St : strip t = t)
    by (rewrite E; apply strip_id; apply digit_not_space; assumption).
  unfold convert_date_format. rewrite St.
  replace (truthy t) with true by (rewrite E; reflexivity). cbn [negb].
  destruct (strptime_dmY t) as [dt|] eqn:P.
  - pose proof (strptime_dmY_slash t c _ dt E (digit_not_space c Hc) P) as S.
    rewrite (digits_hyphens_no_slash t Hdh) in S. discriminate S.
  - rewrite (digits_hyphens_no_abbr t Hdh). reflexivity.
Qed.

(** X1: the normalizer does not read its own answers: no text it gives is a
    text it accepts, so a field normalized twice is lost. *)
Theorem convert_date_format_rejects_its_answers (s out : string) :
  convert_date_format s = Some out -> convert_date_format out = None.
Proof.
  intros H. apply date_shape_not_converted.
  apply (normalizes_shape s), normalizes_sound, H.
Qed.

Lemma convert_date_format_rejects_its_answers_witness :
  convert_date_format "06/10/2025" = Some "2025-10-06"
  /\ convert_date_format "2025-10-06" = None.
Proof.
  split; [reflexivity|].
  apply (convert_date_format_rejects_its_answers "06/10/2025" "2025-10-06").
  reflexivity.
Defined.

(** X2: white space around the text changes nothing: the normalizer gives
    for a text what it gives for the text stripped, and [None] for a text
    of white space only. *)
Theorem convert_date_format_ignores_outer_space (s : string) :
  convert_date_format s = convert_date_format (strip s)
  /\ (strip s = "" -> convert_date_format s = None).
Proof.
  assert (E : strip s = "" -> convert_date_format s = None).
  { intros E. unfold convert_date_format. rewrite E.
    destruct (truthy s); reflexivity. }
  split; [|exact E].
  destruct (strip s) as [|c r] eqn:St.
  - rewrite (E eq_refl). reflexivity.
  - assert (T : truthy s = true) by (apply truthy_strip; rewrite St; reflexivity).
    unfold convert_date_format at 1 2. rewrite T.
    replace (truthy (String c r)) with true by reflexivity.
    rewrite <- St, strip_idem. reflexivity.
Qed.

Lemma convert_date_format_ignores_outer_space_witness :
  convert_date_format "  23-dic-2024 " = convert_date_format "23-dic-2024".
Proof.
  exact (proj1 (convert_date_format_ignores_outer_space "  23-dic-2024 ")).
Defined.

(** *** The two date formats of the client *)

Lemma alts_m_pad2 (m : Z) (r : string) :
  1 <= m <= 12 ->
  exists others, alts_m (pad2 m ++ r) = (pad2 m, r) :: others.
Proof.
  intros H. assert (E : m = Z.of_nat (Z.to_nat m)) by lia.
  assert (B : (Z.to_nat m <= 12)%nat) by lia.
  revert E B. generalize (Z.to_nat m) as n. intros n E B. subst m.
  do 13 (destruct n as [|n]; [try lia; eexists; vm_compute; reflexivity|]).
  lia.
Qed.

Lemma alts_d_pad2 (d : Z) (r : string) :
  1 <= d <= 31 ->
  exists others, alts_d (pad2 d ++ r) = (pad2 d, r) :: others.
Proof.
  intros H. assert (E : d = Z.of_nat (Z.to_nat d)) by lia.
  assert (B : (Z.to_nat d <= 31)%nat) by lia.
  revert E B. generalize (Z.to_nat d) as n. intros n E B. subst d.
  do 32 (destruct n as [|n]; [try lia; eexists; vm_compute; reflexivity|]).
  lia.
Qed.

Lemma regex_Ymd_iso_text (y m d : Z) :
  0 <= y <= 9999 -> 1 <= m <= 12 -> 1 <= d <= 31 ->
  regex_Ymd (iso_text y m d) = Some (pad2 d, pad2 m, pad4 y, "").
Proof.
  intros Hy Hm Hd. unfold regex_Ymd, iso_text.
  rewrite (match_Y_pad4 y _ Hy). cbn [String.append lit].
  rewrite Ascii.eqb_refl.
  destruct (alts_m_pad2 m (String "-" (pad2 d)) Hm) as (om & Em).
  rewrite Em. cbn [first_success lit]. rewrite Ascii.eqb_refl.
  destruct (alts_d_pad2 d "" Hd) as (od & Ed).
  rewrite append_empty_r in Ed. rewrite Ed. cbn [first_success]. reflexivity.
Qed.

(** [strptime] with ["%Y-%m-%d"] reads back what [strftime] writes for
    a date of the year 1000 or later. *)
Lemma strptime_Ymd_strftime (dt : date) :
  valid_date (year dt) (month dt) (day dt) = true ->
  1000 <= year dt ->
  strptime_Ymd (strftime_Ymd dt) = Some dt.
Proof.
  intros V Y. destruct (valid_date_bounds _ _ _ V) as (Hy & Hm & Hd).
  unfold strptime_Ymd.
  change (strftime_Ymd dt) with (date_text (year dt) (month dt) (day dt)).
  rewrite date_text_iso by exact Y.
  rewrite regex_Ymd_iso_text by lia. cbn [finish].
  rewrite int_pad4, !int_pad2 by lia. rewrite V. destruct dt; reflexivity.
Qed.

(** X3: a date of the year 1000 or later that the normalizer reads in
    the form D/M/YYYY is written as a text that the parser of
    [search_boletines] reads back as the same date: the search for it
    posts the form of that day, month and year.  (Below the year 1000
    [strftime] writes the year with fewer than four digits, and
    [strptime] asks for four.) *)
Theorem slash_dates_round_trip (site : Site) (s : string) (dt : date) :
  s <> "" ->
  strptime_dmY (strip s) = Some dt ->
  1000 <= year dt ->
  convert_date_format s = Some (strftime_Ymd dt)
  /\ strptime_Ymd (strftime_Ymd dt) = Some dt
  /\ snd (search_boletines site (strftime_Ymd dt))
     = [EvPost (mkForm "false" (day dt) (month dt) (year dt))].
Proof.
  intros Hs H Y.
  assert (R : strptime_Ymd (strftime_Ymd dt) = Some dt)
    by (apply strptime_Ymd_strftime;
        [apply (strptime_dmY_valid (strip s)), H | exact Y]).
  split; [|split; [exact R|]].
  - unfold convert_date_format. destruct s; [congruence|].
    cbn [truthy negb]. rewrite H. reflexivity.
  - unfold search_boletines. rewrite R. reflexivity.
Qed.

Lemma slash_dates_round_trip_witness :
  convert_date_format " 6/1/2025 " = Some "2025-01-06"
  /\ strptime_Ymd "2025-01-06" = Some (mkdate 2025 1 6)
  /\ snd (search_boletines three_normas "2025-01-06")
     = [EvPost (mkForm "false" 6 1 2025)].
Proof.
  apply (slash_dates_round_trip three_normas " 6/1/2025 " (mkdate 2025 1 6)).
  - discriminate.
  - reflexivity.
  - cbn [year]. lia.
Defined.

(** The answers of the abbreviated form are not all dates: the parser of
    the search refuses this one. *)
Example abbreviated_answer_not_a_date :
  convert_date_format "31-FEB-2024" = Some "2024-02-31"
  /\ strptime_Ymd "2024-02-31" = None.
Proof. split; reflexivity. Qed.

(** Below the year 1000 the round trip fails: the answer for the first
    day of the year 999 is a text that the parser of the search
    refuses. *)
Example early_year_answer_not_read :
  convert_date_format "01/01/0999" = Some "999-01-01"
  /\ strptime_Ymd "999-01-01" = None.
Proof. split; reflexivity. Qed.

(** ** The search client *)

Lemma existsb_eqb_In (x : Z) (l : list Z) :
  existsb (Z.eqb x) l = true <-> In x l.
Proof.
  rewrite existsb_exists. split.
  - intros (y & Hin & E). apply Z.eqb_eq in E. subst y. exact Hin.
  - intros H. exists x. split; [exact H | apply Z.eqb_refl].
Qed.

Lemma collect_ids_NoDup (hrefs : list string) :
  forall norma_ids, NoDup norma_ids -> NoDup (collect_ids hrefs norma_ids).
Proof.
  induction hrefs as [|href rest IH]; intros acc H; [exact H|].
  cbn [collect_ids]. destruct (search_verNorma href); [|exact (IH acc H)].
  destruct (search_id href) as [g|]; [|exact (IH acc H)].
  destruct (existsb (Z.eqb (int_digits 0 g)) acc) eqn:E; [exact (IH acc H)|].
  apply IH. apply NoDup_app; [exact H | repeat constructor; intros [] |].
  intros x Hx [Hy | []]. subst x.
  apply existsb_eqb_In in Hx. congruence.
Qed.

Lemma collect_ids_In (hrefs : list string) :
  forall norma_ids x,
    In x (collect_ids hrefs norma_ids)
    <-> In x norma_ids \/ exists href, In href hrefs /\ id_of_link href x.
Proof.
  induction hrefs as [|href rest IH]; intros acc x.
  - cbn [collect_ids]. split; [intros H; left; exact H|].
    intros [H | (href & [] & _)]. exact H.
  - assert (Skip : (forall y, ~ id_of_link href y) ->
              In x (collect_ids rest acc)
              <-> In x acc \/ exists h, In h (href :: rest) /\ id_of_link h x).
    { intros No. rewrite IH. split.
      - intros [H | (h & Hin & Hl)]; [left; exact H|].
        right. exists h. split; [right; exact Hin | exact Hl].
      - intros [H | (h & [E | Hin] & Hl)]; [left; exact H | |].
        + subst h. exfalso. exact (No x Hl).
        + right. exists h. split; assumption. }
    cbn [collect_ids]. destruct (search_verNorma href) eqn:V.
    2:{ apply Skip. intros y (V' & _). congruence. }
    destruct (search_id href) as [g|] eqn:G.
    2:{ apply Skip. intros y (_ & g & G' & _). congruence. }
    destruct (existsb (Z.eqb (int_digits 0 g)) acc) eqn:E.
    + apply existsb_eqb_In in E. rewrite IH. split.
      * intros [H | (h & Hin & Hl)]; [left; exact H|].
        right. exists h. split; [right; exact Hin | exact Hl].
      * intros [H | (h & [Eh | Hin] & Hl)]; [left; exact H | |].
        -- subst h. destruct Hl as (_ & g' & G' & Ex).
           left. rewrite G in G'. injection G' as G'. subst g'.
           rewrite <- Ex. exact E.
        -- right. exists h. split; assumption.
    + rewrite IH. rewrite in_app_iff. cbn [In]. split.
      * intros [[H | [H | []]] | (h & Hin & Hl)].
        -- left. exact H.
        -- right. exists href. split; [left; reflexivity|].
           split; [exact V|]. exists g. split; [exact G | exact H].
        -- right. exists h. split; [right; exact Hin | exact Hl].
      * intros [H | (h & [Eh | Hin] & Hl)].
        -- left. left. exact H.
        -- subst h. destruct Hl as (_ & g' & G' & Ex).
           rewrite G in G'. injection G' as G'. subst g'.
           left. right. left. exact Ex.
        -- right. exists h. split; assumption.
Qed.

Lemma search_boletines_ok (site : Site) (s : string) (ids : list Z) :
  fst (search_boletines site s) = Ok ids ->
  ids = []
  \/ exists dt response,
       strptime_Ymd s = Some dt
       /\ post site (mkForm "false" (day dt) (month dt) (year dt)) = Ok response
       /\ is_success (status_code response) = true
       /\ existsb int_refuses (anchors response) = false
       /\ ids = collect_ids (anchors response) [].
Proof.
  unfold search_boletines. destruct (strptime_Ymd s) as [dt|]; [|discriminate].
  cbn [fst]. unfold search_try.
  destruct (post site _) as [response|e] eqn:P; cbn [bind].
  - unfold raise_for_status.
    destruct (is_success (status_code response)) eqn:S; cbn [bind].
    + destruct (existsb int_refuses (anchors response)) eqn:R.
      { cbn [search_except isinstance_Exception]. intros H. injection H as H.
        left. auto. }
      destruct (Z.of_nat (List.length (collect_ids (anchors response) [])) =? 0).
      * destruct (no_results_marker (text response)); cbn [search_except].
        -- intros H. injection H as H. right. exists dt, response. auto.
        -- intros H. injection H as H. left. auto.
      * cbn [search_except]. intros H. injection H as H.
        right. exists dt, response. auto.
    + cbn [search_except]. intros H. injection H as H. left. auto.
  - destruct e; cbn [search_except isinstance_Exception]; intros H;
      try discriminate; injection H as H; left; auto.
Qed.

(** X4: the identifiers that [search_boletines] returns are pairwise
    distinct, whatever the page holds: a norma linked twice, or under two
    spellings of its number, is fetched once. *)
Theorem search_boletines_ids_distinct (site : Site) (boletin_fecha : string)
  (norma_ids : list Z) :
  fst (search_boletines site boletin_fecha) = Ok norma_ids -> NoDup norma_ids.
Proof.
  intros H. apply search_boletines_ok in H.
  destruct H as [-> | (dt & response & _ & _ & _ & _ & ->)]; [constructor|].
  apply collect_ids_NoDup. constructor.
Qed.

Lemma search_boletines_ids_distinct_witness :
  fst (search_boletines three_normas "2025-10-06") = Ok [111; 222; 333]
  /\ NoDup [111; 222; 333].
Proof.
  split; [reflexivity|].
  apply (search_boletines_ids_distinct three_normas "2025-10-06").
  reflexivity.
Defined.

(** X5: every identifier returned is the number after the first [?id=]
    of a link of the answered page whose address matches
    [verNorma\.do.*\?id=\d+].  When the page is answered with a success
    status and [int] accepts the number of every such link, the number
    of every such link is returned; when one of them has more than 4300
    digits, [int] raises, the last [except] clause answers, and nothing
    is returned. *)
Theorem search_boletines_ids_are_links (site : Site) (boletin_fecha : string)
  (norma_ids : list Z) :
  fst (search_boletines site boletin_fecha) = Ok norma_ids ->
  (forall x, In x norma_ids ->
     exists dt response href,
       strptime_Ymd boletin_fecha = Some dt
       /\ post site (mkForm "false" (day dt) (month dt) (year dt)) = Ok response
       /\ In href (anchors response) /\ id_of_link href x)
  /\ (forall dt response,
        strptime_Ymd boletin_fecha = Some dt ->
        post site (mkForm "false" (day dt) (month dt) (year dt)) = Ok response ->
        is_success (status_code response) = true ->
        (existsb int_refuses (anchors response) = false ->
         forall href x,
           In href (anchors response) -> id_of_link href x -> In x norma_ids)
        /\ (existsb int_refuses (anchors response) = true -> norma_ids = [])).
Proof.
  intros H. split.
  - intros x Hx. apply search_boletines_ok in H.
    destruct H as [-> | (dt & response & D & P & _ & _ & ->)]; [destruct Hx|].
    apply collect_ids_In in Hx. destruct Hx as [[] | (href & Hin & Hl)].
    exists dt, response, href. auto.
  - intros dt response D P S.
    revert H. unfold search_boletines. rewrite D. cbn [fst].
    unfold search_try. rewrite P. cbn [bind]. unfold raise_for_status.
    rewrite S. cbn [bind].
    destruct (existsb int_refuses (anchors response)).
    + cbn [search_except isinstance_Exception]. intros H. injection H as H.
      split; [discriminate | intros _; symmetry; exact H].
    + intros H. split; [|discriminate]. intros _ href x Hin Hl.
      assert (I : In x (collect_ids (anchors response) [])).
      { apply collect_ids_In. right. exists href. split; assumption. }
      revert H.
      destruct (collect_ids (anchors response) []) as [|y l] eqn:C; [destruct I|].
      cbn [List.length]. rewrite Nat2Z.inj_succ.
      replace (Z.succ (Z.of_nat (List.length l)) =? 0) with false
        by (symmetry; apply Z.eqb_neq; lia).
      cbn [search_except]. intros H. injection H as H. subst norma_ids. exact I.
Qed.

Lemma search_boletines_ids_are_links_witness :
  (forall x, In x [111; 222; 333] ->
     exists dt response href,
       strptime_Ymd "2025-10-06" = Some dt
       /\ post three_normas (mkForm "false" (day dt) (month dt) (year dt))
          = Ok response
       /\ In href (anchors response) /\ id_of_link href x)
  /\ (forall href x,
        In href (anchors results_page) -> id_of_link href x ->
        In x [111; 222; 333])
  /\ fst (search_boletines
            (mkSite (fun _ => Ok long_number_page) (fun _ => not_found))
            "2025-10-06")
     = Ok [].
Proof.
  pose proof (search_boletines_ids_are_links three_normas "2025-10-06"
                [111; 222; 333] eq_refl) as (H1 & H2).
  split; [exact H1|]. split.
  - exact (proj1 (H2 (mkdate 2025 10 6) results_page eq_refl eq_refl eq_refl)
             eq_refl).
  - vm_compute. reflexivity.
Defined.

(** X6: once the date is read, a request that raises an [Exception] and
    an answer whose status is no success both give the empty list, after
    the one request: the caller cannot tell them from a day without
    normas. *)
Theorem search_boletines_failures_give_no_ids (site : Site)
  (boletin_fecha : string) (dt : date) :
  strptime_Ymd boletin_fecha = Some dt ->
  (exists e,
      post site (mkForm "false" (day dt) (month dt) (year dt)) = Raise e
      /\ isinstance_Exception e = true)
  \/ (exists response,
        post site (mkForm "false" (day dt) (month dt) (year dt)) = Ok response
        /\ is_success (status_code response) = false) ->
  search_boletines site boletin_fecha
  = (Ok [], [EvPost (mkForm "false" (day dt) (month dt) (year dt))]).
Proof.
  intros D H. unfold search_boletines. rewrite D. f_equal.
  unfold search_try. destruct H as [(e & P & I) | (response & P & S)];
    rewrite P; cbn [bind].
  - apply search_except_of_Exception. exact I.
  - unfold raise_for_status. rewrite S. reflexivity.
Qed.

Lemma search_boletines_failures_give_no_ids_witness :
  search_boletines
    (mkSite (fun _ => Ok (mkSearchResponse 503 "Service Unavailable" []))
       (fun _ => not_found))
    "2025-10-06"
  = (Ok [], [EvPost (mkForm "false" 6 10 2025)]).
Proof.
  apply (search_boletines_failures_give_no_ids _ "2025-10-06"
           (mkdate 2025 10 6)).
  - reflexivity.
  - right. eexists. split; reflexivity.
Defined.

(** ** The extractor *)

(** X7: [scrape_norma_by_id] gives a record exactly when the page is
    answered with a success status and parsed; the record is the one
    extracted from that page and carries the identifier asked for.  A
    404, like every other failure, gives no record. *)
Theorem norma_record_only_from_success (site : Site) (norma_id : Z)
  (row : NormaRecord) :
  scrape_norma_by_id site norma_id = Ok (Some row)
  <-> exists response soup,
        http_get site norma_id = Ok response
        /\ is_success (norma_status response) = true
        /\ norma_soup response = Ok soup
        /\ row = extract norma_id soup
        /\ id_norma row = norma_id.
Proof.
  unfold scrape_norma_by_id, norma_try. split.
  - destruct (http_get site norma_id) as [response|e]; cbn [bind].
    + destruct (norma_status response =? 404) eqn:N4;
        [cbn [norma_except]; discriminate|].
      unfold raise_for_status.
      destruct (is_success (norma_status response)) eqn:S; cbn [bind].
      * destruct (norma_soup response) as [soup|e] eqn:So; cbn [bind norma_except].
        -- intros H. injection H as H. exists response, soup.
           subst row. repeat split; auto.
        -- destruct e; cbn [isinstance_Exception]; discriminate.
      * cbn [norma_except]. discriminate.
    + destruct e; cbn [norma_except isinstance_Exception]; discriminate.
  - intros (response & soup & G & S & So & -> & _). rewrite G. cbn [bind].
    replace (norma_status response =? 404) with false.
    + unfold raise_for_status. rewrite S. cbn [bind]. rewrite So. reflexivity.
    + symmetry. apply Z.eqb_neq. intros E. rewrite E in S. discriminate S.
Qed.

Lemma norma_record_only_from_success_witness :
  scrape_norma_by_id three_normas 111 = Ok (Some (extract 111 empty_soup)).
Proof.
  apply (proj2 (norma_record_only_from_success three_normas 111
                  (extract 111 empty_soup))).
  exists (mkNormaResponse 200 (Ok empty_soup)), empty_soup.
  repeat split; reflexivity.
Defined.

(** ** The fetcher *)

Lemma gathered_app (a b : list Event) :
  gathered (a ++ b) = gathered a ++ gathered b.
Proof. unfold gathered. apply flat_map_app. Qed.

Lemma gathered_rows (rows : list NormaRecord) :
  gathered (map EvWriteRow rows) = [].
Proof. induction rows as [|r rows IH]; [reflexivity | exact IH]. Qed.

Lemma gathered_run_group (site : Site) (group : list Z) (st : LoopState) :
  gathered (trace (run_group site group st)) = gathered (trace st) ++ group.
Proof.
  cbn [run_group trace]. rewrite gathered_app.
  change (gathered (EvGather group :: ?l)) with (group ++ gathered l).
  rewrite gathered_rows, app_nil_r. reflexivity.
Qed.

Lemma batch_loop_gathered (site : Site) (W : Z) (D : Q) (n : Z) (ids : list Z) :
  forall (i : Z) (st : LoopState),
    gathered (trace (batch_loop site W D n i ids st))
    ++ tasks (batch_loop site W D n i ids st)
    = gathered (trace st) ++ tasks st ++ ids.
Proof.
  induction ids as [|x rest IH]; intros i st.
  - cbn [batch_loop]. rewrite app_nil_r. reflexivity.
  - cbn [batch_loop]. rewrite IH.
    destruct (Z.of_nat (List.length (tasks st ++ [x])) >=? W).
    + assert (E : forall evs, gathered evs = [] ->
                gathered (trace (emit evs (emit [EvFlush]
                                   (run_group site (tasks st ++ [x]) st))))
                = gathered (trace st) ++ tasks st ++ [x]).
      { intros evs Hevs. rewrite !trace_emit, !gathered_app, gathered_run_group.
        rewrite Hevs. cbn [gathered flat_map app]. rewrite !app_nil_r.
        reflexivity. }
      destruct (i <? n - 1).
      * rewrite (E [EvSleep D] eq_refl). cbn [emit tasks run_group app].
        rewrite <- !app_assoc. reflexivity.
      * pose proof (E [] eq_refl) as E0.
        rewrite trace_emit, app_nil_r in E0. rewrite E0.
        cbn [emit tasks run_group app]. rewrite <- !app_assoc. reflexivity.
    + cbn [trace tasks]. rewrite <- !app_assoc. reflexivity.
Qed.

Lemma remaining_gathered (site : Site) (st : LoopState) :
  gathered (trace (remaining site st)) = gathered (trace st) ++ tasks st.
Proof.
  unfold remaining. destruct (tasks st) as [|x l] eqn:T.
  - rewrite app_nil_r. reflexivity.
  - rewrite gathered_run_group. reflexivity.
Qed.

Lemma remaining_tasks_done (site : Site) (st : LoopState) :
  tasks (remaining site st) = [].
Proof.
  unfold remaining. destruct (tasks st) as [|x l] eqn:T; [exact T | reflexivity].
Qed.

Lemma gathered_search (site : Site) (date : string) :
  gathered (snd (search_boletines site date)) = [].
Proof.
  unfold search_boletines. destruct (strptime_Ymd date); reflexivity.
Qed.

Lemma dict_results_length (results : list (result (option NormaRecord))) :
  (List.length (dict_results results) <= List.length results)%nat.
Proof.
  induction results as [|[[row|]|e] rest IH]; cbn [dict_results List.length]; lia.
Qed.

Lemma slice_to_length {A : Type} (l : list A) (n : Z) :
  0 <= n ->
  slice_to l n = firstn (Z.to_nat n) l
  /\ Z.of_nat (List.length (slice_to l n)) <= n.
Proof.
  intros H. unfold slice_to.
  replace (0 <=? n) with true by (symmetry; apply Z.leb_le; exact H).
  split; [reflexivity|]. rewrite length_firstn. lia.
Qed.

(** X8: whatever the width and the delay, every identifier kept (the
    first [daily_scrape_count] of the search when that count is not
    negative) is handed to [asyncio.gather] once, in the order of the
    search, and no other identifier is; the count returned is at most
    their number. *)
Theorem every_kept_identifier_fetched_once (self : InfolegClient) (site : Site)
  (date : string) (bs : option Z) (dl : option Q) (norma_ids : list Z) :
  fst (search_boletines site date) = Ok norma_ids ->
  let all_norma_ids := slice_to norma_ids (daily_scrape_count self) in
  gathered (snd (scrape_by_date self site date bs dl)) = all_norma_ids
  /\ NoDup norma_ids
  /\ (0 <= daily_scrape_count self ->
      all_norma_ids = firstn (Z.to_nat (daily_scrape_count self)) norma_ids
      /\ NoDup all_norma_ids)
  /\ exists n,
       fst (scrape_by_date self site date bs dl) = Ok n
       /\ 0 <= n <= Z.of_nat (List.length all_norma_ids)
       /\ (0 <= daily_scrape_count self -> n <= daily_scrape_count self).
Proof.
  intros H all_norma_ids.
  assert (ND : NoDup norma_ids)
    by (apply (search_boletines_ok site date) in H;
        destruct H as [-> | (dt & response & _ & _ & _ & _ & ->)];
        [constructor | apply collect_ids_NoDup; constructor]).
  split; [|split; [exact ND|split]].
  - unfold scrape_by_date.
    destruct (search_boletines site date) as [found searched] eqn:S.
    cbn [fst] in H. subst found. cbn [snd].
    rewrite gathered_app, remaining_gathered.
    rewrite batch_loop_gathered. cbn [trace tasks app].
    change (gathered (EvWriteHeader :: searched)) with (gathered searched).
    pose proof (gathered_search site date) as G. rewrite S in G. cbn [snd] in G.
    rewrite G. cbn [gathered flat_map app]. rewrite app_nil_r. reflexivity.
  - intros Hc. destruct (slice_to_length norma_ids _ Hc) as [E _].
    split; [exact E|]. unfold all_norma_ids. rewrite E.
    rewrite <- (firstn_skipn (Z.to_nat (daily_scrape_count self)) norma_ids) in ND.
    apply NoDup_app_remove_r in ND. exact ND.
  - destruct (scrape_by_date_cases self site date bs dl)
      as [(e & E & _) | (ids & E & Hn & _)]; [congruence|].
    rewrite H in E. injection E as E. subst ids.
    eexists. split; [exact Hn|].
    fold all_norma_ids.
    assert (L : (List.length (records_of site all_norma_ids)
                 <= List.length all_norma_ids)%nat).
    { unfold records_of, gather.
      etransitivity; [apply dict_results_length|]. rewrite length_map. lia. }
    split; [lia|]. intros Hc.
    destruct (slice_to_length norma_ids _ Hc) as [_ B].
    fold all_norma_ids in B. lia.
Qed.

Lemma every_kept_identifier_fetched_once_witness :
  gathered (snd (scrape_by_date (mkClient 2 10 (3 # 1)) three_normas
                   "2025-10-06" (Some 0) None))
  = [111; 222].
Proof.
  exact (proj1 (every_kept_identifier_fetched_once (mkClient 2 10 (3 # 1))
                  three_normas "2025-10-06" (Some 0) None [111; 222; 333]
                  eq_refl)).
Defined.




Lemma scrape_by_date_malformed (self : InfolegClient) (site : Site)
  (date : string) (bs : option Z) (dl : option Q) :
  strptime_Ymd date = None ->
  scrape_by_date self site date bs dl
  = (Raise ValueError, [EvWriteHeader; EvClose]).
Proof.
  intros H. unfold scrape_by_date, search_boletines. rewrite H. reflexivity.
Qed.

(** X11: when no identifier is kept (the search gave none, the page
    that says so in words included, or [daily_scrape_count] is zero), no
    page of a norma is fetched, the file holds the header only, and the
    asset raises [LookupError] without an upload. *)
Theorem no_identifier_fails_the_partition (self : InfolegClient) (site : Site)
  (gcs : Storage) (date : string) (norma_ids : list Z) :
  fst (search_boletines site date) = Ok norma_ids ->
  slice_to norma_ids (daily_scrape_count self) = [] ->
  scrape_by_date self site date None None
  = (Ok 0, EvWriteHeader :: snd (search_boletines site date) ++ [EvClose])
  /\ scrape_boletin_and_archive self site gcs date
     = (Raise LookupError,
        EvWriteHeader :: snd (search_boletines site date) ++ [EvClose]).
Proof.
  intros H E.
  assert (S : scrape_by_date self site date None None
              = (Ok 0, EvWriteHeader :: snd (search_boletines site date)
                       ++ [EvClose])).
  { unfold scrape_by_date.
    destruct (search_boletines site date) as [found searched].
    cbn [fst] in H. subst found. rewrite E. reflexivity. }
  split; [exact S|]. unfold scrape_boletin_and_archive. rewrite S. reflexivity.
Qed.

Lemma no_identifier_fails_the_partition_witness :
  scrape_boletin_and_archive default_client
    (mkSite (fun _ => Ok (mkSearchResponse 200
                            "<p>No se encontraron resultados</p>" []))
       (fun _ => not_found))
    uploads "2025-10-06"
  = (Raise LookupError,
     [EvWriteHeader; EvPost (mkForm "false" 6 10 2025); EvClose]).
Proof.
  exact (proj2 (no_identifier_fails_the_partition default_client
                  (mkSite (fun _ => Ok (mkSearchResponse 200
                                          "<p>No se encontraron resultados</p>" []))
                     (fun _ => not_found))
                  uploads "2025-10-06" [] eq_refl eq_refl)).
Defined.
(** ** The append to the master file *)

(** X12: [master_daily_merge] only ever appends.  When it returns, the
    batch file is as it was and the master file is the old one (the local
    file, or the blob downloaded when the directory holds no master)
    followed by a line feed and the lines of the batch after the first;
    the count is the number of lines of the batch less one.  It raises
    when the batch is missing; when there is no master file and no
    directory [./data], whose listing the warning asks for before the
    download; and when there is no master file and the download raises.
    A raise leaves the batch as it was, and the master's path with what
    the failed download left there. *)
Theorem master_daily_merge_appends_only (download : Download) (disk : Disk) :
  output_file (snd (master_daily_merge download disk)) = output_file disk
  /\ (forall e,
        fst (master_daily_merge download disk) = Raise e ->
        (e = FileNotFoundError /\ output_file disk = None
         /\ snd (master_daily_merge download disk) = disk)
        \/ (e = FileNotFoundError /\ output_file disk <> None
            /\ data_dir disk = None
            /\ snd (master_daily_merge download disk) = disk)
        \/ (exists partial,
              output_file disk <> None /\ data_dir disk = Some None
              /\ download = DownloadRaises e partial
              /\ data_dir (snd (master_daily_merge download disk))
                 = Some partial))
  /\ (forall n,
        fst (master_daily_merge download disk) = Ok n ->
        exists content old,
          output_file disk = Some content
          /\ (master_file disk = Some old
              \/ (data_dir disk = Some None /\ download = Downloaded old))
          /\ master_file (snd (master_daily_merge download disk))
             = Some (old ++ String LF
                       (join (tl (readlines (universal_newlines content)))))%string
          /\ n = Z.of_nat (List.length (readlines (universal_newlines content))) - 1
          /\ -1 <= n).
Proof.
  unfold master_daily_merge, master_file, new_data.
  destruct (output_file disk) as [content|] eqn:O.
  - destruct (data_dir disk) as [[old|]|] eqn:M;
      [| destruct download as [old|e0 partial] |];
      cbn [fst snd output_file data_dir].
    + split; [reflexivity|]. split; [intros e H; discriminate|].
      intros n H. injection H as H. exists content, old.
      repeat split; auto. lia.
    + split; [reflexivity|]. split; [intros e H; discriminate|].
      intros n H. injection H as H. exists content, old.
      repeat split; auto. lia.
    + split; [reflexivity|]. split; [|intros n H; discriminate].
      intros e H. injection H as H. subst e0. right. right. exists partial.
      repeat split; auto. discriminate.
    + split; [exact O|]. split; [|intros n H; discriminate].
      intros e H. injection H as H. right. left.
      repeat split; auto. discriminate.
  - cbn [fst snd]. split; [exact O|]. split; [|intros n H; discriminate].
    intros e H. injection H as H. left. repeat split; auto.
Qed.

Lemma master_daily_merge_appends_only_witness :
  master_file (snd (master_daily_merge (Downloaded "") disk_of_day))
  = Some (master_text ++ nl ++ "9,Resolucion 3" ++ nl ++ "8,Ley 2 bis" ++ nl)%string
  /\ master_daily_merge (Downloaded master_text) (mkDisk (Some batch_text) None)
     = (Raise FileNotFoundError, mkDisk (Some batch_text) None).
Proof.
  destruct (master_daily_merge_appends_only (Downloaded "") disk_of_day)
    as (_ & _ & H).
  destruct (H 2 eq_refl) as (content & old & O & M & E & _).
  split; [|reflexivity]. rewrite E.
  injection O as O. subst content.
  destruct M as [M | [M _]]; [|discriminate M].
  injection M as M. subst old. reflexivity.
Defined.

Lemma join_readlines (u : string) : join (readlines u) = u.
Proof.
  induction u as [|c r IH]; [reflexivity|]. cbn [readlines].
  destruct (Ascii.eqb c LF) eqn:E.
  - apply Ascii.eqb_eq in E. subst c.
    cbn [join fold_right String.append]. f_equal. exact IH.
  - destruct (readlines r) as [|l ls];
      cbn [join fold_right String.append] in *; rewrite <- IH; reflexivity.
Qed.

(** The lines that the append takes from the batch are the lines that a
    scan of the batch reads after the header. *)
Lemma appended_lines (u : string) :
  drop_last_empty (split_lines (join (tl (readlines u)))) = data_lines u.
Proof.
  unfold data_lines. induction u as [|c r IH]; [reflexivity|].
  cbn [readlines split_lines]. destruct (Ascii.eqb c LF).
  - cbn [tl]. rewrite join_readlines. reflexivity.
  - destruct (split_lines_cons r) as (l & ls & E). rewrite E. cbn [tl].
    rewrite E in IH. cbn [tl] in IH. rewrite <- IH.
    destruct (readlines r) as [|l' ls']; reflexivity.
Qed.

Lemma split_lines_single (u : string) :
  split_lines u = [EmptyString] -> u = EmptyString.
Proof.
  destruct u as [|c r]; [reflexivity|]. cbn [split_lines].
  destruct (Ascii.eqb c LF).
  - destruct (split_lines_cons r) as (l & ls & E). rewrite E. discriminate.
  - destruct (split_lines r); discriminate.
Qed.

(** A text whose last line is empty, and not its only line, ends in a
    line feed. *)
Lemma split_lines_last_empty (u : string) (pre : list string) :
  split_lines u = pre ++ [EmptyString] -> pre <> [] ->
  exists t, u = (t ++ nl)%string.
Proof.
  revert pre. induction u as [|c r IH]; intros pre E N.
  - cbn [split_lines] in E. destruct pre as [|p pre]; [contradiction|].
    destruct pre; discriminate E.
  - cbn [split_lines] in E. destruct pre as [|p pre]; [contradiction|].
    cbn [app] in E. destruct (Ascii.eqb c LF) eqn:Ec.
    + apply Ascii.eqb_eq in Ec. subst c. injection E as _ E.
      destruct pre as [|p' pre].
      * cbn [app] in E. apply split_lines_single in E. subst r.
        exists EmptyString. reflexivity.
      * destruct (IH (p' :: pre) E ltac:(discriminate)) as (t & ->).
        exists (String LF t). reflexivity.
    + destruct (split_lines r) as [|l ls] eqn:Er; [|].
      * destruct (split_lines_cons r) as (a & b & Er'). congruence.
      * injection E as _ E. subst ls.
        destruct (IH (l :: pre) eq_refl ltac:(discriminate)) as (t & ->).
        exists (String c t). reflexivity.
Qed.

(** The lines after the first end with an empty line exactly when the
    text ends in a line feed. *)
Lemma tl_split_lines_gap (u : string) (g : list string) :
  tl (split_lines u) = drop_last_empty (tl (split_lines u)) ++ g ->
  g = [] \/ g = [EmptyString] ->
  (g = [EmptyString] <-> exists t, u = (t ++ nl)%string).
Proof.
  intros E Hg. split.
  - intros ->. destruct (split_lines_cons u) as (l & ls & El).
    rewrite El in E. cbn [tl] in E.
    apply (split_lines_last_empty u (l :: drop_last_empty ls));
      [|discriminate].
    rewrite El. cbn [app]. f_equal. exact E.
  - intros (t & ->). revert E. unfold nl. rewrite tl_split_lines_app.
    cbn [split_lines].
    rewrite drop_last_empty_app by discriminate. cbn [drop_last_empty truthy].
    rewrite app_nil_r. intros E. apply app_inv_head in E. symmetry. exact E.
Qed.

Section AppendThenDedupe.

Variable Row : Type.
Variable row_id : Row -> option Z.
Variable parse_line : string -> option Row.
Variable null_row : Row.
Variable order : list Row -> list Row.
Hypothesis order_perm : forall rows, Permutation (order rows) rows.

(** X13: the deduplicated frame of the master file after the append
    holds, in some order, the deduplicated rows of the batch and the
    rows of the deduplicated old master whose [id_norma] is not in the
    batch: a row of the batch replaces the rows of the master with its
    [id_norma], and every other row of the master stays.  When the old
    master ends in a line feed, the line feed that the append writes
    first leaves an empty line, which is one more row of the batch, the
    row of nulls. *)
Theorem append_then_dedupe (download : Download) (disk : Disk)
  (content old : string) (master_rows batch_rows : list Row) :
  output_file disk = Some content ->
  master_file disk = Some old
  \/ (data_dir disk = Some None /\ download = Downloaded old) ->
  scan_csv Row parse_line null_row old = Ok master_rows ->
  scan_csv Row parse_line null_row (universal_newlines content)
  = Ok batch_rows ->
  exists gap df,
    master_frame Row row_id parse_line null_row order
      (snd (master_daily_merge download disk))
    = Ok df
    /\ (gap = [] \/ gap = [null_row])
    /\ (gap = [null_row] <-> exists t, old = (t ++ nl)%string)
    /\ Permutation df
         (filter
            (fun r =>
               negb (existsb (fun r' => key_eqb (row_id r') (row_id r))
                       (gap ++ batch_rows)))
            (unique_keep_last Row row_id master_rows)
          ++ unique_keep_last Row row_id (gap ++ batch_rows)).
Proof.
  intros O M SM SB.
  assert (E : snd (master_daily_merge download disk)
              = {| output_file := Some content;
                   data_dir := Some (Some (old ++ new_data content)%string) |}).
  { unfold master_daily_merge, master_file in *. rewrite O.
    destruct M as [M | [M B]].
    - destruct (data_dir disk) as [[m|]|]; try discriminate M.
      injection M as M. subst m. reflexivity.
    - rewrite M, B. reflexivity. }
  rewrite E. unfold master_frame, new_data. cbn [master_file data_dir].
  unfold scan_csv in *. rewrite data_lines_app, appended_lines.
  destruct (drop_last_empty_gap (tl (split_lines old))) as (g & Hg & Eg).
  destruct (parse_rows_gap Row parse_line null_row g Hg) as (G & PG & HG & GG).
  fold (data_lines old) in Eg. rewrite Eg.
  assert (P : parse_rows Row parse_line null_row
                ((data_lines old ++ g) ++ data_lines (universal_newlines content))
              = Ok (master_rows ++ G ++ batch_rows)).
  { rewrite <- app_assoc. apply parse_rows_app_ok. exists master_rows, (G ++ batch_rows).
    split; [exact SM|]. split; [|reflexivity].
    apply parse_rows_app_ok. exists G, batch_rows. auto. }
  rewrite P. cbn [bind]. exists G. eexists. split; [reflexivity|].
  split; [exact HG|]. split.
  - rewrite GG. apply tl_split_lines_gap; [exact Eg | exact Hg].
  - rewrite order_perm, unique_keep_last_app. reflexivity.
Qed.

End AppendThenDedupe.

Lemma append_then_dedupe_witness :
  exists gap df,
    master_frame (option Z * string) fst two_columns null_columns (@rev _)
      (snd (master_daily_merge (Downloaded "") disk_of_day))
    = Ok df
    /\ (gap = [] \/ gap = [null_columns])
    /\ (gap = [null_columns] <-> exists t, master_text = (t ++ nl)%string)
    /\ Permutation df
         (filter
            (fun r =>
               negb (existsb (fun r' => key_eqb (fst r') (fst r))
                       (gap ++ [(Some 9, "Resolucion 3"); (Some 8, "Ley 2 bis")])))
            (unique_keep_last (option Z * string) fst
               [(Some 7, "Decreto 1"); (Some 8, "Ley 2");
                (Some 7, "Decreto 1 (corregido)")])
          ++ unique_keep_last (option Z * string) fst
               (gap ++ [(Some 9, "Resolucion 3"); (Some 8, "Ley 2 bis")])).
Proof.
  exact (append_then_dedupe (option Z * string) fst two_columns null_columns
           (@rev _) (fun rows => Permutation_sym (Permutation_rev rows))
           (Downloaded "") disk_of_day batch_text master_text
           [(Some 7, "Decreto 1"); (Some 8, "Ley 2");
            (Some 7, "Decreto 1 (corregido)")]
           [(Some 9, "Resolucion 3"); (Some 8, "Ley 2 bis")]
           eq_refl (or_introl eq_refl) eq_refl eq_refl).
Defined.

(** The frame of the day after the append, in the order of the file: the
    row of nulls of the empty line is in it. *)
Example frame_of_day_appended :
  master_frame (option Z * string) fst two_columns null_columns file_order
    (snd (master_daily_merge (Downloaded "") disk_of_day))
  = Ok [(Some 7, "Decreto 1 (corregido)"); null_columns;
        (Some 9, "Resolucion 3"); (Some 8, "Ley 2 bis")].
Proof. vm_compute. reflexivity. Qed.

(** ** The extraction rules *)

Lemma strip_prefix_app (p t : string) : strip_prefix p (p ++ t) = Some t.
Proof.
  induction p as [|a p IH]; [destruct t; reflexivity|].
  cbn [String.append strip_prefix]. rewrite Ascii.eqb_refl. exact IH.
Qed.

Lemma replace_first_eq (old s : string) :
  replace_first old s
  = match strip_prefix old s with
    | Some r => r
    | None =>
        match s with
        | EmptyString => EmptyString
        | String c r => String c (replace_first old r)
        end
    end.
Proof. destruct s; reflexivity. Qed.

Lemma replace_first_prefix (old t : string) :
  replace_first old (old ++ t) = t.
Proof. rewrite replace_first_eq, strip_prefix_app. reflexivity. Qed.

Lemma tipo_letter_not_space (c : ascii) :
  is_tipo_letter c = true -> is_space c = false.
Proof.
  destruct c as [[] [] [] [] [] [] [] []]; vm_compute; congruence.
Qed.

Lemma digit_not_letter (c : ascii) : is_digit c = true -> is_letter c = false.
Proof.
  destruct c as [[] [] [] [] [] [] [] []]; vm_compute; congruence.
Qed.

Lemma rstrip_cons_stripped (c : ascii) (g : string) :
  g <> "" -> rstrip g = g -> rstrip (String c g) = String c g.
Proof.
  intros N E. cbn [rstrip]. rewrite E. destruct g; [congruence | reflexivity].
Qed.

(** What [tipo_rest] leaves: white space and a digit follow the group,
    and the group does not end in white space. *)
Lemma tipo_rest_inv (s : string) :
  forall after_space g,
    tipo_rest after_space s = Some g ->
    (exists t d r,
        s = (g ++ t)%string /\ lstrip t = String d r /\ is_digit d = true)
    /\ (g <> "" -> rstrip g = g)
    /\ all_chars (fun c => is_tipo_letter c || is_space c) g = true.
Proof.
  induction s as [|c s IH]; intros b g; [discriminate|].
  cbn [tipo_rest]. destruct (is_tipo_letter c) eqn:L.
  - destruct (tipo_rest false s) as [g1|] eqn:R; [|discriminate].
    intros H. injection H as H. subst g.
    destruct (IH false g1 R) as ((t & d & r & E & Ls & D) & St & Al).
    split; [|split].
    + exists t, d, r. split; [rewrite E; reflexivity | auto].
    + intros _. destruct g1 as [|c1 g1'].
      * cbn [rstrip]. rewrite (tipo_letter_not_space c L). reflexivity.
      * apply rstrip_cons_stripped; [discriminate | apply St; discriminate].
    + cbn [all_chars]. rewrite L, Al. reflexivity.
  - destruct (is_space c) eqn:Sp.
    + destruct (tipo_rest true s) as [g1|] eqn:R; [|discriminate].
      destruct (IH true g1 R) as ((t & d & r & E & Ls & D) & St & Al).
      destruct g1 as [|c1 g1'].
      * intros H. injection H as H. subst g. split; [|split].
        -- exists (String c s), d, r. cbn [String.append lstrip].
           rewrite Sp. cbn [String.append] in E. subst t. auto.
        -- congruence.
        -- reflexivity.
      * intros H. injection H as H. subst g. split; [|split].
        -- exists t, d, r. split; [rewrite E; reflexivity | auto].
        -- intros _. apply rstrip_cons_stripped;
             [discriminate | apply St; discriminate].
        -- cbn [all_chars] in Al |- *. rewrite Sp, orb_true_r. exact Al.
    + destruct (is_digit c) eqn:D; [|discriminate].
      destruct b; [|discriminate].
      intros H. injection H as H. subst g. split; [|split].
      * exists (String c s), c, s. cbn [String.append lstrip]. rewrite Sp. auto.
      * congruence.
      * reflexivity.
Qed.

Lemma tipo_match_inv (s g : string) :
  tipo_match s = Some g ->
  (exists t d r,
      s = (g ++ t)%string /\ lstrip t = String d r /\ is_digit d = true)
  /\ strip g = g /\ g <> ""
  /\ all_chars (fun c => is_tipo_letter c || is_space c) g = true.
Proof.
  destruct s as [|c s]; [discriminate|]. cbn [tipo_match].
  destruct (is_tipo_letter c) eqn:L; [|discriminate].
  destruct (tipo_rest false s) as [g1|] eqn:R; [|discriminate].
  intros H. injection H as H. subst g.
  destruct (tipo_rest_inv s false g1 R) as ((t & d & r & E & Ls & D) & St & Al).
  split; [|split; [|split]].
  - exists t, d, r. split; [rewrite E; reflexivity | auto].
  - unfold strip. rewrite (lstrip_nonspace c g1 (tipo_letter_not_space c L)).
    destruct g1 as [|c1 g1'].
    + cbn [rstrip]. rewrite (tipo_letter_not_space c L). reflexivity.
    + apply rstrip_cons_stripped; [discriminate | apply St; discriminate].
  - discriminate.
  - cbn [all_chars]. rewrite L, Al. reflexivity.
Qed.

Lemma clase_match_digit (d : ascii) (r : string) :
  is_digit d = true -> clase_match (String d r) = None.
Proof.
  intros D. cbn [clase_match].
  rewrite (digit_not_letter d D), (digit_not_space d D). reflexivity.
Qed.

(** After the type is taken away, what is left of the heading starts
    with the digit that ended the match of the type: the rule of the
    class finds no letter to start from. *)
Lemma strong_rules_clase (strong_text : string) :
  snd (strong_rules strong_text) = None.
Proof.
  unfold strong_rules. cbn [snd].
  destruct (tipo_match (collapse_ws strong_text)) as [g|] eqn:T;
    [|reflexivity].
  destruct (tipo_match_inv _ g T) as ((t & d & r & E & Ls & D) & St & Ne & _).
  cbn [or_default]. rewrite St.
  destruct g as [|c g']; [congruence|]. cbn [truthy].
  destruct (negb _); [|reflexivity].
  rewrite E, replace_first_prefix. unfold strip at 1. rewrite Ls.
  rewrite (rstrip_cons_nonspace d r (digit_not_space d D)).
  rewrite (clase_match_digit d _ D). reflexivity.
Qed.

(** X14: no page gives a [clase_norma]: the rule that would read it
    looks at the heading without its type, which begins with the number,
    so the field of every record is the empty default. *)
Theorem clase_norma_is_never_set (norma_id : Z) (page : Page) :
  rule_clase_norma (soup_of_page page) = None
  /\ clase_norma (extract norma_id (soup_of_page page)) = "".
Proof.
  assert (R : rule_clase_norma (soup_of_page page) = None).
  { unfold soup_of_page. destruct (page_strong page) as [strong_text|].
    - pose proof (strong_rules_clase strong_text) as C.
      destruct (strong_rules strong_text) as [[[tipo numero] organismo] clase].
      cbn [snd] in C. cbn [rule_clase_norma]. exact C.
    - reflexivity. }
  split; [exact R|]. cbn [extract clase_norma]. rewrite R. reflexivity.
Qed.

(** The heading of a joint resolution: the type takes the word of the
    class with it. *)
Example clase_norma_joint_resolution :
  let row := extract 1
               (soup_of_page
                  (heading_page
                     "Resolucion  Conjunta 5/2024 MINISTERIO DE ECONOMIA")) in
  tipo_norma row = "Resolucion Conjunta"
  /\ numero_norma row = "5"
  /\ organismo_origen row = "MINISTERIO DE ECONOMIA"
  /\ clase_norma row = "".
Proof. vm_compute. repeat split; reflexivity. Qed.

Lemma clase_norma_is_never_set_witness :
  clase_norma
    (extract 1
       (soup_of_page
          (heading_page "Resolucion Conjunta 5/2024 MINISTERIO DE ECONOMIA")))
  = "".
Proof.
  exact (proj2 (clase_norma_is_never_set 1
                  (heading_page
                     "Resolucion Conjunta 5/2024 MINISTERIO DE ECONOMIA"))).
Defined.

(** *** The numbers of the record *)

Lemma span_digits_all (s : string) :
  all_chars is_digit (fst (span_digits s)) = true.
Proof.
  induction s as [|c r IH]; [reflexivity|].
  cbn [span_digits]. destruct (is_digit c) eqn:D; [|reflexivity].
  destruct (span_digits r) as [ds rest]. cbn [fst all_chars] in *.
  rewrite D, IH. reflexivity.
Qed.

Lemma span_digits_number (c : ascii) (r : string) :
  is_digit c = true -> is_number (fst (span_digits (String c r))) = true.
Proof.
  intros D. unfold is_number. rewrite span_digits_all, andb_true_r.
  cbn [span_digits]. rewrite D. destruct (span_digits r). reflexivity.
Qed.

Lemma span_digits_nonempty_number (s ds rest : string) :
  span_digits s = (ds, rest) -> ds <> "" -> is_number ds = true.
Proof.
  intros E N. unfold is_number.
  pose proof (span_digits_all s) as A. rewrite E in A. cbn [fst] in A.
  rewrite A, andb_true_r. destruct ds; [congruence | reflexivity].
Qed.

Lemma numero_search_number (s : string) :
  forall prev_word ds, numero_search prev_word s = Some ds -> is_number ds = true.
Proof.
  induction s as [|c r IH]; intros b ds; [discriminate|].
  cbn [numero_search]. destruct (is_digit c && negb b) eqn:C.
  - apply andb_prop in C. destruct C as [D _].
    pose proof (span_digits_number c r D) as N.
    destruct (span_digits (String c r)) as [ds' rest]. cbn [fst] in N.
    destruct rest as [|c' rest'].
    + intros H. injection H as H. subst ds'. exact N.
    + destruct (is_word c'); [apply IH|].
      intros H. injection H as H. subst ds'. exact N.
  - apply IH.
Qed.

Lemma search_label_number_number (first : ascii) (second : ascii -> bool)
  (label_rest s ds : string) :
  search_label_number first second label_rest s = Some ds ->
  is_number ds = true.
Proof.
  induction s as [|c r IH].
  - cbn [search_label_number label_number_at]. discriminate.
  - cbn [search_label_number].
    destruct (label_number_at first second label_rest (String c r))
      as [ds'|] eqn:A; [|exact IH].
    intros H. injection H as H. subst ds'. revert A.
    unfold label_number_at. destruct r as [|b r']; [discriminate|].
    destruct (Ascii.eqb c first && second b); [|discriminate].
    destruct (strip_prefix label_rest r') as [r1|]; [|discriminate].
    destruct (span_digits (snd (span is_space r1))) as [ds' rest] eqn:Sd.
    destruct ds' as [|d ds'']; [discriminate|].
    intros H. injection H as H. subst ds.
    apply (span_digits_nonempty_number _ _ _ Sd). discriminate.
Qed.

Lemma search_digits_number (s ds : string) :
  search_digits s = Some ds -> is_number ds = true.
Proof.
  induction s as [|c r IH]; [discriminate|].
  cbn [search_digits]. destruct (is_digit c) eqn:D; [|exact IH].
  intros H. injection H as H. subst ds. apply span_digits_number. exact D.
Qed.

Lemma and_then_some {A B : Type} (o : option A) (f : A -> option B) (b : B) :
  and_then o f = Some b -> exists a, o = Some a /\ f a = Some b.
Proof. destruct o as [a|]; [|discriminate]. intros H. exists a. auto. Qed.

Lemma soup_of_page_numero (page : Page) (ds : string) :
  rule_numero_norma (soup_of_page page) = Some ds -> is_number ds = true.
Proof.
  unfold soup_of_page. destruct (page_strong page) as [strong_text|].
  - unfold strong_rules. cbn [rule_numero_norma]. apply numero_search_number.
  - discriminate.
Qed.

(** X15: the numbers of a record are written with decimal digits only:
    [numero_norma] is the default ["S/N"] or a number, [numero_boletin]
    and [pagina_boletin] are empty or a number, and the two counts
    [modificada_por] and [modifica_a] are always a number, ["0"] by
    default. *)
Theorem numbers_are_digit_strings (norma_id : Z) (page : Page) :
  let row := extract norma_id (soup_of_page page) in
  (numero_norma row = "S/N" \/ is_number (numero_norma row) = true)
  /\ (numero_boletin row = "" \/ is_number (numero_boletin row) = true)
  /\ (pagina_boletin row = "" \/ is_number (pagina_boletin row) = true)
  /\ is_number (modificada_por row) = true
  /\ is_number (modifica_a row) = true.
Proof.
  cbn zeta. cbn [extract numero_norma numero_boletin pagina_boletin
                   modificada_por modifica_a].
  split; [|split; [|split; [|split]]].
  - destruct (rule_numero_norma (soup_of_page page)) as [ds|] eqn:R.
    + right. exact (soup_of_page_numero page ds R).
    + left. reflexivity.
  - destruct (rule_numero_boletin (soup_of_page page)) as [ds|] eqn:R.
    + right. cbn [or_default]. revert R. unfold soup_of_page.
      destruct (match page_strong page with
                | Some strong_text => strong_rules strong_text
                | None => (None, None, None, None)
                end) as [[[tipo numero] organismo] clase].
      cbn [rule_numero_boletin]. intros R.
      apply and_then_some in R. destruct R as (t & _ & R).
      exact (search_label_number_number _ _ _ _ _ R).
    + left. reflexivity.
  - destruct (rule_pagina_boletin (soup_of_page page)) as [ds|] eqn:R.
    + right. cbn [or_default]. revert R. unfold soup_of_page.
      destruct (match page_strong page with
                | Some strong_text => strong_rules strong_text
                | None => (None, None, None, None)
                end) as [[[tipo numero] organismo] clase].
      cbn [rule_pagina_boletin]. intros R.
      apply and_then_some in R. destruct R as (t & _ & R).
      exact (search_label_number_number _ _ _ _ _ R).
    + left. reflexivity.
  - destruct (rule_modificada_por (soup_of_page page)) as [ds|] eqn:R;
      [|reflexivity].
    cbn [or_default]. revert R. unfold soup_of_page.
    destruct (match page_strong page with
              | Some strong_text => strong_rules strong_text
              | None => (None, None, None, None)
              end) as [[[tipo numero] organismo] clase].
    cbn [rule_modificada_por]. intros R.
    apply and_then_some in R. destruct R as (t & _ & R).
    exact (search_digits_number _ _ R).
  - destruct (rule_modifica_a (soup_of_page page)) as [ds|] eqn:R;
      [|reflexivity].
    cbn [or_default]. revert R. unfold soup_of_page.
    destruct (match page_strong page with
              | Some strong_text => strong_rules strong_text
              | None => (None, None, None, None)
              end) as [[[tipo numero] organismo] clase].
    cbn [rule_modifica_a]. intros R.
    apply and_then_some in R. destruct R as (t & _ & R).
    exact (search_digits_number _ _ R).
Qed.

(** *** The links and the summary *)

Lemma absolute_url_http (href : string) :
  startswith "http" (absolute_url href) = true.
Proof.
  unfold absolute_url. destruct (startswith "http" href) eqn:S; cbn [negb].
  - exact S.
  - reflexivity.
Qed.

Lemma extract_link_http (link : option (option string)) (url : string) :
  extract_link link = Some url -> startswith "http" url = true /\ url <> "".
Proof.
  destruct link as [[href|]|]; try discriminate. cbn [extract_link].
  destruct (truthy href); [|discriminate].
  intros H. injection H as H. subst url.
  pose proof (absolute_url_http href) as A. split; [exact A|].
  intros E. rewrite E in A. discriminate A.
Qed.

(** X16: [texto_original] and [texto_actualizado] are empty or start
    with ["http"]: the address of a link is kept when it starts so, and
    put after the address of the site otherwise; an address that is
    already absolute is not changed by the rule. *)
Theorem document_links_are_absolute (norma_id : Z) (page : Page) :
  let row := extract norma_id (soup_of_page page) in
  (texto_original row = "" \/ startswith "http" (texto_original row) = true)
  /\ (texto_actualizado row = ""
      \/ startswith "http" (texto_actualizado row) = true)
  /\ (forall href, absolute_url (absolute_url href) = absolute_url href).
Proof.
  cbn zeta. cbn [extract texto_original texto_actualizado].
  assert (O : rule_texto_original (soup_of_page page)
              = extract_link (page_texto_link page)).
  { unfold soup_of_page.
    destruct (match page_strong page with
              | Some strong_text => strong_rules strong_text
              | None => (None, None, None, None)
              end) as [[[tipo numero] organismo] clase]. reflexivity. }
  assert (A : rule_texto_actualizado (soup_of_page page)
              = extract_link (page_actualizado_link page)).
  { unfold soup_of_page.
    destruct (match page_strong page with
              | Some strong_text => strong_rules strong_text
              | None => (None, None, None, None)
              end) as [[[tipo numero] organismo] clase]. reflexivity. }
  rewrite O, A. split; [|split].
  - destruct (extract_link (page_texto_link page)) as [url|] eqn:E.
    + right. exact (proj1 (extract_link_http _ _ E)).
    + left. reflexivity.
  - destruct (extract_link (page_actualizado_link page)) as [url|] eqn:E.
    + right. exact (proj1 (extract_link_http _ _ E)).
    + left. reflexivity.
  - intros href. unfold absolute_url at 1.
    rewrite absolute_url_http. reflexivity.
Qed.

Lemma resumen_of_paragraphs_long (paragraphs : list string) (text : string) :
  resumen_of_paragraphs paragraphs = Some text -> 10 < len text.
Proof.
  induction paragraphs as [|p rest IH]; [discriminate|].
  cbn [resumen_of_paragraphs].
  destruct (startswith "Resumen:" p || startswith "resumen:" p); [|exact IH].
  destruct (10 <? len (remove_label p)) eqn:L; [|exact IH].
  intros H. injection H as H. subst text. apply Z.ltb_lt. exact L.
Qed.

(** X17: [texto_resumido] is empty or longer than ten characters,
    whichever of the two places it is read from: a summary of ten
    characters or fewer is dropped. *)
Theorem texto_resumido_is_long_or_empty (norma_id : Z) (page : Page) :
  let row := extract norma_id (soup_of_page page) in
  texto_resumido row = "" \/ 10 < len (texto_resumido row).
Proof.
  cbn zeta. cbn [extract texto_resumido].
  assert (R : rule_texto_resumido (soup_of_page page)
              = extract_texto_resumido page).
  { unfold soup_of_page.
    destruct (match page_strong page with
              | Some strong_text => strong_rules strong_text
              | None => (None, None, None, None)
              end) as [[[tipo numero] organismo] clase]. reflexivity. }
  rewrite R. unfold extract_texto_resumido.
  destruct (page_resumen_parent page) as [parent_text|].
  - destruct (truthy (remove_label parent_text)
              && (10 <? len (remove_label parent_text))) eqn:C.
    + right. cbn [or_default]. apply andb_prop in C. destruct C as [_ C].
      apply Z.ltb_lt. exact C.
    + destruct (resumen_of_paragraphs (page_paragraphs page)) as [t|] eqn:P.
      * right. exact (resumen_of_paragraphs_long _ _ P).
      * left. reflexivity.
  - destruct (resumen_of_paragraphs (page_paragraphs page)) as [t|] eqn:P.
    + right. exact (resumen_of_paragraphs_long _ _ P).
    + left. reflexivity.
Qed.

(** A short summary under the label does not stop the search: the next
    paragraph with the label is read. *)
Example texto_resumido_skips_short :
  texto_resumido
    (extract 1
       (soup_of_page
          (mkPage None None None None (Some "Resumen: breve")
             ["Resumen: corto"; "RESUMEN: no se lee por la mayuscula";
              "resumen:   Designase al director del organismo."]
             None None None None None)))
  = "Designase al director del organismo.".
Proof. reflexivity. Qed.

Lemma startswith_app (p t : string) : startswith p (p ++ t) = true.
Proof.
  induction p as [|a p IH]; [destruct t; reflexivity|].
  cbn [String.append startswith]. rewrite Ascii.eqb_refl. exact IH.
Qed.

Lemma digit_not_tipo_letter (c : ascii) :
  is_digit c = true -> is_tipo_letter c = false.
Proof.
  destruct c as [[] [] [] [] [] [] [] []]; vm_compute; congruence.
Qed.

Lemma space_not_tipo_letter (c : ascii) :
  is_space c = true -> is_tipo_letter c = false.
Proof.
  destruct c as [[] [] [] [] [] [] [] []]; vm_compute; congruence.
Qed.

(** After the words, white space and a digit end the group. *)
Lemma tipo_rest_number (t : string) (d : ascii) (r : string) :
  forall after_space,
    lstrip t = String d r -> is_digit d = true ->
    after_space = true \/ (exists w t', t = String w t' /\ is_space w = true) ->
    tipo_rest after_space t = Some EmptyString.
Proof.
  induction t as [|c t IH]; intros b Ls D Hb; [discriminate Ls|].
  cbn [tipo_rest]. cbn [lstrip] in Ls. destruct (is_space c) eqn:Sp.
  - rewrite (space_not_tipo_letter c Sp).
    rewrite (IH true Ls D (or_introl eq_refl)). reflexivity.
  - injection Ls as Ec Er. subst c.
    rewrite (digit_not_tipo_letter d D), D.
    destruct Hb as [-> | (w & t' & E & Sw)]; [reflexivity|].
    injection E as E _. subst w. congruence.
Qed.

Lemma rstrip_tail (c : ascii) (g : string) :
  rstrip (String c g) = String c g ->
  (g = EmptyString /\ is_space c = false) \/ (g <> EmptyString /\ rstrip g = g).
Proof.
  cbn [rstrip]. destruct (rstrip g) as [|c' r'] eqn:E.
  - destruct (is_space c); [discriminate|].
    intros H. injection H as H. left. split; [symmetry; exact H | reflexivity].
  - intros H. injection H as H. right. rewrite <- H. split; [discriminate | reflexivity].
Qed.

(** Letters and white space that do not end in white space, followed by
    white space and a digit, are the rest of the group. *)
Lemma tipo_rest_words (g t : string) (w : ascii) (t' : string) (d : ascii)
  (r : string) :
  forall after_space,
    all_chars (fun c => is_tipo_letter c || is_space c) g = true ->
    g = EmptyString \/ rstrip g = g ->
    t = String w t' -> is_space w = true ->
    lstrip t = String d r -> is_digit d = true ->
    tipo_rest after_space (g ++ t) = Some g.
Proof.
  induction g as [|c g IH]; intros b Al St Et Sw Ls D.
  - cbn [String.append]. apply (tipo_rest_number t d r b Ls D).
    right. exists w, t'. auto.
  - destruct St as [St | St]; [discriminate St|].
    cbn [all_chars] in Al. apply andb_prop in Al. destruct Al as [Lc Al].
    cbn [String.append tipo_rest].
    destruct (rstrip_tail c g St) as [[Eg Sp] | [Ng Sg]].
    + subst g. destruct (is_tipo_letter c) eqn:L.
      * rewrite (IH false Al (or_introl eq_refl) Et Sw Ls D). reflexivity.
      * rewrite Sp in Lc. discriminate Lc.
    + destruct (is_tipo_letter c) eqn:L.
      * rewrite (IH false Al (or_intror Sg) Et Sw Ls D). reflexivity.
      * cbn [orb] in Lc. rewrite Lc.
        rewrite (IH true Al (or_intror Sg) Et Sw Ls D).
        destruct g; [congruence | reflexivity].
Qed.

Lemma string_app_inv_head (g t1 t2 : string) :
  (g ++ t1 = g ++ t2)%string -> t1 = t2.
Proof.
  induction g as [|c g IH]; cbn [String.append]; intros H; [exact H|].
  injection H as H. exact (IH H).
Qed.

(** White space follows the group, but when the group to come is empty
    and white space was just read. *)
Lemma tipo_rest_space (s : string) :
  forall after_space g,
    tipo_rest after_space s = Some g ->
    exists t,
      s = (g ++ t)%string
      /\ ((exists w t', t = String w t' /\ is_space w = true)
          \/ (g = EmptyString /\ after_space = true)).
Proof.
  induction s as [|c s IH]; intros b g; [discriminate|].
  cbn [tipo_rest]. destruct (is_tipo_letter c) eqn:L.
  - destruct (tipo_rest false s) as [g1|] eqn:R; [|discriminate].
    intros H. injection H as H. subst g.
    destruct (IH false g1 R) as (t & E & [W | [_ F]]); [|discriminate F].
    exists t. split; [rewrite E; reflexivity | left; exact W].
  - destruct (is_space c) eqn:Sp.
    + destruct (tipo_rest true s) as [g1|] eqn:R; [|discriminate].
      destruct g1 as [|c1 g1'].
      * intros H. injection H as H. subst g. exists (String c s).
        split; [reflexivity|]. left. exists c, s. auto.
      * intros H. injection H as H. subst g.
        destruct (IH true _ R) as (t & E & [W | [F _]]); [|discriminate F].
        exists t. split; [rewrite E; reflexivity | left; exact W].
    + destruct (is_digit c) eqn:D; [|discriminate].
      destruct b; [|discriminate]. intros H. injection H as H. subst g.
      exists (String c s). split; [reflexivity|]. right. auto.
Qed.

(** The group of the rule of [tipo_norma]: the words before a number. *)
Lemma tipo_match_iff (s g : string) :
  tipo_match s = Some g <-> leading_words s g.
Proof.
  split.
  - intros T. destruct (tipo_match_inv s g T)
      as ((t & d & r & E & Ls & D) & St & Ne & Al).
    destruct s as [|c s]; [discriminate T|]. cbn [tipo_match] in T.
    destruct (is_tipo_letter c) eqn:L; [|discriminate].
    destruct (tipo_rest false s) as [g1|] eqn:R; [|discriminate].
    injection T as T. subst g.
    destruct (tipo_rest_space s false g1 R) as (t1 & E1 & [W | [_ F]]);
      [|discriminate F].
    destruct W as (w & t' & Et & Sw).
    cbn [String.append] in E. injection E as E.
    assert (t = t1) by (apply (string_app_inv_head g1); congruence). subst t1.
    split; [exists c, g1; auto|]. split; [exact St|]. split; [exact Al|].
    exists w, t', d, r. subst t. cbn [lstrip] in Ls. rewrite Sw in Ls.
    cbn [String.append]. rewrite E1. auto.
  - intros ((c & g' & Eg & L) & St & Al & (w & t & d & r & E & Sw & Ls & D)).
    subst g s. cbn [String.append tipo_match]. rewrite L.
    cbn [all_chars] in Al. apply andb_prop in Al. destruct Al as [_ Al].
    assert (Sg : g' = EmptyString \/ rstrip g' = g').
    { unfold strip in St.
      rewrite (lstrip_nonspace c g' (tipo_letter_not_space c L)) in St.
      destruct (rstrip_tail c g' St) as [[E _] | [_ E]]; auto. }
    rewrite (tipo_rest_words g' (String w t) w t d r false Al Sg eq_refl Sw).
    + reflexivity.
    + cbn [lstrip]. rewrite Sw. exact Ls.
    + exact D.
Qed.

(** X18: [tipo_norma] is set to [g] exactly when [g] is the words that
    start the heading (its white space collapsed) before a number: [g]
    starts with a letter, is made of letters and white space only, none
    at its end, and white space and then a digit follow it in the
    heading.  A heading that has no such start gives no type: one that
    does not start with a letter, one in which no number follows the
    words, or one whose number is not set apart from the words by white
    space. *)
Theorem tipo_norma_is_the_leading_words (norma_id : Z) (page : Page) :
  let row := extract norma_id (soup_of_page page) in
  (forall g,
      (tipo_norma row = g /\ g <> "")
      <-> exists strong_text,
            page_strong page = Some strong_text
            /\ leading_words (collapse_ws strong_text) g)
  /\ (tipo_norma row = ""
      <-> forall strong_text g,
            page_strong page = Some strong_text ->
            ~ leading_words (collapse_ws strong_text) g).
Proof.
  cbn zeta. cbn [extract tipo_norma]. unfold soup_of_page.
  destruct (page_strong page) as [strong_text|].
  2:{ cbn [rule_tipo_norma or_default]. split.
      - intros g. split; [intros [<- N]; congruence|].
        intros (s & E & _). discriminate E.
      - split; [intros _ s g E; discriminate E | reflexivity]. }
  unfold strong_rules.
  destruct (tipo_match (collapse_ws strong_text)) as [g0|] eqn:T;
    cbn [rule_tipo_norma or_default].
  - pose proof (proj1 (tipo_match_iff _ _) T) as W.
    destruct (tipo_match_inv _ g0 T) as (_ & St & Ne & _). rewrite St.
    split.
    + intros g. split.
      * intros [<- _]. exists strong_text. auto.
      * intros (s & E & W'). injection E as E. subst s.
        apply tipo_match_iff in W'. rewrite T in W'. injection W' as W'.
        subst g. auto.
    + split; [intros E; congruence|].
      intros H. exfalso. exact (H strong_text g0 eq_refl W).
  - split.
    + intros g. split; [intros [<- N]; congruence|].
      intros (s & E & W). injection E as E. subst s.
      apply tipo_match_iff in W. congruence.
    + split; [|reflexivity]. intros _ s g E W. injection E as E. subst s.
      apply tipo_match_iff in W. congruence.
Qed.

(** A heading whose number is glued to the type gives neither a type
    nor a number. *)
Example tipo_norma_needs_a_space :
  let row := extract 1 (soup_of_page (heading_page "Ley26865 CONGRESO")) in
  tipo_norma row = "" /\ numero_norma row = "S/N"
  /\ organismo_origen row = "CONGRESO".
Proof. vm_compute. repeat split; reflexivity. Qed.

Lemma numbers_are_digit_strings_witness :
  is_number
    (modifica_a
       (extract 1
          (soup_of_page
             (mkPage None None None None None [] None None
                (Some "Esta norma modifica o complementa a 12 norma(s).")
                None None))))
  = true.
Proof.
  exact (proj2 (proj2 (proj2 (proj2
           (numbers_are_digit_strings 1
              (mkPage None None None None None [] None None
                 (Some "Esta norma modifica o complementa a 12 norma(s).")
                 None None)))))).
Defined.

Lemma document_links_are_absolute_witness :
  texto_original
    (extract 1
       (soup_of_page
          (mkPage None None None None None []
             (Some (Some "anexos/1-4999/norma.htm")) None None None None)))
  = "http://servicios.infoleg.gob.ar/infolegInternet/anexos/1-4999/norma.htm"
  /\ absolute_url (absolute_url "anexos/1-4999/norma.htm")
     = absolute_url "anexos/1-4999/norma.htm".
Proof.
  split; [reflexivity|].
  exact (proj2 (proj2 (document_links_are_absolute 1
                         (mkPage None None None None None [] None None None
                            None None)))
           "anexos/1-4999/norma.htm").
Defined.

Lemma texto_resumido_is_long_or_empty_witness :
  let row :=
    extract 1
      (soup_of_page
         (mkPage None None None None (Some "Resumen: breve") [] None None None
            None None)) in
  texto_resumido row = "" \/ 10 < len (texto_resumido row).
Proof.
  exact (texto_resumido_is_long_or_empty 1
           (mkPage None None None None (Some "Resumen: breve") [] None None
              None None None)).
Defined.

Lemma tipo_norma_is_the_leading_words_witness :
  tipo_norma
    (extract 1
       (soup_of_page (heading_page "Decreto 70/2023 PODER EJECUTIVO NACIONAL")))
  = "Decreto"
  /\ tipo_norma (extract 1 (soup_of_page (heading_page "Ley26865 CONGRESO")))
     = "".
Proof.
  split.
  - apply (proj2 (proj1 (tipo_norma_is_the_leading_words 1
             (heading_page "Decreto 70/2023 PODER EJECUTIVO NACIONAL"))
             "Decreto")).
    exists "Decreto 70/2023 PODER EJECUTIVO NACIONAL". split; [reflexivity|].
    split; [exists "D"%char, "ecreto"; split; reflexivity|].
    split; [reflexivity|]. split; [reflexivity|].
    exists " "%char, "70/2023 PODER EJECUTIVO NACIONAL", "7"%char,
      "0/2023 PODER EJECUTIVO NACIONAL".
    repeat split; reflexivity.
  - reflexivity.
Defined.

(** ** The command line *)

(** X22: the command line runs the fetcher with its own width and delay,
    10 and 3.0 by default, whatever the resource is configured with: two
    clients that differ in [batch_size] and [delay_bw_batches] only do
    the same.  Without [--date] the date is the text ["None"], which
    [strptime] does not read: the run raises [ValueError] with the output
    file opened and its header written. *)
Theorem cli_main_uses_its_own_width (self other : InfolegClient) (site : Site)
  (args : Args) :
  daily_scrape_count self = daily_scrape_count other ->
  cli_main self site args = cli_main other site args
  /\ (args_date args = None ->
      cli_main self site args = (Raise ValueError, [EvWriteHeader; EvClose])).
Proof.
  intros H. split.
  - unfold cli_main, scrape_by_date. rewrite H. reflexivity.
  - intros D. unfold cli_main. rewrite D.
    apply scrape_by_date_malformed. reflexivity.
Qed.

Lemma cli_main_uses_its_own_width_witness :
  cli_main default_client three_normas default_args
  = cli_main (mkClient 200 1 (0 # 1)) three_normas default_args
  /\ cli_main default_client three_normas default_args
     = (Raise ValueError, [EvWriteHeader; EvClose]).
Proof.
  destruct (cli_main_uses_its_own_width default_client (mkClient 200 1 (0 # 1))
              three_normas default_args eq_refl) as [E N].
  split; [exact E | exact (N eq_refl)].
Defined.
